(** * DARVO / coercive-control pattern engine: shallow embedding and claims

    Embedded sources:
    - [darvo_indicators.py]   the static lexicon, compound patterns, weights
    - [darvo_analyzer.py]     class [DARVOAnalyzer]
    - [abuse_pattern_engine.py] class [AbusePatternEngine]
    - [conversation_analyzer.py] class [ConversationAnalyzer]: [__init__],
      [analyze_escalation_patterns], [analyze_isolation_tactics],
      [_calculate_time_span], [analyze_darvo_tactics]
    - [message_normalizer.py] the normalizer [__init__] applies
    - [analyze.py]            the sliding-window fuzzy scan of [analyze_text]

    Conventions of the embedding.
    - Python [str] values are [string]s of code points below 128
      ([Text.ascii_only]); [str.lower], [str.upper], [str.strip] and the
      regex classes [\w], [\b], [\s] are modelled on that range only.
      Where a statement depends on what these classes hold, rather than
      relating the functions of the program to each other, it is stated for
      texts in that range.
    - A naive [datetime] is the number of microseconds since
      0001-01-01T00:00:00, from 0 ([datetime.min]) to [Datetime.max]; a
      [timedelta] is a number of microseconds.  Date sums are computed in
      [Z]; where Python raises OverflowError on a sum outside the range, a
      statement that promises the bucketing loop's result carries the range
      as a hypothesis.
    - The key [strftime('%Y-%m-%d')] of a week is kept as the day number of
      that date.  The two determine each other; they are also ordered alike
      for the years 1000 to 9999, where the year is printed with four
      digits; the rule that compares the first and the last week is stated
      for that range.
    - [datetime.now()] reads an explicit clock (section "Clock").
    - Python dicts whose iteration order is observable are association
      lists in insertion order; the index sets of the forensic summary are
      [gset nat]. *)

From Stdlib Require Import ZArith List String Ascii Bool Lia Permutation.
From Stdlib Require Import DecimalString Sorted.
From stdpp Require Import base list strings gmap.

Import ListNotations.
Local Open Scope nat_scope.

(* ================================================================== *)
(** * Text primitives *)
(* ================================================================== *)

Module Text.

Definition chars (s : string) : list ascii := list_ascii_of_string s.

(** The texts the embedding stands for: every code point is below 128. *)
Definition ascii_only (s : list ascii) : bool :=
  List.forallb (fun c => Nat.ltb (nat_of_ascii c) 128) s.

Definition in_range (lo hi : nat) (c : ascii) : bool :=
  let n := nat_of_ascii c in Nat.leb lo n && Nat.leb n hi.

Definition is_upper (c : ascii) : bool := in_range 65 90 c.

(** [str.lower] on one code point below 128. *)
Definition lower_char (c : ascii) : ascii :=
  if is_upper c then ascii_of_nat (nat_of_ascii c + 32) else c.

Definition lower (s : list ascii) : list ascii := List.map lower_char s.

(** The regex class [\w] on code points below 128: letters, digits and the
    underscore.  (On [str] the class also holds letters and digits beyond
    that range, which the embedding does not cover.) *)
Definition is_word (c : ascii) : bool :=
  in_range 48 57 c || in_range 65 90 c || in_range 97 122 c
  || Nat.eqb (nat_of_ascii c) 95.

Definition word_opt (o : option ascii) : bool :=
  match o with Some c => is_word c | None => false end.

(** [\b] between the character before a position and the one at it;
    outside the text counts as a non-word character. *)
Definition at_boundary (before after : option ascii) : bool :=
  xorb (word_opt before) (word_opt after).

(** Consume the literal [lit] at the head of [text]. *)
Fixpoint match_literal (lit text : list ascii) : option (list ascii) :=
  match lit, text with
  | [], _ => Some text
  | c :: lit', d :: text' =>
      if Ascii.eqb c d then match_literal lit' text' else None
  | _ :: _, [] => None
  end.

Definition last_before_end (prev : option ascii) (lit : list ascii)
  : option ascii :=
  match lit with
  | [] => prev
  | c :: lit' => Some (List.last lit' c)
  end.

(** [\b lit \b] anchored at the current position; [prev] is the character
    just before it. *)
Definition match_at (prev : option ascii) (lit text : list ascii) : bool :=
  match match_literal lit text with
  | Some rest =>
      at_boundary prev (List.head text)
      && at_boundary (last_before_end prev lit) (List.head rest)
  | None => false
  end.

(** [re.search(r'\b' + re.escape(lit) + r'\b', text)] as a truth value. *)
Fixpoint search_from (prev : option ascii) (lit text : list ascii) : bool :=
  match_at prev lit text
  || match text with
     | [] => false
     | c :: text' => search_from (Some c) lit text'
     end.

Definition re_search_word (lit text : list ascii) : bool :=
  search_from None lit text.

(** [sub in text] for Python strings. *)
Fixpoint is_prefix (p s : list ascii) : bool :=
  match p, s with
  | [], _ => true
  | c :: p', d :: s' => Ascii.eqb c d && is_prefix p' s'
  | _ :: _, [] => false
  end.

Fixpoint contains (sub text : list ascii) : bool :=
  is_prefix sub text
  || match text with
     | [] => false
     | _ :: text' => contains sub text'
     end.

(** [s[:n]] *)
Definition take_str (n : nat) (s : string) : string :=
  string_of_list_ascii (List.firstn n (chars s)).

(** Decimal rendering of a non-negative integer, as an f-string prints it. *)
Definition str_of_nat (n : nat) : string :=
  NilZero.string_of_uint (Nat.to_uint n).

End Text.

(** [re.search(r'\b' + re.escape(keyword.lower()) + r'\b', text)], the test
    every detector of [darvo_analyzer.py] applies; [text] is the message
    text already lower-cased by the caller. *)
Definition keyword_hit (keyword : string) (text : list ascii) : bool :=
  Text.re_search_word (Text.lower (Text.chars keyword)) text.

(* ================================================================== *)
(** * The lexicon ([darvo_indicators.py]) *)
(* ================================================================== *)

Definition Dict (V : Type) : Type := list (string * V).

Fixpoint dict_get {V : Type} (d : Dict V) (k : string) : option V :=
  match d with
  | [] => None
  | (k', v) :: d' => if String.eqb k k' then Some v else dict_get d' k
  end.

Definition dict_keys {V : Type} (d : Dict V) : list string := List.map fst d.
Definition dict_values {V : Type} (d : Dict V) : list V := List.map snd d.

(** [d[k]] for a table of sub-tables; the keys used by the analyzer are all
    present (lemma [lexicon_keys_present]). *)
Definition sub_table {V : Type} (d : Dict (Dict V)) (k : string) : Dict V :=
  match dict_get d k with Some v => v | None => [] end.

Local Open Scope string_scope.

Definition DARVO_INDICATORS : Dict (Dict (list string)) :=
  [ ("Deny", [
      ("minimization",
         ["it wasn't that bad"; "you're exaggerating"; "it's not a big deal";
          "you're making it worse than it was"; "that never happened";
          "you're remembering it wrong"; "it wasn't like that";
          "you're blowing it out of proportion"; "I barely"; "I hardly";
          "all I did was"; "I only"; "just a little"; "not as bad as";
          "everyone does it"; "it's normal"; "that's just how I am"]);
      ("outright_denial",
         ["I never said that"; "I never did that"; "that didn't happen";
          "you're lying"; "you made that up"; "prove it";
          "where's your evidence"; "that's not true"; "I would never";
          "you're making things up"; "I don't remember that"; "you're confused";
          "you're mistaken"; "that's fabricated"; "complete lies";
          "false accusations"]);
      ("blame_shifting",
         ["you made me"; "you provoked me"; "you started it"; "if you hadn't";
          "you caused this"; "it's your fault"; "you pushed me to";
          "you left me no choice"; "what did you expect"; "you should have";
          "you shouldn't have"; "because of you"; "you're responsible for";
          "you brought this on yourself"])
    ]);
    ("Attack", [
      ("credibility_attacks",
         ["you're crazy"; "you're mentally ill"; "you're unstable";
          "you need help"; "you're delusional"; "you're paranoid";
          "you're irrational"; "you can't be trusted"; "you're unreliable";
          "everyone knows you're"; "history of lying"; "track record";
          "you always lie"; "nobody believes you"; "you're not credible";
          "you have issues"; "seek therapy"; "get help"]);
      ("character_assassination",
         ["you're a bad mother"; "you're a bad father"; "unfit parent";
          "bad person"; "terrible"; "vindictive"; "vengeful"; "manipulative";
          "controlling"; "abusive"; "toxic"; "you're the problem";
          "you're the one"; "you're actually"; "you're just like"; "narcissist";
          "sociopath"; "psycho"]);
      ("threat_of_consequences",
         ["I'll tell everyone"; "I'll expose you"; "everyone will know";
          "you'll lose the kids"; "I'll take the children"; "custody";
          "I'll ruin you"; "destroy your reputation"; "nobody will believe you";
          "you'll regret this"; "you'll pay for this"; "I'll make sure";
          "the court will see"; "the judge will know"; "I'll prove";
          "evidence against you"; "document everything"; "legal action"]);
      ("gaslighting",
         ["that never happened"; "you're imagining things";
          "you're too sensitive"; "you're overreacting"; "you can't take a joke";
          "you're being dramatic"; "you're twisting things";
          "that's not what I meant"; "you misunderstood";
          "you're reading too much into it"; "you're being ridiculous";
          "you're making a scene"; "calm down"; "relax"])
    ]);
    ("Reverse_Victim_Offender", [
      ("self_victimization",
         ["I'm the victim here"; "I'm the one suffering"; "what about me";
          "I'm being attacked"; "I'm being abused"; "I'm being harassed";
          "you're hurting me"; "you're destroying me";
          "I can't take this anymore"; "look what you've done to me";
          "I'm the one in pain"; "I'm being treated unfairly";
          "I'm being persecuted"; "this is abuse"; "you're abusing me";
          "I need protection from you"]);
      ("victim_blaming",
         ["you're the real abuser"; "you're the manipulator";
          "you're controlling"; "you're the violent one"; "you started this";
          "you're the aggressor"; "you're alienating the children";
          "parental alienation"; "you're turning them against me";
          "you're poisoning them"; "you're using the children";
          "you're the narcissist"; "you're projecting";
          "you're doing exactly what you accuse me of"]);
      ("false_equivalence",
         ["we're both"; "you do it too"; "you're just as bad";
          "you're no better"; "we both"; "mutual abuse"; "it's mutual";
          "both sides"; "we're equally"; "you also"; "what about when you";
          "remember when you"; "you've done worse"; "at least I didn't"]);
      ("protective_parent_reversal",
         ["I'm protecting the children from you";
          "the children are afraid of you"; "I'm the safe parent";
          "you're unstable around the kids"; "I'm the primary caregiver";
          "the children need me"; "you're a danger to them";
          "I'm keeping them safe"; "they don't want to see you";
          "they're scared of you"; "I'm acting in their best interest"])
    ]);
    ("Institutional_DARVO", [
      ("court_manipulation",
         ["false allegations"; "she's lying to the court";
          "he's deceiving the judge"; "fabricated evidence";
          "coached the children"; "parental alienation syndrome";
          "high conflict parent"; "making false reports";
          "weaponizing the system"; "abusing the legal process";
          "frivolous complaints"; "attention seeking"; "playing the victim card"]);
      ("professional_credibility",
         ["I'm a professional"; "I'm a respected member"; "my reputation";
          "my standing in the community"; "never had complaints before";
          "exemplary record"; "decorated"; "award winning";
          "everyone knows me as"; "ask anyone"; "references will show"]);
      ("systemic_bias_indicators",
         ["mothers always get"; "fathers are discriminated against";
          "the system is biased"; "family court favors";
          "automatically believes"; "without investigation";
          "rushed to judgment"; "presumed guilty"; "not given a fair chance";
          "predetermined outcome"])
    ]) ].

Definition CHILD_FOCUSED_DARVO : Dict (list string) := [
    ("child_weaponization",
       ["the children say"; "ask the kids"; "children don't lie";
        "they told me about"; "they witnessed"; "they're afraid of you";
        "they don't want to see you"; "they asked me to";
        "protecting the children"; "for the kids' safety"]);
    ("parental_alienation_claims",
       ["parental alienation"; "turning the children against me";
        "poisoning their minds"; "coaching the children"; "brainwashing";
        "manipulating the kids"]);
    ("custody_threats",
       ["you'll never see them again"; "I'll get full custody";
        "no visitation"; "supervised visits only"; "unfit parent";
        "not safe around children"; "danger to the kids"])
  ].

(** The roles a message can be classified with. *)
Inductive Role : Type := deny | attack | reverse.

Definition Role_eqb (a b : Role) : bool :=
  match a, b with
  | deny, deny | attack, attack | reverse, reverse => true
  | _, _ => false
  end.

Record CompoundPatternDef : Type := {
  description : string;
  pattern : list Role;
  window_messages : nat
}.

Definition DARVO_COMPOUND_PATTERNS : Dict CompoundPatternDef :=
  [ ("deny_then_attack",
      {| description :=
           "Denying wrongdoing immediately followed by attacking the accuser";
         pattern := [deny; attack];
         window_messages := 3 |});
    ("attack_then_reverse",
      {| description :=
           "Attacking credibility then claiming to be the victim";
         pattern := [attack; reverse];
         window_messages := 5 |});
    ("full_darvo_sequence",
      {| description :=
           "Complete DARVO sequence: deny, attack, then reverse";
         pattern := [deny; attack; reverse];
         window_messages := 10 |}) ].

Definition DARVO_SEVERITY_WEIGHTS : Dict (Dict nat) :=
  [ ("Deny",
      [ ("minimization", 1); ("outright_denial", 2); ("blame_shifting", 3) ]);
    ("Attack",
      [ ("credibility_attacks", 3); ("character_assassination", 4);
        ("threat_of_consequences", 5); ("gaslighting", 3) ]);
    ("Reverse_Victim_Offender",
      [ ("self_victimization", 3); ("victim_blaming", 4);
        ("false_equivalence", 2); ("protective_parent_reversal", 5) ]);
    ("Institutional_DARVO",
      [ ("court_manipulation", 5); ("professional_credibility", 2);
        ("systemic_bias_indicators", 3) ]) ].

(** [DARVO_SEVERITY_WEIGHTS[category][subcategory]] *)
Definition severity_weight (category subcategory : string) : nat :=
  match dict_get (sub_table DARVO_SEVERITY_WEIGHTS category) subcategory with
  | Some w => w
  | None => 0
  end.

Local Close Scope string_scope.

(* ================================================================== *)
(** * Data model *)
(* ================================================================== *)

(** A naive [datetime] in microseconds since 0001-01-01T00:00:00. *)
Definition datetime : Type := Z.

Module Datetime.
Local Open Scope Z_scope.

Definition usec_per_day : Z := 86400000000.

(** [timedelta(days=n)] *)
Definition timedelta_days (n : Z) : Z := n * usec_per_day.

(** Zero-based day number; day 0 is Monday 0001-01-01. *)
Definition day_number (t : datetime) : Z := t / usec_per_day.

(** [datetime.weekday()], Monday = 0. *)
Definition weekday (t : datetime) : Z := day_number t mod 7.

(** Days from 0001-01-01 to the civil date [y-m-d] (proleptic Gregorian),
    used to write the timestamps of examples the way the tests do. *)
Definition days_from_civil (y m d : Z) : Z :=
  let y' := if m <=? 2 then y - 1 else y in
  let era := y' / 400 in
  let yoe := y' - era * 400 in
  let mp := (m + 9) mod 12 in
  let doy := (153 * mp + 2) / 5 + d - 1 in
  let doe := yoe * 365 + yoe / 4 - yoe / 100 + doy in
  era * 146097 + doe - 306.

(** [datetime(y, m, d, hh, mm)] *)
Definition make (y m d hh mm : Z) : datetime :=
  days_from_civil y m d * usec_per_day + (hh * 60 + mm) * 60000000.

(** [datetime.max], 9999-12-31T23:59:59.999999.  [datetime + timedelta]
    raises OverflowError when the sum is later. *)
Definition max : datetime := make 9999 12 31 23 59 + 59999999.
End Datetime.

Record Message : Type := {
  msg_text : string;                 (* msg.get('text', '') *)
  msg_sender : option string;        (* None: key absent *)
  msg_timestamp : option datetime;   (* msg.get('timestamp') *)
  msg_platform : option string
}.

(** [msg.get('text', '').lower()] *)
Definition lower_text (m : Message) : list ascii :=
  Text.lower (Text.chars (msg_text m)).

(** [msg.get('sender', 'Unknown')] *)
Definition sender_or_unknown (m : Message) : string :=
  match msg_sender m with Some s => s | None => "Unknown"%string end.

(** One entry of an ["instances"] list.  [inst_timestamp] stands for
    [timestamp.isoformat() if timestamp else None]; [inst_high_risk] is
    present on child-focused instances only. *)
Record Instance : Type := {
  inst_keyword : string;
  inst_text : string;
  inst_sender : string;
  inst_timestamp : option datetime;
  inst_severity : nat;
  inst_high_risk : option bool
}.

Record SubResult : Type := {
  count : nat;
  instances : list Instance
}.

Record CompoundMatch : Type := {
  pattern_type : string;
  cm_description : string;
  cm_messages : list Message;
  cm_severity : nat;
  start_time : option datetime;
  end_time : option datetime
}.

Inductive RiskLevel : Type := low | medium | high | critical.

Record SeverityAssessment : Type := {
  total_score : nat;
  category_scores : Dict nat;
  risk_level : RiskLevel;
  interpretation : string
}.

Record WindowCounts : Type := {
  deny_count : nat;
  attack_count : nat;
  reverse_count : nat;
  wc_total_score : nat
}.

(** The result of [_analyze_timeline]: either [{"timeline_available": False}]
    alone, or the four-field dictionary.  A window is keyed by the date of the
    Monday of its week, kept as a day number: [strftime('%Y-%m-%d')] prints
    that date, and for four-digit years the order of the printed keys is the
    order of the dates. *)
Inductive TimelineAnalysis : Type :=
| TimelineUnavailable
| TimelineAvailable (time_windows : list (Z * WindowCounts))
                    (escalation_detected : bool)
                    (total_weeks : nat).

Record ComponentsPresent : Type := {
  cp_deny : bool; cp_attack : bool; cp_reverse : bool
}.

Record InstanceCounts : Type := {
  deny_instances : nat;
  attack_instances : nat;
  reverse_instances : nat;
  child_focused_instances : nat
}.

Record ForensicSummary : Type := {
  analysis_date : datetime;          (* datetime.now().isoformat() *)
  total_messages_analyzed : nat;
  darvo_components_present : ComponentsPresent;
  full_darvo_pattern_detected : bool;
  instance_counts : InstanceCounts;
  high_risk_indicators : bool;
  recommended_actions : list string
}.

Record AnalysisResult : Type := {
  deny_patterns : Dict SubResult;
  attack_patterns : Dict SubResult;
  reverse_patterns : Dict SubResult;
  institutional_patterns : Dict SubResult;
  child_focused_patterns : Dict SubResult;
  compound_patterns : list CompoundMatch;
  severity_assessment : SeverityAssessment;
  timeline_analysis : TimelineAnalysis;
  forensic_summary : ForensicSummary
}.

(* ================================================================== *)
(** * Clock *)
(* ================================================================== *)

(** [datetime.now()] is the only effect of the analyzer.  A computation
    reads a clock [nat -> datetime] (the value of the k-th reading) and
    threads the number of readings made so far. *)
Module Clock.
Definition M (A : Type) : Type := (nat -> datetime) -> nat -> A * nat.

Definition ret {A : Type} (a : A) : M A := fun _ n => (a, n).

Definition bind {A B : Type} (c : M A) (k : A -> M B) : M B :=
  fun clk n => let (a, n') := c clk n in k a clk n'.

Definition now : M datetime := fun clk n => (clk n, S n).

(** Run from the first reading and keep the value. *)
Definition run {A : Type} (c : M A) (clk : nat -> datetime) : A :=
  fst (c clk 0).
End Clock.

Notation "'let*' x ':=' c1 'in' c2" := (Clock.bind c1 (fun x => c2))
  (at level 10, x name, c1 at level 100, c2 at level 200).

(* ================================================================== *)
(** * [DARVOAnalyzer]: per-category detectors *)
(* ================================================================== *)

(** The inner keyword loop of every detector:
    [for keyword in keywords: if re.search(...): ...; break]. *)
Fixpoint scan_keywords (text : list ascii) (keywords : list string)
  : option string :=
  match keywords with
  | [] => None
  | keyword :: rest =>
      if keyword_hit keyword text then Some keyword   (* break *)
      else scan_keywords text rest
  end.

(** [any(re.search(...) for keywords in table.values() for kw in keywords)] *)
Definition any_keyword (table : Dict (list string)) (text : list ascii)
  : bool :=
  List.existsb (fun keywords =>
                  List.existsb (fun kw => keyword_hit kw text) keywords)
               (dict_values table).

(** [results[k] = f(results[k])] on a dictionary that has the key. *)
Fixpoint dict_adjust {V : Type} (f : V -> V) (k : string) (d : Dict V)
  : Dict V :=
  match d with
  | [] => []
  | (k', v) :: d' =>
      if String.eqb k k' then (k', f v) :: d'
      else (k', v) :: dict_adjust f k d'
  end.

Definition empty_results (subcategories : list string) : Dict SubResult :=
  List.map (fun s => (s, {| count := 0; instances := [] |})) subcategories.

Section Detector.
(** One detector: the lexicon table it walks, the severity it writes on an
    instance and the optional ["high_risk"] entry. *)
Variable table : Dict (list string).
Variable severity_of : string -> nat.
Variable high_risk : option bool.

Definition make_instance (msg : Message) (subcategory keyword : string)
  : Instance :=
  {| inst_keyword := keyword;
     inst_text := Text.take_str 200 (msg_text msg);
     inst_sender := sender_or_unknown msg;
     inst_timestamp := msg_timestamp msg;
     inst_severity := severity_of subcategory;
     inst_high_risk := high_risk |}.

Definition record_instance (inst : Instance) (r : SubResult) : SubResult :=
  {| count := S (count r); instances := instances r ++ [inst] |}.

(** Body of [for subcategory, keywords in table.items()]. *)
Definition detect_subcategory (msg : Message) (results : Dict SubResult)
           (item : string * list string) : Dict SubResult :=
  let (subcategory, keywords) := item in
  match scan_keywords (lower_text msg) keywords with
  | Some keyword =>
      dict_adjust (record_instance (make_instance msg subcategory keyword))
                  subcategory results
  | None => results
  end.

(** Body of [for msg in self.messages]. *)
Definition detect_message (results : Dict SubResult) (msg : Message)
  : Dict SubResult :=
  List.fold_left (detect_subcategory msg) table results.

Definition detect_patterns (initial : Dict SubResult)
           (messages : list Message) : Dict SubResult :=
  List.fold_left detect_message messages initial.
End Detector.

Local Open Scope string_scope.

Definition Deny_table := sub_table DARVO_INDICATORS "Deny".
Definition Attack_table := sub_table DARVO_INDICATORS "Attack".
Definition Reverse_table := sub_table DARVO_INDICATORS "Reverse_Victim_Offender".
Definition Institutional_table := sub_table DARVO_INDICATORS "Institutional_DARVO".

Definition _detect_deny_patterns (messages : list Message) : Dict SubResult :=
  detect_patterns Deny_table (severity_weight "Deny") None
    (empty_results ["minimization"; "outright_denial"; "blame_shifting"])
    messages.

Definition _detect_attack_patterns (messages : list Message)
  : Dict SubResult :=
  detect_patterns Attack_table (severity_weight "Attack") None
    (empty_results ["credibility_attacks"; "character_assassination";
                    "threat_of_consequences"; "gaslighting"])
    messages.

Definition _detect_reverse_patterns (messages : list Message)
  : Dict SubResult :=
  detect_patterns Reverse_table (severity_weight "Reverse_Victim_Offender")
    None
    (empty_results ["self_victimization"; "victim_blaming";
                    "false_equivalence"; "protective_parent_reversal"])
    messages.

Definition _detect_institutional_patterns (messages : list Message)
  : Dict SubResult :=
  detect_patterns Institutional_table (severity_weight "Institutional_DARVO")
    None
    (empty_results ["court_manipulation"; "professional_credibility";
                    "systemic_bias_indicators"])
    messages.

(** Child-related instances always carry severity 5 and ["high_risk": True]. *)
Definition _detect_child_focused_patterns (messages : list Message)
  : Dict SubResult :=
  detect_patterns CHILD_FOCUSED_DARVO (fun _ => 5) (Some true)
    (empty_results ["child_weaponization"; "parental_alienation_claims";
                    "custody_threats"])
    messages.

Local Close Scope string_scope.

(* ================================================================== *)
(** * [DARVOAnalyzer]: compound sequences *)
(* ================================================================== *)

Record Classified : Type := {
  classifications : list Role;
  message : Message
}.

Definition classify (msg : Message) : Classified :=
  let text := lower_text msg in
  {| classifications :=
       (if any_keyword Deny_table text then [deny] else [])
       ++ (if any_keyword Attack_table text then [attack] else [])
       ++ (if any_keyword Reverse_table text then [reverse] else []);
     message := msg |}.

(** [role in classifications] *)
Definition has_role (r : Role) (mc : Classified) : bool :=
  List.existsb (Role_eqb r) (classifications mc).

(** The loop of [_check_pattern_in_window], carrying [pattern_index]. *)
Fixpoint advance_pattern (target_pattern : list Role) (pattern_index : nat)
         (window : list Classified) : nat :=
  match window with
  | [] => pattern_index
  | msg_class :: rest =>
      let pattern_index' :=
        match List.nth_error target_pattern pattern_index with
        | Some r =>               (* pattern_index < len(target_pattern) *)
            if has_role r msg_class then S pattern_index else pattern_index
        | None => pattern_index
        end in
      advance_pattern target_pattern pattern_index' rest
  end.

Definition _check_pattern_in_window (window : list Classified)
           (target_pattern : list Role) : bool :=
  Nat.eqb (advance_pattern target_pattern 0 window)
          (List.length target_pattern).

(** [xs[i:i + n]] *)
Definition slice {A : Type} (xs : list A) (i n : nat) : list A :=
  List.firstn n (List.skipn i xs).

(** The dictionary appended for a window in which the pattern was found.
    [window[0]] and [window[-1]] raise [IndexError] on an empty window, which
    is [None] here. *)
Definition compound_entry (pattern_name : string)
           (pattern_def : CompoundPatternDef) (window : list Classified)
  : option CompoundMatch :=
  match window with
  | [] => None
  | first :: _ =>
      Some {| pattern_type := pattern_name;
              cm_description := description pattern_def;
              cm_messages :=
                List.map message
                  (List.filter
                     (fun w => negb (Nat.eqb (List.length (classifications w)) 0))
                     window);
              cm_severity := List.length (pattern pattern_def) * 2;
              start_time := msg_timestamp (message first);
              end_time := msg_timestamp (message (List.last window first)) |}
  end.

(** Body of [for i in range(...)]: the entries found so far, or [None] once
    an exception was raised. *)
Definition scan_offset (pattern_name : string)
           (pattern_def : CompoundPatternDef)
           (message_classifications : list Classified)
           (acc : option (list CompoundMatch)) (i : nat)
  : option (list CompoundMatch) :=
  match acc with
  | None => None
  | Some found =>
      let window :=
        slice message_classifications i (window_messages pattern_def) in
      if _check_pattern_in_window window (pattern pattern_def) then
        match compound_entry pattern_name pattern_def window with
        | Some entry => Some (found ++ [entry])
        | None => None
        end
      else Some found
  end.

(** All offsets of one pattern:
    [range(len(message_classifications) - len(target_pattern) + 1)]. *)
Definition scan_pattern (message_classifications : list Classified)
           (acc : option (list CompoundMatch))
           (item : string * CompoundPatternDef)
  : option (list CompoundMatch) :=
  let (pattern_name, pattern_def) := item in
  List.fold_left
    (scan_offset pattern_name pattern_def message_classifications)
    (List.seq 0 (List.length message_classifications + 1
                 - List.length (pattern pattern_def)))
    acc.

(** [_detect_compound_patterns] over a table of pattern definitions. *)
Definition detect_compound_with (patterns : Dict CompoundPatternDef)
           (messages : list Message) : option (list CompoundMatch) :=
  if Nat.ltb (List.length messages) 2 then Some []
  else
    List.fold_left (scan_pattern (List.map classify messages))
                   patterns (Some []).

(** With the shipped table no window is empty, so no exception is raised
    (lemma [compound_patterns_total]). *)
Definition _detect_compound_patterns (messages : list Message)
  : list CompoundMatch :=
  match detect_compound_with DARVO_COMPOUND_PATTERNS messages with
  | Some found => found
  | None => []
  end.

(* ================================================================== *)
(** * [DARVOAnalyzer]: severity *)
(* ================================================================== *)

Local Open Scope string_scope.

(** The two accumulators of [_calculate_severity]. *)
Record SeverityState : Type := {
  st_total : nat;
  st_scores : Dict nat
}.

Definition initial_scores : Dict nat :=
  [ ("deny", 0); ("attack", 0); ("reverse", 0); ("institutional", 0);
    ("child_focused", 0) ].

(** [category_scores[key] += score; total_score += score] *)
Definition add_score (key : string) (score : nat) (st : SeverityState)
  : SeverityState :=
  {| st_total := st_total st + score;
     st_scores := dict_adjust (fun v => v + score) key (st_scores st) |}.

(** One [for subcat, keywords in ...items()] loop of [_calculate_severity]:
    the first keyword that hits adds the subcategory's score, then [break]. *)
Definition score_subcategory (text : list ascii) (key : string)
           (score_of : string -> nat) (st : SeverityState)
           (item : string * list string) : SeverityState :=
  let (subcat, keywords) := item in
  match scan_keywords text keywords with
  | Some _ => add_score key (score_of subcat) st
  | None => st
  end.

Definition score_category (text : list ascii) (key : string)
           (table : Dict (list string)) (score_of : string -> nat)
           (st : SeverityState) : SeverityState :=
  List.fold_left (score_subcategory text key score_of) table st.

(** Body of [for msg in self.messages]. *)
Definition score_message (st : SeverityState) (msg : Message)
  : SeverityState :=
  let text := lower_text msg in
  let st := score_category text "deny" Deny_table
              (severity_weight "Deny") st in
  let st := score_category text "attack" Attack_table
              (severity_weight "Attack") st in
  let st := score_category text "reverse" Reverse_table
              (severity_weight "Reverse_Victim_Offender") st in
  let st := score_category text "institutional" Institutional_table
              (severity_weight "Institutional_DARVO") st in
  score_category text "child_focused" CHILD_FOCUSED_DARVO (fun _ => 5) st.

Definition risk_level_name (r : RiskLevel) : string :=
  match r with
  | low => "low" | medium => "medium" | high => "high"
  | critical => "critical"
  end.

Definition _interpret_severity (risk : RiskLevel) (score : nat) : string :=
  let s := Text.str_of_nat score in
  match risk with
  | low =>
      "Low-level DARVO indicators detected (score: " +:+ s +:+
      "). Some manipulation tactics present but not systematic."
  | medium =>
      "Moderate DARVO pattern presence (score: " +:+ s +:+
      "). Multiple manipulation tactics detected across categories."
  | high =>
      "Significant DARVO tactics identified (score: " +:+ s +:+
      "). Systematic pattern of deny, attack, and reversal behaviors."
  | critical =>
      "Critical DARVO pattern severity (score: " +:+ s +:+
      "). Extensive manipulation tactics including high-risk child-focused patterns."
  end.

(** The threshold cascade on the total. *)
Definition risk_of_total (total : nat) : RiskLevel :=
  if Nat.ltb 50 total then critical
  else if Nat.ltb 30 total then high
  else if Nat.ltb 15 total then medium
  else low.

(** [category_scores["child_focused"]] *)
Definition child_focused_score (scores : Dict nat) : nat :=
  match dict_get scores "child_focused" with Some v => v | None => 0 end.

Definition _calculate_severity (messages : list Message)
  : SeverityAssessment :=
  let st := List.fold_left score_message messages
              {| st_total := 0; st_scores := initial_scores |} in
  let risk := risk_of_total (st_total st) in
  (* Child-focused patterns elevate risk to critical *)
  let risk :=
    if Nat.ltb 0 (child_focused_score (st_scores st)) then critical
    else risk in
  {| total_score := st_total st;
     category_scores := st_scores st;
     risk_level := risk;
     interpretation := _interpret_severity risk (st_total st) |}.

Local Close Scope string_scope.

(* ================================================================== *)
(** * [DARVOAnalyzer]: timeline *)
(* ================================================================== *)

Definition has_timestamp (m : Message) : bool :=
  match msg_timestamp m with Some _ => true | None => false end.

Definition empty_window : WindowCounts :=
  {| deny_count := 0; attack_count := 0; reverse_count := 0;
     wc_total_score := 0 |}.

(** [time_windows[key] = f(time_windows[key])] on the [defaultdict]: a
    missing key is first created with the zero counters, at the end. *)
Fixpoint bump_window (f : WindowCounts -> WindowCounts) (key : Z)
         (tw : list (Z * WindowCounts)) : list (Z * WindowCounts) :=
  match tw with
  | [] => [(key, f empty_window)]
  | (k, w) :: tw' =>
      if Z.eqb key k then (k, f w) :: tw'
      else (k, w) :: bump_window f key tw'
  end.

Definition bump_deny (w : WindowCounts) : WindowCounts :=
  {| deny_count := S (deny_count w); attack_count := attack_count w;
     reverse_count := reverse_count w; wc_total_score := wc_total_score w |}.
Definition bump_attack (w : WindowCounts) : WindowCounts :=
  {| deny_count := deny_count w; attack_count := S (attack_count w);
     reverse_count := reverse_count w; wc_total_score := wc_total_score w |}.
Definition bump_reverse (w : WindowCounts) : WindowCounts :=
  {| deny_count := deny_count w; attack_count := attack_count w;
     reverse_count := S (reverse_count w);
     wc_total_score := wc_total_score w |}.

(** [timestamp - timedelta(days=timestamp.weekday())] *)
Definition week_start (timestamp : datetime) : datetime :=
  (timestamp - Datetime.timedelta_days (Datetime.weekday timestamp))%Z.

(** The key [week_start.strftime('%Y-%m-%d')], kept as the day number of
    the date it prints.  Different dates print different keys.  The keys
    are ordered as the dates are only while the year has four digits: a
    year below 1000 is printed without padding. *)
Definition week_key (timestamp : datetime) : Z :=
  Datetime.day_number (week_start timestamp).

(** Body of the bucketing loop of [_analyze_timeline]. *)
Definition timeline_message (tw : list (Z * WindowCounts)) (msg : Message)
  : list (Z * WindowCounts) :=
  match msg_timestamp msg with
  | None => tw                                   (* continue *)
  | Some timestamp =>
      let key := week_key timestamp in
      let text := lower_text msg in
      let tw := if any_keyword Deny_table text
                then bump_window bump_deny key tw else tw in
      let tw := if any_keyword Attack_table text
                then bump_window bump_attack key tw else tw in
      if any_keyword Reverse_table text
      then bump_window bump_reverse key tw else tw
  end.

(** [sorted(time_windows.keys())] on day numbers.  Python sorts the key
    strings; for weeks of the years 1000 to 9999 that is the same order. *)
Fixpoint insert_key (k : Z) (ks : list Z) : list Z :=
  match ks with
  | [] => [k]
  | k' :: ks' => if Z.leb k k' then k :: ks else k' :: insert_key k ks'
  end.

Definition sorted_keys (ks : list Z) : list Z :=
  List.fold_right insert_key [] ks.

(** [time_windows[key]] read inside [_analyze_timeline], where
    [time_windows] is still the [defaultdict] and a missing key reads as
    the zero counters.  (The dictionary the method returns is a plain
    [dict].) *)
Fixpoint window_get (tw : list (Z * WindowCounts)) (key : Z) : WindowCounts :=
  match tw with
  | [] => empty_window
  | (k, w) :: tw' => if Z.eqb key k then w else window_get tw' key
  end.

Definition role_total (w : WindowCounts) : nat :=
  deny_count w + attack_count w + reverse_count w.

(** [late_total > early_total * 1.5]; both sides are small integers and
    halves, exact in binary floating point, so the test is
    [2 * late_total > 3 * early_total]. *)
Definition exceeds_one_and_a_half (late_total early_total : nat) : bool :=
  Nat.ltb (3 * early_total) (2 * late_total).

Definition detect_escalation_windows (tw : list (Z * WindowCounts))
           (sorted_weeks : list Z) : bool :=
  if Nat.leb 2 (List.length sorted_weeks) then
    let early_counts := window_get tw (List.hd 0%Z sorted_weeks) in
    let late_counts := window_get tw (List.last sorted_weeks 0%Z) in
    exceeds_one_and_a_half (role_total late_counts) (role_total early_counts)
  else false.

Definition _analyze_timeline (messages : list Message) : TimelineAnalysis :=
  if negb (List.existsb has_timestamp messages) then TimelineUnavailable
  else
    let time_windows := List.fold_left timeline_message messages [] in
    let sorted_weeks := sorted_keys (List.map fst time_windows) in
    TimelineAvailable time_windows
      (detect_escalation_windows time_windows sorted_weeks)
      (List.length sorted_weeks).

(* ================================================================== *)
(** * [DARVOAnalyzer]: forensic summary and the analysis entry point *)
(* ================================================================== *)

Record RoleSets : Type := {
  messages_with_deny : gset nat;
  messages_with_attack : gset nat;
  messages_with_reverse : gset nat;
  messages_with_child : gset nat
}.

Definition add_if (b : bool) (i : nat) (s : gset nat) : gset nat :=
  if b then {[ i ]} ∪ s else s.

(** Body of [for i, msg in enumerate(self.messages)]. *)
Definition forensic_message (i : nat) (msg : Message) (s : RoleSets)
  : RoleSets :=
  let text := lower_text msg in
  {| messages_with_deny :=
       add_if (any_keyword Deny_table text) i (messages_with_deny s);
     messages_with_attack :=
       add_if (any_keyword Attack_table text) i (messages_with_attack s);
     messages_with_reverse :=
       add_if (any_keyword Reverse_table text) i (messages_with_reverse s);
     messages_with_child :=
       add_if (any_keyword CHILD_FOCUSED_DARVO text) i
              (messages_with_child s) |}.

Fixpoint forensic_loop (i : nat) (messages : list Message) (s : RoleSets)
  : RoleSets :=
  match messages with
  | [] => s
  | msg :: rest => forensic_loop (S i) rest (forensic_message i msg s)
  end.

Definition forensic_sets (messages : list Message) : RoleSets :=
  forensic_loop 0 messages
    {| messages_with_deny := ∅; messages_with_attack := ∅;
       messages_with_reverse := ∅; messages_with_child := ∅ |}.

Local Open Scope string_scope.

Definition _generate_recommendations (full_pattern child_risk : bool)
  : list string :=
  let recommendations :=
    List.app
      (if full_pattern then
         [ "Document all communications for legal proceedings";
           "Consider consultation with domestic violence advocate" ]
       else [])
      (if child_risk then
         [ "URGENT: Child-focused manipulation detected - consider immediate protective measures";
           "Document all child-related statements for custody proceedings";
           "Consult with family law attorney regarding parental alienation concerns" ]
       else []) in
  match recommendations with
  | [] => [ "Continue monitoring communications for patterns" ]
  | _ => recommendations
  end.

Definition _generate_forensic_summary (messages : list Message)
  : Clock.M ForensicSummary :=
  let sets := forensic_sets messages in
  let total_deny := size (messages_with_deny sets) in
  let total_attack := size (messages_with_attack sets) in
  let total_reverse := size (messages_with_reverse sets) in
  let total_child_focused := size (messages_with_child sets) in
  let full_pattern_present :=
    Nat.ltb 0 total_deny && Nat.ltb 0 total_attack
    && Nat.ltb 0 total_reverse in
  let* today := Clock.now in
  Clock.ret
    {| analysis_date := today;
       total_messages_analyzed := List.length messages;
       darvo_components_present :=
         {| cp_deny := Nat.ltb 0 total_deny;
            cp_attack := Nat.ltb 0 total_attack;
            cp_reverse := Nat.ltb 0 total_reverse |};
       full_darvo_pattern_detected := full_pattern_present;
       instance_counts :=
         {| deny_instances := total_deny;
            attack_instances := total_attack;
            reverse_instances := total_reverse;
            child_focused_instances := total_child_focused |};
       high_risk_indicators := Nat.ltb 0 total_child_focused;
       recommended_actions :=
         _generate_recommendations full_pattern_present
           (Nat.ltb 0 total_child_focused) |}.

(** The analyzer object: [self.messages] and [self.text]. *)
Record DARVOAnalyzer : Type := {
  self_messages : list Message;
  self_text : string
}.

(** [__init__]: [messages or []], [text or ""]. *)
Definition DARVOAnalyzer_init (messages : option (list Message))
           (text : option string) : DARVOAnalyzer :=
  {| self_messages := match messages with Some l => l | None => [] end;
     self_text := match text with Some s => s | None => "" end |}.

Definition _analyze_conversation (self : DARVOAnalyzer)
  : Clock.M AnalysisResult :=
  let messages := self_messages self in
  let deny := _detect_deny_patterns messages in
  let attack := _detect_attack_patterns messages in
  let reverse := _detect_reverse_patterns messages in
  let institutional := _detect_institutional_patterns messages in
  let child := _detect_child_focused_patterns messages in
  let compound := _detect_compound_patterns messages in
  let severity := _calculate_severity messages in
  let timeline := _analyze_timeline messages in
  let* forensic := _generate_forensic_summary messages in
  Clock.ret
    {| deny_patterns := deny;
       attack_patterns := attack;
       reverse_patterns := reverse;
       institutional_patterns := institutional;
       child_focused_patterns := child;
       compound_patterns := compound;
       severity_assessment := severity;
       timeline_analysis := timeline;
       forensic_summary := forensic |}.

(** The single message [_analyze_document] stores in [self.messages]. *)
Definition document_message (text : string) (now : datetime) : Message :=
  {| msg_text := text;
     msg_sender := Some "Document";
     msg_timestamp := Some now;
     msg_platform := Some "document" |}.

Definition _analyze_document (self : DARVOAnalyzer)
  : Clock.M AnalysisResult :=
  let* now := Clock.now in
  _analyze_conversation
    {| self_messages := [document_message (self_text self) now];
       self_text := self_text self |}.

Definition empty_result (today : datetime) : AnalysisResult :=
  {| deny_patterns := [];
     attack_patterns := [];
     reverse_patterns := [];
     institutional_patterns := [];
     child_focused_patterns := [];
     compound_patterns := [];
     severity_assessment :=
       {| total_score := 0;
          category_scores := [];
          risk_level := low;
          interpretation := "No data available for analysis." |};
     timeline_analysis := TimelineUnavailable;
     forensic_summary :=
       {| analysis_date := today;
          total_messages_analyzed := 0;
          darvo_components_present :=
            {| cp_deny := false; cp_attack := false; cp_reverse := false |};
          full_darvo_pattern_detected := false;
          instance_counts :=
            {| deny_instances := 0; attack_instances := 0;
               reverse_instances := 0; child_focused_instances := 0 |};
          high_risk_indicators := false;
          recommended_actions := [] |} |}.

Definition analyze_darvo_patterns (self : DARVOAnalyzer)
  : Clock.M AnalysisResult :=
  match self_messages self with
  | _ :: _ => _analyze_conversation self
  | [] =>
      if negb (String.eqb (self_text self) "") then _analyze_document self
      else
        let* today := Clock.now in
        Clock.ret (empty_result today)
  end.

Local Close Scope string_scope.

(* ================================================================== *)
(** * [difflib.SequenceMatcher] *)
(* ================================================================== *)

(** The standard-library matcher the fuzzy tests call, with [isjunk=None]
    and [autojunk=True] as [SequenceMatcher(None, a, b)] sets them. *)
Module Difflib.

Definition Match : Type := (nat * nat * nat)%type.

Fixpoint indices_from (j : nat) (b : list ascii) (c : ascii) : list nat :=
  match b with
  | [] => []
  | d :: b' =>
      if Ascii.eqb c d then j :: indices_from (S j) b' c
      else indices_from (S j) b' c
  end.

(** [b2j.get(c, [])] after [__chain_b]: the increasing indices of [c] in
    [b], or nothing when [c] is "popular" ([len(b) >= 200] and more than
    [len(b) // 100 + 1] occurrences). *)
Definition b2j (b : list ascii) (c : ascii) : list nat :=
  let idxs := indices_from 0 b c in
  let n := List.length b in
  if Nat.leb 200 n && Nat.ltb (n / 100 + 1) (List.length idxs) then []
  else idxs.

(** [j2len.get(j - 1, 0)] *)
Fixpoint j2len_get (j2len : list (nat * nat)) (j : nat) : nat :=
  match j2len with
  | [] => 0
  | (j', k) :: rest => if Nat.eqb j j' then k else j2len_get rest j
  end.

Definition j2len_prev (j2len : list (nat * nat)) (j : nat) : nat :=
  match j with
  | 0 => 0
  | S j' => j2len_get j2len j'
  end.

(** [for j in b2j.get(a[i], nothing)] *)
Fixpoint row (js : list nat) (blo bhi i : nat) (j2len : list (nat * nat))
         (newj2len : list (nat * nat)) (best : Match)
  : list (nat * nat) * Match :=
  match js with
  | [] => (newj2len, best)
  | j :: js' =>
      if Nat.ltb j blo then row js' blo bhi i j2len newj2len best
      else if Nat.leb bhi j then (newj2len, best)          (* break *)
      else
        let k := j2len_prev j2len j + 1 in
        let '(_, _, bestsize) := best in
        let best' :=
          if Nat.ltb bestsize k then (i + 1 - k, j + 1 - k, k) else best in
        row js' blo bhi i j2len ((j, k) :: newj2len) best'
  end.

(** [for i in range(alo, ahi)], walking the elements of [a[alo:ahi]]. *)
Fixpoint rows (b : list ascii) (blo bhi : nat) (i : nat)
         (a_rest : list ascii) (j2len : list (nat * nat)) (best : Match)
  : Match :=
  match a_rest with
  | [] => best
  | c :: a_rest' =>
      let '(newj2len, best') := row (b2j b c) blo bhi i j2len [] best in
      rows b blo bhi (S i) a_rest' newj2len best'
  end.

Definition nth_eqb (a b : list ascii) (i j : nat) : bool :=
  match List.nth_error a i, List.nth_error b j with
  | Some c, Some d => Ascii.eqb c d
  | _, _ => false
  end.

(** The two extension loops for non-junk elements (no element of [b] is
    junk since [isjunk] is [None], so the two junk loops do nothing). *)
Fixpoint extend_left (fuel : nat) (a b : list ascii) (alo blo : nat)
         (m : Match) : Match :=
  let '(besti, bestj, bestsize) := m in
  match fuel with
  | 0 => m
  | S fuel' =>
      if Nat.ltb alo besti && Nat.ltb blo bestj
         && nth_eqb a b (besti - 1) (bestj - 1)
      then extend_left fuel' a b alo blo
             (besti - 1, bestj - 1, bestsize + 1)
      else m
  end.

Fixpoint extend_right (fuel : nat) (a b : list ascii) (ahi bhi : nat)
         (m : Match) : Match :=
  let '(besti, bestj, bestsize) := m in
  match fuel with
  | 0 => m
  | S fuel' =>
      if Nat.ltb (besti + bestsize) ahi && Nat.ltb (bestj + bestsize) bhi
         && nth_eqb a b (besti + bestsize) (bestj + bestsize)
      then extend_right fuel' a b ahi bhi (besti, bestj, bestsize + 1)
      else m
  end.

Definition find_longest_match (a b : list ascii) (alo ahi blo bhi : nat)
  : Match :=
  let m := rows b blo bhi alo (slice a alo (ahi - alo)) [] (alo, blo, 0) in
  let m := extend_left (List.length a) a b alo blo m in
  extend_right (List.length a) a b ahi bhi m.

(** [get_matching_blocks]: the work list is processed by recursion on the
    two sub-ranges; [None] when the fuel runs out. *)
Fixpoint matching_blocks (fuel : nat) (a b : list ascii)
         (alo ahi blo bhi : nat) : option (list Match) :=
  match fuel with
  | 0 => None
  | S fuel' =>
      let '(i, j, k) := find_longest_match a b alo ahi blo bhi in
      if Nat.eqb k 0 then Some []
      else
        match
          (if Nat.ltb alo i && Nat.ltb blo j
           then matching_blocks fuel' a b alo i blo j else Some []),
          (if Nat.ltb (i + k) ahi && Nat.ltb (j + k) bhi
           then matching_blocks fuel' a b (i + k) ahi (j + k) bhi
           else Some [])
        with
        | Some before, Some after => Some (before ++ (i, j, k) :: after)
        | _, _ => None
        end
  end.

Definition get_matching_blocks (a b : list ascii) : option (list Match) :=
  matching_blocks (S (List.length a)) a b
                  0 (List.length a) 0 (List.length b).

(** [sum(triple[-1] for triple in self.get_matching_blocks())] *)
Definition matches (a b : list ascii) : option nat :=
  match get_matching_blocks a b with
  | Some blocks =>
      Some (List.fold_right (fun '(_, _, k) n => k + n) 0 blocks)
  | None => None
  end.

(** [ratio() >= 0.85] and [ratio() > 0.85], where
    [ratio() = 2.0 * matches / length], or [1.0] when [length] is 0.
    The quotient is compared with 17/20 exactly; the floating-point test
    agrees with it for all lengths below 2^48. *)
Definition ratio_ge_085 (a b : list ascii) : option bool :=
  let length := List.length a + List.length b in
  match matches a b with
  | Some m =>
      Some (if Nat.eqb length 0 then true
            else Nat.leb (17 * length) (40 * m))
  | None => None
  end.

Definition ratio_gt_085 (a b : list ascii) : option bool :=
  let length := List.length a + List.length b in
  match matches a b with
  | Some m =>
      Some (if Nat.eqb length 0 then true
            else Nat.ltb (17 * length) (40 * m))
  | None => None
  end.

End Difflib.

(* ================================================================== *)
(** * [AbusePatternEngine] ([abuse_pattern_engine.py]) *)
(* ================================================================== *)

Record AbusePatternEngine : Type := {
  indicators : Dict (list string);
  synonyms : Dict (list string)
}.

(** [fuzzy_match(text, keyword)] with the default threshold 0.85:
    [SequenceMatcher(None, text.lower(), keyword.lower()).ratio() >= 0.85].
    [None] only if the matcher ran out of fuel. *)
Definition fuzzy_match (self : AbusePatternEngine) (text keyword : string)
  : option bool :=
  Difflib.ratio_ge_085 (Text.lower (Text.chars text))
                       (Text.lower (Text.chars keyword)).

Definition synonym_match (self : AbusePatternEngine) (text keyword : string)
  : bool :=
  let lowered := Text.lower (Text.chars text) in
  match dict_get (synonyms self) keyword with
  | Some syns =>
      List.existsb (fun syn => Text.contains (Text.chars syn) lowered) syns
      || Text.contains (Text.chars keyword) lowered
  | None => Text.contains (Text.chars keyword) lowered
  end.

(** [results.setdefault(category, []).append(kw)] *)
Fixpoint dict_append (d : Dict (list string)) (k v : string)
  : Dict (list string) :=
  match d with
  | [] => [(k, [v])]
  | (k', vs) :: d' =>
      if String.eqb k k' then (k', vs ++ [v]) :: d'
      else (k', vs) :: dict_append d' k v
  end.

(** [synonym_match(text, kw) or fuzzy_match(text, kw)] *)
Definition keyword_detected (self : AbusePatternEngine) (text kw : string)
  : option bool :=
  if synonym_match self text kw then Some true else fuzzy_match self text kw.

Fixpoint analyze_keywords (self : AbusePatternEngine) (text category : string)
         (keywords : list string) (results : Dict (list string))
  : option (Dict (list string)) :=
  match keywords with
  | [] => Some results
  | kw :: rest =>
      match keyword_detected self text kw with
      | Some true =>
          analyze_keywords self text category rest
                           (dict_append results category kw)
      | Some false => analyze_keywords self text category rest results
      | None => None
      end
  end.

Fixpoint analyze_categories (self : AbusePatternEngine) (text : string)
         (items : Dict (list string)) (results : Dict (list string))
  : option (Dict (list string)) :=
  match items with
  | [] => Some results
  | (category, keywords) :: rest =>
      match analyze_keywords self text category keywords results with
      | Some results' => analyze_categories self text rest results'
      | None => None
      end
  end.

(** [analyze_message]: the category -> matched keywords dictionary. *)
Definition analyze_message (self : AbusePatternEngine) (message : Message)
  : option (Dict (list string)) :=
  let text := string_of_list_ascii (lower_text message) in
  analyze_categories self text (indicators self) [].

(** The fuzzy scan of [analyze_text] in [analyze.py]: every window
    [lower_text[i:i+len(keyword)]] is compared with the keyword, and the
    first one with [ratio() > 0.85] is a finding. *)
Fixpoint sliding_windows_hit (keyword : list ascii) (n : nat)
         (offsets : list nat) (lower_text : list ascii) : option bool :=
  match offsets with
  | [] => Some false
  | i :: rest =>
      match Difflib.ratio_gt_085 (slice lower_text i n) keyword with
      | Some true => Some true                               (* break *)
      | Some false => sliding_windows_hit keyword n rest lower_text
      | None => None
      end
  end.

Definition analyze_text_fuzzy (text keyword : string) : option bool :=
  let lower_text := Text.lower (Text.chars text) in
  let n := List.length (Text.chars keyword) in
  sliding_windows_hit (Text.lower (Text.chars keyword)) n
    (List.seq 0 (List.length lower_text + 1 - n)) lower_text.

(* ================================================================== *)
(** * [ConversationAnalyzer.analyze_escalation_patterns] *)
(* ================================================================== *)

Local Open Scope string_scope.

(** The two categories of [ABUSE_INDICATORS] this method reads, as the
    literal lists of [abuse_indicators.py] evaluate (adjacent string
    literals without a comma are concatenated by Python). *)
Definition ABUSE_INDICATORS : Dict (list string) :=
  [ ("Threats / Intimidation",
      [
        "kill you"; "kill myself"; "take the kids"; "hurt the kids";
        "hurt your family"; "destroy"; "burn"; "break"; "smash"; "hit"; "punch";
        "slap"; "kick"; "choke"; "strangle"; "weapon"; "gun"; "knife";
        "watch your back"; "regret it"; "make you pay"; "call the police";
        "report you"; "deport"; "ruin your reputation"; "out you";
        "tell everyone"; "making you afraid"; "threatening to hurt you";
        "displaying weapons"; "destroying property"; "abusing pets"; "stalking";
        "terrorizing"; "menacing"; "harassment"; "intimidation"; "dox"; "swat";
        "cancel"; "expose"; "leak"; "dragthreaten to leave";
        "threaten to harm pets"; "threaten to ruin career";
        "threaten to expose secrets"; "threaten to call cps";
        "threaten to get custody"; "threaten to hurt themselves";
        "threaten to hurt you"; "threaten to make you homeless";
        "threaten to get you fired"; "threaten to ruin your life"
      ]);
    ("Emotional Abuse / Degradation",
      [
        "crazy"; "stupid"; "worthless"; "fat"; "ugly"; "useless";
        "nobody else would want you"; "lucky to have me"; "it's all your fault";
        "you make me do this"; "too sensitive"; "can't take a joke";
        "overreacting"; "imagining things"; "liar"; "pathetic"; "disgusting";
        "whore"; "slut"; "cheat"; "unfaithful"; "brainwashed"; "mental"; "psycho";
        "bitch"; "shut up"; "idiot"; "incompetent"; "failure"; "put-downs";
        "name-calling"; "humiliation"; "making you feel guilty";
        "playing mind games"; "making you feel crazy"; "minimizing abuse";
        "verbal abuse"; "emotional harm"; "demeaning language"; "simp"; "pick me";
        "trash"; "clown"; "salty"; "flexing"; "ratioedgaslight"; "crazy-making";
        "you're imagining things"; "no one believes you"; "you're paranoid";
        "you're dramatic"; "always your fault"; "never good enough"; "hopeless";
        "unlovable"; "nobody cares"; "everyone hates you"; "you're a burden";
        "crybaby"; "overly emotional"; "can't trust you"; "you're broken";
        "damaged"; "always wrong"; "never right"
        
      ]) ].

Definition escalation_categories : list string :=
  [ "Threats / Intimidation"; "Emotional Abuse / Degradation" ].

Local Close Scope string_scope.

Module ConversationAnalyzer.

(** [__init__] sorts the (normalized) messages with
    [sorted(messages, key=lambda x: x.get('timestamp') or datetime.min)];
    [datetime.min] is 0 here.  [sorted] is stable. *)
Definition sort_key (m : Message) : Z :=
  match msg_timestamp m with Some t => t | None => 0%Z end.

Fixpoint insert_message (m : Message) (ms : list Message) : list Message :=
  match ms with
  | [] => [m]
  | m' :: ms' =>
      if Z.leb (sort_key m) (sort_key m') then m :: ms
      else m' :: insert_message m ms'
  end.

Definition init (messages : list Message) : list Message :=
  List.fold_right insert_message [] messages.

(** [window_size = timedelta(days=7)] *)
Definition window_size : Z := Datetime.timedelta_days 7.

(** [while msg['timestamp'] > current_window_start + window_size:
        current_window_start += window_size]
    The sums are computed in [Z].  Python raises OverflowError as soon as
    [current_window_start + window_size] is later than [datetime.max]; the
    statements that promise a bucket assume that every timestamp is at
    least one window width before [datetime.max], which keeps all sums of
    the loop in range. *)
Fixpoint move_window_loop (fuel : nat) (current_window_start : datetime)
         (timestamp : datetime) : option datetime :=
  match fuel with
  | 0 => None
  | S fuel' =>
      if Z.ltb (current_window_start + window_size) timestamp
      then move_window_loop fuel' (current_window_start + window_size)%Z
                            timestamp
      else Some current_window_start
  end.

(** The loop with the number of rounds it can need (lemma
    [move_window_loop_total]: the fuel never runs out). *)
Definition move_window (current_window_start timestamp : datetime)
  : datetime :=
  match move_window_loop
          (S (Z.to_nat ((timestamp - current_window_start) / window_size)))
          current_window_start timestamp with
  | Some start => start
  | None => current_window_start
  end.

(** [re.search(r'\b' + re.escape(keyword) + r'\b', text, re.IGNORECASE)] *)
Definition keyword_hit_ignorecase (keyword text : string) : bool :=
  Text.re_search_word (Text.lower (Text.chars keyword))
                      (Text.lower (Text.chars text)).

(** [counts[category] += 1] on a [defaultdict(int)] *)
Fixpoint bump_category (category : string) (counts : Dict nat) : Dict nat :=
  match counts with
  | [] => [(category, 1)]
  | (c, n) :: counts' =>
      if String.eqb category c then (c, S n) :: counts'
      else (c, n) :: bump_category category counts'
  end.

(** [window_counts[start][category] += 1] on the nested [defaultdict] *)
Fixpoint bump_count (start : datetime) (category : string)
         (window_counts : list (datetime * Dict nat))
  : list (datetime * Dict nat) :=
  match window_counts with
  | [] => [(start, bump_category category [])]
  | (w, counts) :: rest =>
      if Z.eqb start w then (w, bump_category category counts) :: rest
      else (w, counts) :: bump_count start category rest
  end.

Definition count_keyword (text : string) (start : datetime)
           (category : string) (window_counts : list (datetime * Dict nat))
           (keyword : string) : list (datetime * Dict nat) :=
  if keyword_hit_ignorecase keyword text
  then bump_count start category window_counts
  else window_counts.

(** [for keyword in ABUSE_INDICATORS.get(category, [])] *)
Definition count_category (text : string) (start : datetime)
           (window_counts : list (datetime * Dict nat))
           (category : string) : list (datetime * Dict nat) :=
  List.fold_left (count_keyword text start category)
    (match dict_get ABUSE_INDICATORS category with
     | Some keywords => keywords
     | None => []
     end)
    window_counts.

Definition count_indicators (text : string) (start : datetime)
           (window_counts : list (datetime * Dict nat))
  : list (datetime * Dict nat) :=
  List.fold_left (count_category text start) escalation_categories
                 window_counts.

Record LoopState : Type := {
  current_window_start : datetime;
  window_counts : list (datetime * Dict nat)
}.

(** Body of [for msg in self.messages]. *)
Definition escalation_message (st : LoopState) (msg : Message)
  : LoopState :=
  match msg_timestamp msg with
  | None => st                                         (* continue *)
  | Some timestamp =>
      let start := move_window (current_window_start st) timestamp in
      {| current_window_start := start;
         window_counts :=
           count_indicators (msg_text msg) start (window_counts st) |}
  end.

Record Detail : Type := {
  category : string;
  trend : string;
  windows : nat;
  initial_count : nat;
  final_count : nat
}.

Record EscalationPatterns : Type := {
  escalation_detected : bool;
  details : list Detail
}.

(** [window_counts[w][category]] *)
Fixpoint counts_of (window_counts : list (datetime * Dict nat))
         (w : datetime) : Dict nat :=
  match window_counts with
  | [] => []
  | (w', counts) :: rest =>
      if Z.eqb w w' then counts else counts_of rest w
  end.

Definition count_in (window_counts : list (datetime * Dict nat))
           (category : string) (w : datetime) : nat :=
  match dict_get (counts_of window_counts w) category with
  | Some n => n
  | None => 0
  end.

Definition detail_of (window_counts : list (datetime * Dict nat))
           (category : string) : list Detail :=
  let counts :=
    List.map (count_in window_counts category)
             (sorted_keys (List.map fst window_counts)) in
  if Nat.leb 2 (List.length counts)
     && Nat.ltb (List.hd 0 counts) (List.last counts 0)
  then [ {| category := category;
            trend := "increasing";
            windows := List.length counts;
            initial_count := List.hd 0 counts;
            final_count := List.last counts 0 |} ]
  else [].

Definition analyze_escalation_patterns (self_messages : list Message)
  : EscalationPatterns :=
  match self_messages with
  | [] => {| escalation_detected := false; details := [] |}
  | first :: _ =>
      match msg_timestamp first with
      | None => {| escalation_detected := false; details := [] |}
      | Some t0 =>
          let st :=
            List.fold_left escalation_message self_messages
              {| current_window_start := t0; window_counts := [] |} in
          let details :=
            List.flat_map (detail_of (window_counts st))
                          escalation_categories in
          {| escalation_detected :=
               negb (Nat.eqb (List.length details) 0);
             details := details |}
      end
  end.

(** The window each message of the loop is counted in ([None] for a
    message the loop skips); lemma [loop_follows_trace] ties it to the
    loop. *)
Fixpoint bucket_trace (start : datetime) (msgs : list Message)
  : list (option datetime) :=
  match msgs with
  | [] => []
  | m :: rest =>
      match msg_timestamp m with
      | None => None :: bucket_trace start rest
      | Some timestamp =>
          let start' := move_window start timestamp in
          Some start' :: bucket_trace start' rest
      end
  end.

End ConversationAnalyzer.

(* ================================================================== *)
(** * [message_normalizer.py] *)
(* ================================================================== *)

Module Normalizer.

(** Whitespace for [str.strip()] and for the regex class [\s] on [str]:
    the code points below 128 for which [str.isspace] holds.  (Both also
    take whitespace beyond that range, such as U+00A0, which the embedding
    does not cover.) *)
Definition is_space (c : ascii) : bool :=
  Text.in_range 9 13 c || Text.in_range 28 32 c.

(** [re.sub(r'\s+', ' ', text)]: every maximal run of whitespace becomes one
    space; [in_run] tells that the previous character was whitespace. *)
Fixpoint collapse_whitespace (in_run : bool) (s : list ascii) : list ascii :=
  match s with
  | [] => []
  | c :: rest =>
      if is_space c then
        if in_run then collapse_whitespace true rest
        else " "%char :: collapse_whitespace true rest
      else c :: collapse_whitespace false rest
  end.

Fixpoint lstrip (s : list ascii) : list ascii :=
  match s with
  | [] => []
  | c :: rest => if is_space c then lstrip rest else s
  end.

Fixpoint rstrip (s : list ascii) : list ascii :=
  match s with
  | [] => []
  | c :: rest =>
      match rstrip rest with
      | [] => if is_space c then [] else [c]
      | kept => c :: kept
      end
  end.

(** [s.strip()] *)
Definition strip (s : list ascii) : list ascii := rstrip (lstrip s).

(** [normalize_sender]: ['Unknown'] for an empty sender, else stripped. *)
Definition normalize_sender (sender : string) : string :=
  if String.eqb sender "" then "Unknown"%string
  else string_of_list_ascii (strip (Text.chars sender)).

(** [normalize_text]: whitespace runs collapsed, then stripped. *)
Definition normalize_text (text : string) : string :=
  if String.eqb text "" then ""%string
  else string_of_list_ascii
         (strip (collapse_whitespace false (Text.chars text))).

(** [normalize_timestamp] on the values a [Message] can hold: a [datetime]
    is returned as it is, and anything else that is no string gives
    [None]. *)
Definition normalize_timestamp (ts : option datetime) : option datetime :=
  match ts with
  | Some t => Some t
  | None => None
  end.

(** [normalize_message]; [msg.get('sender', '')] is the empty string when
    the key is absent. *)
Definition normalize_message (msg : Message) : Message :=
  {| msg_text := normalize_text (msg_text msg);
     msg_sender :=
       Some (normalize_sender
               (match msg_sender msg with Some s => s | None => ""%string end));
     msg_timestamp := normalize_timestamp (msg_timestamp msg);
     msg_platform := msg_platform msg |}.

Definition normalize_messages (messages : list Message) : list Message :=
  List.map normalize_message messages.

End Normalizer.

(* ================================================================== *)
(** * [AbusePatternEngine]: conversations *)
(* ================================================================== *)

(** [analyze_message] as a dictionary; the matcher never runs out of fuel
    (lemma [analyze_message_total]). *)
Definition analyze_message_value (self : AbusePatternEngine)
           (message : Message) : Dict (list string) :=
  match analyze_message self message with
  | Some results => results
  | None => []
  end.

(** [any(abuse_counts[i] < abuse_counts[i+1]
         for i in range(len(abuse_counts)-1))] *)
Definition detect_escalation (self : AbusePatternEngine)
           (messages : list Message) : bool :=
  let abuse_counts :=
    List.map (fun m => List.length (analyze_message_value self m)) messages in
  List.existsb
    (fun i => Nat.ltb (List.nth i abuse_counts 0)
                      (List.nth (S i) abuse_counts 0))
    (List.seq 0 (List.length abuse_counts - 1)).

(** The loop of [detect_cycle], carrying [last_cat] and [cycle_count]. *)
Fixpoint cycle_loop (self : AbusePatternEngine) (last_cat : option string)
         (cycle_count : nat) (messages : list Message) : nat :=
  match messages with
  | [] => cycle_count
  | m :: rest =>
      match dict_keys (analyze_message_value self m) with
      | [] => cycle_loop self last_cat cycle_count rest
      | cat :: _ =>
          let cycle_count' :=
            match last_cat with
            | Some l => if String.eqb cat l then S cycle_count
                        else cycle_count
            | None => cycle_count
            end in
          cycle_loop self (Some cat) cycle_count' rest
      end
  end.

Definition detect_cycle (self : AbusePatternEngine)
           (messages : list Message) : bool :=
  Nat.ltb 2 (cycle_loop self None 0 messages).

(** A value of the dictionary [analyze_conversation] returns: a keyword list
    under a category, a truth value under the two flags. *)
Inductive PatternValue : Type :=
| Keywords (kws : list string)
| Flag (b : bool).

(** [pattern_results.setdefault(cat, []).extend(kws)] *)
Fixpoint dict_extend (d : Dict (list string)) (cat : string)
         (kws : list string) : Dict (list string) :=
  match d with
  | [] => [(cat, kws)]
  | (c, l) :: d' =>
      if String.eqb cat c then (c, l ++ kws) :: d'
      else (c, l) :: dict_extend d' cat kws
  end.

(** [d[k] = v] *)
Fixpoint dict_set {V : Type} (d : Dict V) (k : string) (v : V) : Dict V :=
  match d with
  | [] => [(k, v)]
  | (k', v') :: d' =>
      if String.eqb k k' then (k', v) :: d'
      else (k', v') :: dict_set d' k v
  end.

Definition merge_patterns (self : AbusePatternEngine)
           (pattern_results : Dict (list string)) (msg : Message)
  : Dict (list string) :=
  List.fold_left (fun acc item => dict_extend acc (fst item) (snd item))
                 (analyze_message_value self msg) pattern_results.

Definition analyze_conversation (self : AbusePatternEngine)
           (messages : list Message) : Dict PatternValue :=
  let pattern_results :=
    List.fold_left (merge_patterns self) messages [] in
  let results :=
    List.map (fun item => (fst item, Keywords (snd item))) pattern_results in
  let results :=
    dict_set results "escalation_detected"
             (Flag (detect_escalation self messages)) in
  dict_set results "cycle_detected" (Flag (detect_cycle self messages)).

(* ================================================================== *)
(** * [ConversationAnalyzer]: construction, isolation, time span *)
(* ================================================================== *)

Local Open Scope string_scope.

(** [ABUSE_INDICATORS['Isolation']], as the literal list evaluates. *)
Definition ISOLATION_INDICATORS : list string :=
  [
    "don't talk to"; "stay away from"; "no friends"; "bad influence";
    "don't go out"; "who were you with"; "where were you";
    "check your phone"; "give me your password";
    "you spend too much time with"; "they don't like me";
    "choose them or me"; "forbidden"; "not allowed"; "grounded"; "cut off";
    "block them"; "delete their number"; "why didn't you answer"; "tracking";
    "location"; "gps"; "constantly calling"; "texting all the time";
    "controlling who you see"; "limiting outside involvement"; "jealousy";
    "monitoring calls"; "making you account for your time";
    "interrogating your whereabouts"; "isolating from support"; "restraint";
    "confinement"; "removal from home"; "preventing access to services";
    "ghosting"; "gaslighting"; "breadcrumbing"; "orbiting"; "love bombing";
    "dry textingcut off from family"; "no contact allowed";
    "can't see your friends"; "blocked from social media"; "forced to move";
    "not allowed to work"; "kept at home"; "monitored calls";
    "monitored texts"; "no privacy"; "read your messages"; "read your diary";
    "spying on you"; "hidden cameras"; "listening devices";
    "forced to share location"; "demanding check-ins"; "constant surveillance"
  ].

Local Close Scope string_scope.

(** [ConversationAnalyzer(messages)]: [self.messages] after [__init__],
    which normalizes the messages and sorts them by timestamp. *)
Definition ConversationAnalyzer_new (messages : list Message)
  : list Message :=
  ConversationAnalyzer.init (Normalizer.normalize_messages messages).

Inductive IsolationSeverity : Type :=
| isolation_low | isolation_medium | isolation_high.

Record IsolationSample : Type := {
  sample_timestamp : option datetime;
  sample_sender : option string;          (* msg.get('sender') *)
  sample_keyword : string;
  sample_excerpt : string                 (* text[:100] *)
}.

Record IsolationTactics : Type := {
  isolation_indicators_found : nat;
  isolation_severity : IsolationSeverity;
  sample_messages : list IsolationSample
}.

(** The keyword loop of [analyze_isolation_tactics], with its [break]. *)
Fixpoint first_isolation_keyword (text : string) (keywords : list string)
  : option string :=
  match keywords with
  | [] => None
  | keyword :: rest =>
      if ConversationAnalyzer.keyword_hit_ignorecase keyword text
      then Some keyword
      else first_isolation_keyword text rest
  end.

Definition isolation_message (acc : nat * list IsolationSample)
           (msg : Message) : nat * list IsolationSample :=
  match first_isolation_keyword (msg_text msg) ISOLATION_INDICATORS with
  | Some keyword =>
      (S (fst acc),
       snd acc ++ [ {| sample_timestamp := msg_timestamp msg;
                       sample_sender := msg_sender msg;
                       sample_keyword := keyword;
                       sample_excerpt := Text.take_str 100 (msg_text msg) |} ])
  | None => acc
  end.

Definition analyze_isolation_tactics (self_messages : list Message)
  : IsolationTactics :=
  let '(isolation_count, isolation_messages) :=
    List.fold_left isolation_message self_messages (0, []) in
  {| isolation_indicators_found := isolation_count;
     isolation_severity :=
       if Nat.ltb 10 isolation_count then isolation_high
       else if Nat.ltb 5 isolation_count then isolation_medium
       else isolation_low;
     sample_messages := List.firstn 5 isolation_messages |}.

(** [[m['timestamp'] for m in self.messages if m.get('timestamp')]] *)
Definition timestamps_of (messages : list Message) : list datetime :=
  List.flat_map
    (fun m => match msg_timestamp m with Some t => [t] | None => [] end)
    messages.

Record TimeSpan : Type := {
  span_start : datetime;                  (* start.isoformat() *)
  span_end : datetime;                    (* end.isoformat() *)
  duration_days : Z                       (* (end - start).days *)
}.

(** [_calculate_time_span]; [None] stands for the empty dictionary. *)
Definition _calculate_time_span (self_messages : list Message)
  : option TimeSpan :=
  match timestamps_of self_messages with
  | [] => None
  | t :: ts =>
      let start := List.fold_left Z.min ts t in
      let finish := List.fold_left Z.max ts t in
      Some {| span_start := start;
              span_end := finish;
              duration_days := ((finish - start) / Datetime.usec_per_day)%Z |}
  end.

(** [analyze_darvo_tactics]:
    [DARVOAnalyzer(messages=self.messages).analyze_darvo_patterns()] *)
Definition analyze_darvo_tactics (self_messages : list Message)
  : Clock.M AnalysisResult :=
  analyze_darvo_patterns (DARVOAnalyzer_init (Some self_messages) None).

(* ================================================================== *)
(** * Specification vocabulary *)
(* ================================================================== *)

Fixpoint distinct_keys (ks : list string) : bool :=
  match ks with
  | [] => true
  | k :: ks' => negb (List.existsb (String.eqb k) ks') && distinct_keys ks'
  end.

(** [kw] is the first keyword of [keywords], in list order, that hits. *)
Definition first_hit_of (keywords : list string) (text : list ascii)
           (kw : string) : Prop :=
  exists before after,
    keywords = before ++ kw :: after
    /\ keyword_hit kw text = true
    /\ List.Forall (fun k => keyword_hit k text = false) before.

Definition any_hit (text : list ascii) (keywords : list string) : bool :=
  List.existsb (fun kw => keyword_hit kw text) keywords.

(** What one category adds for one message: the weight of every
    subcategory with a hit, once. *)
Definition category_sum (text : list ascii) (table : Dict (list string))
           (score_of : string -> nat) : nat :=
  List.list_sum
    (List.map (fun item : string * list string =>
                 if any_hit text (snd item) then score_of (fst item) else 0)
              table).

Definition scores_dict (d a r i c : nat) : Dict nat :=
  [ ("deny", d); ("attack", a); ("reverse", r); ("institutional", i);
    ("child_focused", c) ]%string.

Definition deny_sum (m : Message) : nat :=
  category_sum (lower_text m) Deny_table (severity_weight "Deny").
Definition attack_sum (m : Message) : nat :=
  category_sum (lower_text m) Attack_table (severity_weight "Attack").
Definition reverse_sum (m : Message) : nat :=
  category_sum (lower_text m) Reverse_table
               (severity_weight "Reverse_Victim_Offender").
Definition institutional_sum (m : Message) : nat :=
  category_sum (lower_text m) Institutional_table
               (severity_weight "Institutional_DARVO").
Definition child_sum (m : Message) : nat :=
  category_sum (lower_text m) CHILD_FOCUSED_DARVO (fun _ => 5).

Definition sum_over (f : Message -> nat) (messages : list Message) : nat :=
  List.list_sum (List.map f messages).

(** Messages of the examples: a text alone, and a text with a timestamp. *)
Definition text_message (s : string) : Message :=
  {| msg_text := s; msg_sender := None; msg_timestamp := None;
     msg_platform := None |}.

Definition timed_message (s : string) (t : datetime) : Message :=
  {| msg_text := s; msg_sender := None; msg_timestamp := Some t;
     msg_platform := None |}.

(** The risk level as the specification tabulates it. *)
Definition risk_by_ranges (total child_subtotal : nat) : RiskLevel :=
  if Nat.ltb 0 child_subtotal then critical
  else if Nat.leb total 15 then low
  else if Nat.leb total 30 then medium
  else if Nat.leb total 50 then high
  else critical.

(** Some keyword of the child-focused table hits the message. *)
Definition child_focused_hit (m : Message) : bool :=
  any_keyword CHILD_FOCUSED_DARVO (lower_text m).

(** ["timeline_available"] of a timeline result. *)
Definition timeline_available (t : TimelineAnalysis) : bool :=
  match t with
  | TimelineUnavailable => false
  | TimelineAvailable _ _ _ => true
  end.

(** The result with ["analysis_date"] overwritten by [d]. *)
Definition with_analysis_date (d : datetime) (r : AnalysisResult)
  : AnalysisResult :=
  let f := forensic_summary r in
  {| deny_patterns := deny_patterns r;
     attack_patterns := attack_patterns r;
     reverse_patterns := reverse_patterns r;
     institutional_patterns := institutional_patterns r;
     child_focused_patterns := child_focused_patterns r;
     compound_patterns := compound_patterns r;
     severity_assessment := severity_assessment r;
     timeline_analysis := timeline_analysis r;
     forensic_summary :=
       {| analysis_date := d;
          total_messages_analyzed := total_messages_analyzed f;
          darvo_components_present := darvo_components_present f;
          full_darvo_pattern_detected := full_darvo_pattern_detected f;
          instance_counts := instance_counts f;
          high_risk_indicators := high_risk_indicators f;
          recommended_actions := recommended_actions f |} |}.

(** A clock that agrees with [clk] on its first two readings and with
    [other] afterwards. *)
Definition first_two_readings (clk other : nat -> datetime)
  : nat -> datetime :=
  fun n => if Nat.ltb n 2 then clk n else other n.

(** Two wall clocks of the examples, one second apart. *)
Definition clock_a : nat -> datetime :=
  fun _ => Datetime.make 2024 1 1 10 0.
Definition clock_b : nat -> datetime :=
  fun _ => (Datetime.make 2024 1 1 10 0 + 1000000)%Z.

(** What one message contributes to the instances of one subcategory:
    nothing when none of the subcategory's keywords hits, and otherwise one
    instance, carrying the first keyword that hits. *)
Definition single_contribution (severity_of : string -> nat)
           (high_risk : option bool) (subcat : string)
           (keywords : list string) (m : Message) (c : list Instance)
  : Prop :=
  (c = [] /\ any_hit (lower_text m) keywords = false)
  \/ (exists kw,
        first_hit_of keywords (lower_text m) kw
        /\ c = [make_instance severity_of high_risk m subcat kw]).

(** A detector records, for every subcategory of its table, the
    concatenation of the messages' single contributions. *)
Definition one_instance_per_message (table : Dict (list string))
           (severity_of : string -> nat) (high_risk : option bool)
           (detect : list Message -> Dict SubResult) : Prop :=
  forall (messages : list Message) (subcat : string),
    match dict_get table subcat with
    | None => True
    | Some keywords =>
        exists contributions : list (list Instance),
          List.Forall2
            (single_contribution severity_of high_risk subcat keywords)
            messages contributions
          /\ dict_get (detect messages) subcat
             = Some {| count := List.length (List.concat contributions);
                       instances := List.concat contributions |}
    end.

(** The function behind [single_contribution]. *)
Definition contribution (table : Dict (list string))
           (severity_of : string -> nat) (high_risk : option bool)
           (subcat : string) (m : Message) : list Instance :=
  match dict_get table subcat with
  | Some keywords =>
      match scan_keywords (lower_text m) keywords with
      | Some kw => [make_instance severity_of high_risk m subcat kw]
      | None => []
      end
  | None => []
  end.

(** The roles of a pattern appear in order in a window: each role is carried
    by a message of its own, the carriers come in the pattern's order, and
    any messages may lie between them. *)
Inductive appears_in_order : list Role -> list Classified -> Prop :=
| aio_done : forall window, appears_in_order [] window
| aio_take : forall r roles mc window,
    has_role r mc = true ->
    appears_in_order roles window ->
    appears_in_order (r :: roles) (mc :: window)
| aio_skip : forall roles mc window,
    appears_in_order roles window ->
    appears_in_order roles (mc :: window).

(** The window the detector examines at offset [i]: at most
    [window_messages] messages from the i-th on. *)
Definition window_at (pattern_def : CompoundPatternDef)
           (mcs : list Classified) (i : nat) : list Classified :=
  slice mcs i (window_messages pattern_def).

(** The entries one pattern contributes, each with the offset of its
    window. *)
Definition pattern_reports (name : string) (pattern_def : CompoundPatternDef)
           (mcs : list Classified) : list (nat * CompoundMatch) :=
  List.flat_map
    (fun i =>
       let window := window_at pattern_def mcs i in
       if _check_pattern_in_window window (pattern pattern_def) then
         match compound_entry name pattern_def window with
         | Some entry => [(i, entry)]
         | None => []
         end
       else [])
    (List.seq 0 (List.length mcs + 1 - List.length (pattern pattern_def))).

(** What the claim says of one pattern definition on one message list: one
    entry per window in which the roles appear in order, windows taken in
    increasing offset. *)
Definition reports_windows_in_order (name : string)
           (pattern_def : CompoundPatternDef) (messages : list Message)
  : Prop :=
  let mcs := List.map classify messages in
  exists reports : list (nat * CompoundMatch),
    detect_compound_with [(name, pattern_def)] messages
    = Some (List.map snd reports)
    /\ sublist (List.map fst reports) (List.seq 0 (List.length messages))
    /\ (forall i entry,
          List.In (i, entry) reports ->
          compound_entry name pattern_def (window_at pattern_def mcs i)
          = Some entry)
    /\ (forall i,
          i < List.length messages ->
          ((exists entry, List.In (i, entry) reports)
           <-> appears_in_order (pattern pattern_def)
                                (window_at pattern_def mcs i))).

(** The pattern (deny, attack, reverse) with a window of [n] messages. *)
Definition full_darvo_with_window (n : nat) : CompoundPatternDef :=
  {| description := "Complete DARVO sequence: deny, attack, then reverse";
     pattern := [deny; attack; reverse];
     window_messages := n |}.

(** Messages classified deny, (no role), attack, reverse; and deny, reverse,
    attack. *)
Definition deny_none_attack_reverse : list Message :=
  [ text_message "I never said that"; text_message "ok";
    text_message "You're crazy"; text_message "I'm the victim here" ].

Definition deny_reverse_attack : list Message :=
  [ text_message "I never said that"; text_message "I'm the victim here";
    text_message "You're crazy" ].

(** Some keyword of a table hits the message. *)
Definition role_hit (table : Dict (list string)) (m : Message) : bool :=
  any_keyword table (lower_text m).

(** The index set one role of the forensic loop builds, from index [i] on. *)
Fixpoint index_set (P : Message -> bool) (i : nat) (messages : list Message)
         (s : gset nat) : gset nat :=
  match messages with
  | [] => s
  | m :: rest => index_set P (S i) rest (add_if (P m) i s)
  end.

(** The forensic summary of a message list under a clock. *)
Definition forensic_of (messages : list Message) (clk : nat -> datetime)
  : ForensicSummary :=
  Clock.run (_generate_forensic_summary messages) clk.

(** Messages classified reverse, attack, deny. *)
Definition reverse_attack_deny : list Message :=
  [ text_message "I'm the victim here"; text_message "You're crazy";
    text_message "I never said that" ].

(** How [escalation_detected] relates to the windows: with no window it is
    false; otherwise it compares the role-hit total of the window with the
    latest key against that of the window with the earliest key, and needs
    at least two windows. *)
Definition escalation_rule (tw : list (Z * WindowCounts)) (esc : bool)
  : Prop :=
  match tw with
  | [] => esc = false
  | _ :: _ =>
      exists (first_key : Z) (first_window : WindowCounts)
             (last_key : Z) (last_window : WindowCounts),
        List.In (first_key, first_window) tw
        /\ List.In (last_key, last_window) tw
        /\ List.Forall (fun kw => (first_key <= fst kw <= last_key)%Z) tw
        /\ esc = Nat.leb 2 (List.length tw)
                 && Nat.ltb (3 * role_total first_window)
                            (2 * role_total last_window)
  end.

(** The value under ["escalation_detected"], when the key is there. *)
Definition escalation_flag (t : TimelineAnalysis) : option bool :=
  match t with
  | TimelineUnavailable => None
  | TimelineAvailable _ esc _ => Some esc
  end.

Definition window_totals (t : TimelineAnalysis) : list nat :=
  match t with
  | TimelineUnavailable => []
  | TimelineAvailable tw _ _ => List.map (fun kw => role_total (snd kw)) tw
  end.

(** Two weeks with role-hit totals 2 and 4, and with totals 2 and 3. *)
Definition weeks_two_then_four : list Message :=
  [ timed_message "I never said that. You're crazy."
                  (Datetime.make 2024 1 1 10 0);
    timed_message "I never said that. You're crazy."
                  (Datetime.make 2024 1 8 10 0);
    timed_message "You're lying and you're unstable."
                  (Datetime.make 2024 1 9 10 0) ].

Definition weeks_two_then_three : list Message :=
  [ timed_message "I never said that. You're crazy."
                  (Datetime.make 2024 1 1 10 0);
    timed_message "I never said that. You're crazy."
                  (Datetime.make 2024 1 8 10 0);
    timed_message "You're lying." (Datetime.make 2024 1 9 10 0) ].

(** The message with its timestamp removed. *)
Definition without_timestamp (m : Message) : Message :=
  {| msg_text := msg_text m; msg_sender := msg_sender m;
     msg_timestamp := None; msg_platform := msg_platform m |}.

(** The timestamps of the timestamped messages, in list order. *)
Definition timestamps (messages : list Message) : list datetime :=
  List.flat_map
    (fun m => match msg_timestamp m with Some t => [t] | None => [] end)
    messages.

(** The timestamps that occur in the list are in chronological order
    (messages without one may sit anywhere). *)
Definition chronological (messages : list Message) : Prop :=
  StronglySorted Z.le (timestamps messages).

(** The order [__init__] of [ConversationAnalyzer] leaves the list in:
    sorted by [x.get('timestamp') or datetime.min], so that messages without
    a timestamp come first. *)
Definition stored_order (messages : list Message) : Prop :=
  StronglySorted Z.le (List.map ConversationAnalyzer.sort_key messages).

(** Every message has a timestamp. *)
Definition all_dated (messages : list Message) : Prop :=
  List.forallb has_timestamp messages = true.

(** A timestamp at least one window width before [datetime.max]: no sum
    the bucketing loop computes for it leaves the range of [datetime]. *)
Definition window_in_range (t : datetime) : Prop :=
  (0 <= t /\ t + ConversationAnalyzer.window_size <= Datetime.max)%Z.

(** Every timestamp of the list is at least one window width before
    [datetime.max]. *)
Definition dated_in_range (messages : list Message) : Prop :=
  forall (m : Message) (ts : datetime),
    List.In m messages -> msg_timestamp m = Some ts -> window_in_range ts.

(** A bucket was found, and the sum that closes it is in range. *)
Definition bucket_in_range (bucket : option datetime) : Prop :=
  exists start : datetime,
    bucket = Some start
    /\ (start + ConversationAnalyzer.window_size <= Datetime.max)%Z.

(** Every dated message lies in a week that starts in the years 1000 to
    9999, where the printed week keys are ordered as the weeks are. *)
Definition four_digit_weeks (messages : list Message) : Prop :=
  forall (m : Message) (ts : datetime),
    List.In m messages -> msg_timestamp m = Some ts ->
    (Datetime.make 1000 1 1 0 0 <= week_start ts /\ ts <= Datetime.max)%Z.

(** One message without a timestamp. *)
Definition undated_denial : list Message :=
  [ text_message "I never said that" ].

(** The bucket of one message in a bucketing anchored at [t0]: a message
    without timestamp has none; a timestamped one has a bucket that starts
    a whole number of window widths after [t0] and holds the timestamp. *)
Definition anchored_bucket (t0 : datetime) (m : Message)
           (bucket : option datetime) : Prop :=
  match msg_timestamp m, bucket with
  | None, None => True
  | Some ts, Some start =>
      (exists k : nat,
          start = (t0 + Z.of_nat k * ConversationAnalyzer.window_size)%Z)
      /\ (start <= ts <= start + ConversationAnalyzer.window_size)%Z
  | _, _ => False
  end.

(** The loop of [analyze_escalation_patterns] driven by a list of buckets
    instead of the [while] loop. *)
Definition trace_step (st : ConversationAnalyzer.LoopState)
           (mb : Message * option datetime) : ConversationAnalyzer.LoopState :=
  match snd mb with
  | Some start =>
      {| ConversationAnalyzer.current_window_start := start;
         ConversationAnalyzer.window_counts :=
           ConversationAnalyzer.count_indicators
             (msg_text (fst mb)) start
             (ConversationAnalyzer.window_counts st) |}
  | None => st
  end.

(** The message is timestamped in the week keyed [key] and matches. *)
Definition in_week (table : Dict (list string)) (key : Z) (m : Message)
  : bool :=
  match msg_timestamp m with
  | Some ts => Z.eqb (week_key ts) key && role_hit table m
  | None => false
  end.

(** The timestamped messages of the week keyed [key] that match a table. *)
Definition week_hits (table : Dict (list string)) (key : Z)
           (messages : list Message) : list Message :=
  List.filter (in_week table key) messages.

(** A Wednesday message and one on the following Monday, five days later. *)
Definition wednesday_then_monday : list Message :=
  [ timed_message "I never said that" (Datetime.make 2024 1 3 10 0);
    timed_message "You're crazy" (Datetime.make 2024 1 8 10 0) ].

(** An engine with one indicator keyword and no synonyms. *)
Definition worthless_engine : AbusePatternEngine :=
  {| indicators := [("Emotional Abuse / Degradation", ["worthless"])]%string;
     synonyms := [] |}.

(** The total size of a list of matching blocks. *)
Definition blocks_size (blocks : list Difflib.Match) : nat :=
  List.fold_right (fun '(_, _, k) n => k + n) 0 blocks.

(* ================================================================== *)
(** * Vocabulary of the further properties *)
(* ================================================================== *)

(** The last character of [s], or [prev] when [s] is empty. *)
Fixpoint last_or (prev : option ascii) (s : list ascii) : option ascii :=
  match s with
  | [] => prev
  | c :: rest => last_or (Some c) rest
  end.

(** [lit] occurs in [text] between two word boundaries. *)
Definition bounded_occurrence (lit text : list ascii) : Prop :=
  exists pre post,
    text = pre ++ lit ++ post
    /\ Text.at_boundary (last_or None pre) (List.head (lit ++ post)) = true
    /\ Text.at_boundary (last_or None (pre ++ lit)) (List.head post) = true.

(** Every message text is made of code points below 128. *)
Definition ascii_messages (messages : list Message) : Prop :=
  List.forallb (fun m => Text.ascii_only (Text.chars (msg_text m))) messages
  = true.

(** [str.upper] on one code point below 128, and a message with its text
    in upper case.  (Beyond that range [str.upper] followed by [str.lower]
    is not [str.lower].) *)
Definition upper_char (c : ascii) : ascii :=
  if Text.in_range 97 122 c then ascii_of_nat (nat_of_ascii c - 32) else c.

Definition upper_message (m : Message) : Message :=
  {| msg_text :=
       string_of_list_ascii (List.map upper_char (Text.chars (msg_text m)));
     msg_sender := msg_sender m;
     msg_timestamp := msg_timestamp m;
     msg_platform := msg_platform m |}.

(** What every reported compound entry satisfies, for the pattern definition
    [def] named [name] and the analysed [messages]. *)
Definition compound_entry_sound (messages : list Message) (name : string)
           (def : CompoundPatternDef) (e : CompoundMatch) : Prop :=
  pattern_type e = name
  /\ cm_description e = description def
  /\ cm_severity e = 2 * List.length (pattern def)
  /\ List.length (pattern def) <= List.length (cm_messages e)
  /\ List.length (cm_messages e) <= window_messages def
  /\ List.Forall
       (fun m => List.In m messages /\ classifications (classify m) <> [])
       (cm_messages e).

(** The recommendation texts. *)
Definition urgent_recommendation : string :=
  "URGENT: Child-focused manipulation detected - consider immediate protective measures".
Definition document_recommendation : string :=
  "Document all communications for legal proceedings".
Definition monitoring_recommendation : string :=
  "Continue monitoring communications for patterns".

(** Some keyword of one of the five tables hits the message. *)
Definition any_table_hit (m : Message) : bool :=
  role_hit Deny_table m || role_hit Attack_table m
  || role_hit Reverse_table m || role_hit Institutional_table m
  || role_hit CHILD_FOCUSED_DARVO m.

(** The order low < medium < high < critical. *)
Definition risk_rank (r : RiskLevel) : nat :=
  match r with low => 0 | medium => 1 | high => 2 | critical => 3 end.

(** The sum of the severities written on all instances of a detector
    result. *)
Definition results_severity (results : Dict SubResult) : nat :=
  List.list_sum
    (List.map (fun kv => List.list_sum
                           (List.map inst_severity (instances (snd kv))))
              results).

(** What a detector result always looks like: the subcategories of its
    table in order, each with a count equal to its number of instances and
    at most the number of messages, and every instance taken from a message
    of the input for a keyword of that subcategory. *)
Definition detector_sound (table : Dict (list string))
           (severity_of : string -> nat) (high_risk : option bool)
           (messages : list Message) (results : Dict SubResult) : Prop :=
  dict_keys results = dict_keys table
  /\ List.Forall
       (fun kv : string * SubResult =>
          count (snd kv) = List.length (instances (snd kv))
          /\ count (snd kv) <= List.length messages
          /\ List.Forall
               (fun inst =>
                  exists (m : Message) (keywords : list string),
                    List.In m messages
                    /\ dict_get table (fst kv) = Some keywords
                    /\ List.In (inst_keyword inst) keywords
                    /\ keyword_hit (inst_keyword inst) (lower_text m) = true
                    /\ inst
                       = make_instance severity_of high_risk m (fst kv)
                                       (inst_keyword inst))
               (instances (snd kv)))
       results.

(** The result of a detector, written out subcategory by subcategory. *)
Definition detector_result (table : Dict (list string))
           (severity_of : string -> nat) (high_risk : option bool)
           (messages : list Message) : Dict SubResult :=
  List.map
    (fun item : string * list string =>
       let l := List.concat
                  (List.map (contribution table severity_of high_risk
                                          (fst item)) messages) in
       (fst item, {| count := List.length l; instances := l |}))
    table.

(** What every entry of the timeline's [time_windows] satisfies: its
    [total_score] is still 0, it counts at least one role hit, and its key
    is the week of a timestamped message of the input that matches a deny,
    attack or reverse keyword. *)
Definition window_justified (messages : list Message)
           (kw : Z * WindowCounts) : Prop :=
  wc_total_score (snd kw) = 0
  /\ 1 <= role_total (snd kw)
  /\ exists (m : Message) (ts : datetime),
       List.In m messages
       /\ msg_timestamp m = Some ts
       /\ week_key ts = fst kw
       /\ (role_hit Deny_table m || role_hit Attack_table m
           || role_hit Reverse_table m = true).

Definition timeline_windows (t : TimelineAnalysis)
  : list (Z * WindowCounts) :=
  match t with
  | TimelineUnavailable => []
  | TimelineAvailable tw _ _ => tw
  end.

Definition timeline_weeks (t : TimelineAnalysis) : option nat :=
  match t with
  | TimelineUnavailable => None
  | TimelineAvailable _ _ n => Some n
  end.

(** A Monday and a Thursday message of one calendar week, in both
    orders. *)
Definition one_week_messages : list Message :=
  [ timed_message "I never said that" (Datetime.make 2024 1 1 10 0);
    timed_message "You're crazy. You're lying." (Datetime.make 2024 1 4 9 0) ].

Definition one_week_reversed : list Message :=
  [ timed_message "You're crazy. You're lying." (Datetime.make 2024 1 4 9 0);
    timed_message "I never said that" (Datetime.make 2024 1 1 10 0) ].

(** [synonym_match(text, kw) or fuzzy_match(text, kw)] as a truth value. *)
Definition detects (self : AbusePatternEngine) (text kw : string) : bool :=
  synonym_match self text kw
  || match fuzzy_match self text kw with Some b => b | None => false end.

(** All keywords listed under [category] in the engine's indicators, and
    those of them detected in a message, in lexicon order. *)
Definition category_keywords (items : Dict (list string))
           (category : string) : list string :=
  List.flat_map
    (fun item : string * list string =>
       if String.eqb (fst item) category then snd item else [])
    items.

Definition detected_keywords (self : AbusePatternEngine) (m : Message)
           (category : string) : list string :=
  List.filter (detects self (string_of_list_ascii (lower_text m)))
              (category_keywords (indicators self) category).

(** A dictionary entry after some more keywords were appended under its
    key: untouched when there are none. *)
Definition extend_entry (entry : option (list string))
           (more : list string) : option (list string) :=
  match more with
  | [] => entry
  | _ :: _ =>
      Some (match entry with Some l => l ++ more | None => more end)
  end.

(** The number of places where a list repeats its previous element. *)
Fixpoint adjacent_repeats (l : list string) : nat :=
  match l with
  | [] => 0
  | a :: tl =>
      match tl with
      | [] => 0
      | b :: _ => (if String.eqb b a then 1 else 0) + adjacent_repeats tl
      end
  end.

(** The first category [analyze_message] reports for each message that has
    any. *)
Definition first_categories (self : AbusePatternEngine)
           (messages : list Message) : list string :=
  List.flat_map
    (fun m => match dict_keys (analyze_message_value self m) with
              | [] => []
              | cat :: _ => [cat]
              end)
    messages.

(** The keywords [analyze_conversation] gathers under a category. *)
Definition conversation_keywords (self : AbusePatternEngine)
           (messages : list Message) (category : string) : list string :=
  List.flat_map (fun m => detected_keywords self m category) messages.

(** The number of categories [analyze_message] reports for a message. *)
Definition category_count (self : AbusePatternEngine) (m : Message) : nat :=
  List.length (analyze_message_value self m).

(** Somewhere in the list a message is directly followed by one with more
    reported categories. *)
Definition adjacent_increase (self : AbusePatternEngine)
           (messages : list Message) : Prop :=
  exists (before : list Message) (m1 m2 : Message) (after : list Message),
    messages = before ++ m1 :: m2 :: after
    /\ category_count self m1 < category_count self m2.

(** An engine whose only keyword is written with a capital letter. *)
Definition capital_engine : AbusePatternEngine :=
  {| indicators := [("Emotional Abuse / Degradation", ["Crazy"])]%string;
     synonyms := [] |}.

(** A text in which every whitespace character is a single space between
    two other characters; [prev_space] tells that a space (or the start of
    the text) comes directly before. *)
Fixpoint single_spaced (prev_space : bool) (l : list ascii) : bool :=
  match l with
  | [] => true
  | c :: rest =>
      if Normalizer.is_space c
      then Ascii.eqb c " " && negb prev_space && single_spaced true rest
      else single_spaced false rest
  end.

(** The characters of a text that are no whitespace. *)
Definition visible (l : list ascii) : list ascii :=
  List.filter (fun c => negb (Normalizer.is_space c)) l.

(** A message with a sender and no timestamp, and one with a sender made of
    blanks. *)
Definition undated_message (s : string) : Message :=
  {| msg_text := s; msg_sender := Some "Alex"%string;
     msg_timestamp := None; msg_platform := None |}.

(** [{'escalation_detected': False, 'details': []}] *)
Definition no_escalation : ConversationAnalyzer.EscalationPatterns :=
  {| ConversationAnalyzer.escalation_detected := false;
     ConversationAnalyzer.details := [] |}.

(** What every entry of [details] satisfies. *)
Definition detail_sound (d : ConversationAnalyzer.Detail) : Prop :=
  List.In (ConversationAnalyzer.category d) escalation_categories
  /\ ConversationAnalyzer.trend d = "increasing"%string
  /\ 2 <= ConversationAnalyzer.windows d
  /\ ConversationAnalyzer.initial_count d
     < ConversationAnalyzer.final_count d.

(** Two dated threats eight days apart, and an undated message. *)
Definition dated_threats : list Message :=
  [ timed_message "I will destroy you" (Datetime.make 2024 1 1 10 0);
    timed_message "I will destroy you and smash it all"
                  (Datetime.make 2024 1 9 10 0) ].

Definition dated_and_undated : list Message :=
  dated_threats ++ [undated_message "no date here"].

(** Some isolation keyword hits the message text. *)
Definition isolation_hit (m : Message) : bool :=
  List.existsb
    (fun keyword =>
       ConversationAnalyzer.keyword_hit_ignorecase keyword (msg_text m))
    ISOLATION_INDICATORS.

(** A sample entry describes message [m]. *)
Definition sample_of (m : Message) (s : IsolationSample) : Prop :=
  sample_timestamp s = msg_timestamp m
  /\ sample_sender s = msg_sender m
  /\ sample_excerpt s = Text.take_str 100 (msg_text m)
  /\ List.In (sample_keyword s) ISOLATION_INDICATORS
  /\ ConversationAnalyzer.keyword_hit_ignorecase (sample_keyword s)
                                                 (msg_text m) = true.

(** The severity label for a number of isolating messages. *)
Definition isolation_level (n : nat) : IsolationSeverity :=
  if Nat.leb n 5 then isolation_low
  else if Nat.leb n 10 then isolation_medium
  else isolation_high.

(** [ratio() > 0.85] as a truth value. *)
Definition ratio_above (a b : list ascii) : bool :=
  match Difflib.ratio_gt_085 a b with Some hit => hit | None => false end.

(** Four messages that each contain the one keyword of
    [worthless_engine]. *)
Definition four_insults : list Message :=
  [ text_message "you are worthless"; text_message "worthless again";
    text_message "still worthless"; text_message "worthless" ].

(* ================================================================== *)
(** * Sanity of the tables *)
(* ================================================================== *)

(** Every table the analyzer indexes is present, no table repeats a key,
    and every subcategory of the lexicon has a weight. *)
Lemma lexicon_keys_present :
  dict_keys DARVO_INDICATORS
  = ["Deny"; "Attack"; "Reverse_Victim_Offender"; "Institutional_DARVO"]%string
  /\ dict_keys DARVO_SEVERITY_WEIGHTS = dict_keys DARVO_INDICATORS
  /\ List.map (fun c => dict_keys (sub_table DARVO_SEVERITY_WEIGHTS c))
              (dict_keys DARVO_INDICATORS)
     = List.map (fun c => dict_keys (sub_table DARVO_INDICATORS c))
                (dict_keys DARVO_INDICATORS).
Proof. repeat split; vm_compute; reflexivity. Qed.

Lemma distinct_keys_NoDup (ks : list string) :
  distinct_keys ks = true -> List.NoDup ks.
Proof.
  induction ks as [|k ks IH]; simpl; intros H.
  - constructor.
  - apply andb_prop in H as [Hk Hks]. constructor; [|auto].
    intros Hin. apply negb_true_iff in Hk.
    assert (List.existsb (String.eqb k) ks = true) as E.
    { apply List.existsb_exists. exists k. split; [exact Hin|].
      apply String.eqb_refl. }
    congruence.
Qed.

Lemma tables_distinct_keys :
  List.NoDup (dict_keys Deny_table) /\ List.NoDup (dict_keys Attack_table)
  /\ List.NoDup (dict_keys Reverse_table)
  /\ List.NoDup (dict_keys Institutional_table)
  /\ List.NoDup (dict_keys CHILD_FOCUSED_DARVO).
Proof. repeat split; apply distinct_keys_NoDup; vm_compute; reflexivity. Qed.

(* ================================================================== *)
(** * Keyword scanning *)
(* ================================================================== *)

Lemma scan_keywords_some text keywords kw :
  scan_keywords text keywords = Some kw -> first_hit_of keywords text kw.
Proof.
  induction keywords as [|k ks IH]; simpl; [discriminate|].
  destruct (keyword_hit k text) eqn:E.
  - intros [= <-]. exists [], ks. repeat split; auto.
  - intros H. destruct (IH H) as (b & a & -> & Hk & Hb).
    exists (k :: b), a. repeat split; auto.
Qed.

Lemma scan_keywords_none text keywords :
  scan_keywords text keywords = None ->
  List.Forall (fun k => keyword_hit k text = false) keywords.
Proof.
  induction keywords as [|k ks IH]; simpl; intros H; [constructor|].
  destruct (keyword_hit k text) eqn:E; [discriminate|].
  constructor; auto.
Qed.

Lemma scan_keywords_any text keywords :
  match scan_keywords text keywords with Some _ => true | None => false end
  = any_hit text keywords.
Proof.
  induction keywords as [|k ks IH]; simpl; [reflexivity|].
  destruct (keyword_hit k text); simpl; auto.
Qed.

Lemma any_keyword_exists table text :
  any_keyword table text
  = List.existsb (fun item => any_hit text (snd item)) table.
Proof.
  unfold any_keyword, dict_values. induction table as [|[k v] t IH];
    simpl; [reflexivity|]. now rewrite IH.
Qed.

(* ================================================================== *)
(** * Severity: closed form of the accumulation *)
(* ================================================================== *)

Lemma dict_adjust_add_0 (key : string) (d : Dict nat) :
  dict_adjust (fun v => v + 0) key d = d.
Proof.
  induction d as [|[k v] d IH]; simpl; [reflexivity|].
  destruct (String.eqb key k).
  - now rewrite Nat.add_0_r.
  - now rewrite IH.
Qed.

Lemma dict_adjust_add_add (key : string) (a b : nat) (d : Dict nat) :
  dict_adjust (fun v => v + b) key (dict_adjust (fun v => v + a) key d)
  = dict_adjust (fun v => v + (a + b)) key d.
Proof.
  induction d as [|[k v] d IH]; simpl; [reflexivity|].
  destruct (String.eqb key k) eqn:E; simpl; rewrite E.
  - now rewrite Nat.add_assoc.
  - now rewrite IH.
Qed.

Lemma add_score_0 key st : add_score key 0 st = st.
Proof.
  destruct st as [t d]. unfold add_score; simpl.
  now rewrite dict_adjust_add_0, Nat.add_0_r.
Qed.

Lemma add_score_add key a b st :
  add_score key b (add_score key a st) = add_score key (a + b) st.
Proof.
  destruct st as [t d]. unfold add_score; simpl.
  now rewrite dict_adjust_add_add, Nat.add_assoc.
Qed.

Lemma score_subcategory_add text key score_of st item :
  score_subcategory text key score_of st item
  = add_score key
      (if any_hit text (snd item) then score_of (fst item) else 0) st.
Proof.
  destruct item as [subcat keywords]; simpl.
  rewrite <- scan_keywords_any.
  destruct (scan_keywords text keywords); [reflexivity|].
  now rewrite add_score_0.
Qed.

Lemma score_category_add text key table score_of st :
  score_category text key table score_of st
  = add_score key (category_sum text table score_of) st.
Proof.
  unfold score_category, category_sum. revert st.
  induction table as [|item table IH]; intros st; simpl.
  - now rewrite add_score_0.
  - rewrite IH, score_subcategory_add, add_score_add. reflexivity.
Qed.

Lemma score_message_shape t d a r i c m :
  score_message {| st_total := t; st_scores := scores_dict d a r i c |} m
  = {| st_total :=
         t + deny_sum m + attack_sum m + reverse_sum m
         + institutional_sum m + child_sum m;
       st_scores :=
         scores_dict (d + deny_sum m) (a + attack_sum m)
                     (r + reverse_sum m) (i + institutional_sum m)
                     (c + child_sum m) |}.
Proof.
  unfold score_message. rewrite !score_category_add. reflexivity.
Qed.

Lemma score_messages_shape messages : forall t d a r i c,
  List.fold_left score_message messages
    {| st_total := t; st_scores := scores_dict d a r i c |}
  = {| st_total :=
         t + sum_over deny_sum messages + sum_over attack_sum messages
         + sum_over reverse_sum messages
         + sum_over institutional_sum messages
         + sum_over child_sum messages;
       st_scores :=
         scores_dict (d + sum_over deny_sum messages)
                     (a + sum_over attack_sum messages)
                     (r + sum_over reverse_sum messages)
                     (i + sum_over institutional_sum messages)
                     (c + sum_over child_sum messages) |}.
Proof.
  induction messages as [|m ms IH]; intros; simpl.
  - unfold sum_over; simpl. rewrite !Nat.add_0_r. reflexivity.
  - rewrite score_message_shape, IH. unfold sum_over; simpl.
    f_equal; [lia|]. unfold scores_dict.
    repeat (f_equal; try lia).
Qed.

Lemma list_sum_positive {A : Type} (g : A -> nat) (l : list A) :
  Nat.ltb 0 (List.list_sum (List.map g l))
  = List.existsb (fun x => Nat.ltb 0 (g x)) l.
Proof.
  induction l as [|x l IH]; simpl; [reflexivity|].
  rewrite <- IH.
  destruct (Nat.ltb_spec 0 (g x)); destruct (Nat.ltb_spec 0 (list_sum (map g l)));
    destruct (Nat.ltb_spec 0 (g x + list_sum (map g l))); simpl; auto; lia.
Qed.

Lemma child_sum_positive m :
  Nat.ltb 0 (child_sum m) = any_keyword CHILD_FOCUSED_DARVO (lower_text m).
Proof.
  unfold child_sum, category_sum.
  rewrite list_sum_positive, any_keyword_exists.
  induction CHILD_FOCUSED_DARVO as [|item t IH]; simpl; [reflexivity|].
  rewrite IH. destruct (any_hit (lower_text m) (snd item)); reflexivity.
Qed.

Lemma severity_closed_form messages :
  let s := _calculate_severity messages in
  total_score s
  = sum_over deny_sum messages + sum_over attack_sum messages
    + sum_over reverse_sum messages + sum_over institutional_sum messages
    + sum_over child_sum messages
  /\ category_scores s
     = scores_dict (sum_over deny_sum messages)
                   (sum_over attack_sum messages)
                   (sum_over reverse_sum messages)
                   (sum_over institutional_sum messages)
                   (sum_over child_sum messages).
Proof.
  unfold _calculate_severity.
  change initial_scores with (scores_dict 0 0 0 0 0).
  rewrite score_messages_shape. simpl. split; reflexivity.
Qed.

(* ================================================================== *)
(** * C3: risk level *)
(* ================================================================== *)

(** C3 (counterexample).  A message whose whole text is "custody" matches the
    keyword "custody", which the lexicon lists under Attack /
    threat_of_consequences and not in the child-focused table: its
    child-focused subtotal is 0, its total is 5, and its risk level is
    "low", not "critical". *)
Lemma C3_custody_alone_is_low :
  let m := text_message "custody" in
  let s := _calculate_severity [m] in
  keyword_hit "custody" (lower_text m) = true
  /\ List.existsb (String.eqb "custody")
       (List.concat (dict_values CHILD_FOCUSED_DARVO)) = false
  /\ child_focused_hit m = false
  /\ category_scores s = scores_dict 0 5 0 0 0
  /\ total_score s = 5
  /\ risk_level s = low.
Proof. vm_compute. repeat split; reflexivity. Qed.

(** C3 (amended).  For every message list the risk level is read off the
    integer total and the child-focused subtotal: critical whenever the
    child-focused subtotal is positive, and otherwise low for a total of at
    most 15, medium for 16..30, high for 31..50 and critical above 50.  The
    child-focused subtotal is positive exactly when some message matches a
    keyword of the child-focused table, so a single message matching such a
    keyword is critical whatever its total; the message "I'll get full
    custody" is one, with total 10.  The rule holds of the severity
    assessment of every analysis result, the empty one included. *)
Theorem C3_risk_level_rule :
  forall messages : list Message,
    let s := _calculate_severity messages in
    let child := child_focused_score (category_scores s) in
    risk_level s = risk_by_ranges (total_score s) child
    /\ Nat.ltb 0 child = List.existsb child_focused_hit messages
    /\ (forall m : Message,
          risk_level (_calculate_severity [m])
          = if child_focused_hit m then critical
            else risk_by_ranges (total_score (_calculate_severity [m])) 0)
    /\ (let m := text_message "I'll get full custody" in
        child_focused_hit m = true
        /\ total_score (_calculate_severity [m]) = 10
        /\ risk_level (_calculate_severity [m]) = critical)
    /\ (forall (self : DARVOAnalyzer) (clk : nat -> datetime),
          let a :=
            severity_assessment
              (Clock.run (analyze_darvo_patterns self) clk) in
          risk_level a
          = risk_by_ranges (total_score a)
                           (child_focused_score (category_scores a))).
Proof.
  assert (Hrule : forall ms,
             risk_level (_calculate_severity ms)
             = risk_by_ranges
                 (total_score (_calculate_severity ms))
                 (child_focused_score
                    (category_scores (_calculate_severity ms)))).
  { intros ms. unfold _calculate_severity; cbn [risk_level total_score category_scores].
    unfold risk_by_ranges, risk_of_total.
    destruct (Nat.ltb 0 _); [reflexivity|].
    set (t := st_total _).
    destruct (Nat.ltb_spec 50 t), (Nat.ltb_spec 30 t), (Nat.ltb_spec 15 t),
      (Nat.leb_spec t 15), (Nat.leb_spec t 30), (Nat.leb_spec t 50);
      try reflexivity; lia. }
  assert (Hchild : forall ms,
             Nat.ltb 0 (child_focused_score
                          (category_scores (_calculate_severity ms)))
             = List.existsb child_focused_hit ms).
  { intros ms. destruct (severity_closed_form ms) as [_ ->].
    change (child_focused_score (scores_dict _ _ _ _ ?c)) with c.
    unfold sum_over. rewrite list_sum_positive.
    induction ms as [|m ms IH]; simpl; [reflexivity|].
    now rewrite IH, child_sum_positive. }
  intros messages s child. split; [apply Hrule|]. split; [apply Hchild|].
  split.
  - intros m. rewrite Hrule. unfold risk_by_ranges at 1.
    rewrite Hchild. simpl. rewrite orb_false_r.
    destruct (child_focused_hit m); reflexivity.
  - split; [vm_compute; repeat split; reflexivity|].
    intros [[|m ms] text] clk; [|apply Hrule].
    unfold analyze_darvo_patterns; simpl.
    destruct (negb (String.eqb text "")); [apply Hrule|reflexivity].
Qed.

(* ================================================================== *)
(** * C8, C9, C10: the entry point and the clock *)
(* ================================================================== *)

Lemma timeline_available_iff messages :
  timeline_available (_analyze_timeline messages)
  = List.existsb has_timestamp messages.
Proof.
  unfold _analyze_timeline.
  destruct (List.existsb has_timestamp messages); reflexivity.
Qed.

(** C8 (counterexample).  The same one-message conversation analysed under
    two wall clocks one second apart gives two different results: the
    forensic summary carries the time of the run. *)
Lemma C8_two_runs_differ :
  let self := DARVOAnalyzer_init (Some [text_message "hello"]) None in
  Clock.run (analyze_darvo_patterns self) clock_a
  <> Clock.run (analyze_darvo_patterns self) clock_b.
Proof.
  intros self H.
  apply (f_equal (fun r => analysis_date (forensic_summary r))) in H.
  vm_compute in H. discriminate H.
Qed.

(** C8 (amended).  The result is a function of the analyzer's input and of
    the wall-clock readings made during the run, of which there are at most
    two.  For a non-empty message list the only clock-dependent value is
    [analysis_date], the first reading: two runs on the same messages agree
    on everything else, whatever their clocks.  For document input the first
    reading is the document message's timestamp and the second is
    [analysis_date]. *)
Theorem C8_deterministic_up_to_clock :
  forall (self : DARVOAnalyzer) (clk clk' : nat -> datetime),
    Clock.run (analyze_darvo_patterns self) (first_two_readings clk clk')
    = Clock.run (analyze_darvo_patterns self) clk
    /\ (forall (m : Message) (ms : list Message) (text : option string),
          let conv := DARVOAnalyzer_init (Some (m :: ms)) text in
          let r := Clock.run (analyze_darvo_patterns conv) clk in
          let r' := Clock.run (analyze_darvo_patterns conv) clk' in
          with_analysis_date 0%Z r = with_analysis_date 0%Z r'
          /\ analysis_date (forensic_summary r) = clk 0
          /\ r = with_analysis_date (clk 0) r').
Proof.
  intros self clk clk'. split.
  - destruct self as [[|m ms] text]; [|reflexivity].
    unfold analyze_darvo_patterns; simpl.
    destruct (negb (String.eqb text "")); reflexivity.
  - intros m ms text. repeat split.
Qed.

(** C9.  Analysing an empty message list with no document text (either
    argument absent, or the empty list and the empty string) returns, without
    an error, the zero-valued structure: every pattern map and the compound
    list empty, total score 0, risk level "low", no timeline, and
    [full_darvo_pattern_detected] false with all counts 0. *)
Theorem C9_empty_input_zero_result :
  forall (clk : nat -> datetime) (no_list no_text : bool),
    let messages := if no_list then None else Some [] in
    let text := if no_text then None else Some ""%string in
    let r := Clock.run
               (analyze_darvo_patterns (DARVOAnalyzer_init messages text))
               clk in
    r = empty_result (clk 0)
    /\ deny_patterns r = [] /\ attack_patterns r = []
    /\ reverse_patterns r = [] /\ institutional_patterns r = []
    /\ child_focused_patterns r = []
    /\ compound_patterns r = []
    /\ total_score (severity_assessment r) = 0
    /\ category_scores (severity_assessment r) = []
    /\ risk_level (severity_assessment r) = low
    /\ timeline_analysis r = TimelineUnavailable
    /\ full_darvo_pattern_detected (forensic_summary r) = false
    /\ total_messages_analyzed (forensic_summary r) = 0
    /\ instance_counts (forensic_summary r)
       = {| deny_instances := 0; attack_instances := 0;
            reverse_instances := 0; child_focused_instances := 0 |}.
Proof.
  intros clk [|] [|]; cbv zeta; repeat split.
Qed.

(** C10.  With no messages and a non-empty text, [analyze_darvo_patterns]
    reads the clock, stores exactly one message (the text, sender
    "Document", platform "document", the reading as timestamp) and returns
    what the conversation analysis returns on that one-message list; the
    timeline of such a result is always available. *)
Theorem C10_document_mode :
  forall (clk : nat -> datetime) (no_list : bool) (text : string),
    text <> ""%string ->
    let self :=
      DARVOAnalyzer_init (if no_list then None else Some []) (Some text) in
    let doc :=
      {| msg_text := text; msg_sender := Some "Document"%string;
         msg_timestamp := Some (clk 0);
         msg_platform := Some "document"%string |} in
    analyze_darvo_patterns self clk 0
    = _analyze_conversation {| self_messages := [doc]; self_text := text |}
                            clk 1
    /\ timeline_available
         (timeline_analysis (Clock.run (analyze_darvo_patterns self) clk))
       = true.
Proof.
  intros clk no_list text Htext self doc.
  assert (E : negb (String.eqb text "") = true).
  { apply negb_true_iff. apply String.eqb_neq. exact Htext. }
  assert (Hrun : analyze_darvo_patterns self clk 0
                 = _analyze_conversation
                     {| self_messages := [doc]; self_text := text |} clk 1).
  { unfold self, analyze_darvo_patterns. destruct no_list; simpl; rewrite E;
      reflexivity. }
  split; [exact Hrun|].
  unfold Clock.run. rewrite Hrun.
  unfold _analyze_conversation, Clock.bind, Clock.ret; simpl.
  change (timeline_available (_analyze_timeline [doc]) = true).
  rewrite timeline_available_iff. reflexivity.
Qed.

Lemma C10_document_mode_witness :
  let clk := clock_a in
  let text := "I never said that. You're crazy."%string in
  text <> ""%string
  /\ timeline_available
       (timeline_analysis
          (Clock.run
             (analyze_darvo_patterns (DARVOAnalyzer_init None (Some text)))
             clk)) = true.
Proof.
  intros clk text.
  assert (H : text <> ""%string) by discriminate.
  split; [exact H|].
  exact (proj2 (C10_document_mode clk true text H)).
Defined.

(* ================================================================== *)
(** * C5: one instance and one weight per message and subcategory *)
(* ================================================================== *)

Lemma dict_get_adjust {V : Type} (f : V -> V) (k k' : string) (d : Dict V) :
  dict_get (dict_adjust f k d) k'
  = if String.eqb k k' then option_map f (dict_get d k) else dict_get d k'.
Proof.
  induction d as [|[k0 v] d IH]; simpl.
  - destruct (String.eqb k k'); reflexivity.
  - destruct (String.eqb_spec k k0) as [E0|N0];
      destruct (String.eqb_spec k k') as [E1|N1];
      destruct (String.eqb_spec k' k0) as [E2|N2];
      subst; simpl; rewrite ?String.eqb_refl; try congruence;
      try (destruct (String.eqb_spec k' k0); congruence).
Qed.

Lemma dict_get_not_key {V : Type} (d : Dict V) (k : string) :
  ~ List.In k (dict_keys d) -> dict_get d k = None.
Proof.
  induction d as [|[k0 v] d IH]; simpl; intros H; [reflexivity|].
  destruct (String.eqb_spec k k0) as [->|]; [exfalso; auto|auto].
Qed.

Lemma dict_get_empty_results (keys : list string) (k : string) :
  List.In k keys ->
  dict_get (empty_results keys) k = Some {| count := 0; instances := [] |}.
Proof.
  induction keys as [|k0 keys IH]; simpl; intros H; [contradiction|].
  destruct (String.eqb_spec k k0); [reflexivity|].
  destruct H; [congruence|auto].
Qed.

Lemma dict_get_In {V : Type} (d : Dict V) (k : string) (v : V) :
  dict_get d k = Some v -> List.In k (dict_keys d).
Proof.
  induction d as [|[k0 v0] d IH]; simpl; [discriminate|].
  destruct (String.eqb_spec k k0); [auto|]. intros H. right. auto.
Qed.

Section DetectorFacts.
Variable table : Dict (list string).
Variable severity_of : string -> nat.
Variable high_risk : option bool.

Lemma detect_message_get (msg : Message) :
  forall (entries : Dict (list string)) (results : Dict SubResult)
         (subcat : string),
    List.NoDup (dict_keys entries) ->
    dict_get (List.fold_left (detect_subcategory severity_of high_risk msg)
                             entries results) subcat
    = option_map
        (fun r =>
           {| count := count r
                + List.length
                    (contribution entries severity_of high_risk subcat msg);
              instances := instances r
                ++ contribution entries severity_of high_risk subcat msg |})
        (dict_get results subcat).
Proof.
  induction entries as [|[k kws] entries IH]; intros results subcat Hnd.
  - simpl. unfold contribution; simpl.
    destruct (dict_get results subcat) as [[c i]|]; simpl; [|reflexivity].
    now rewrite Nat.add_0_r, List.app_nil_r.
  - inversion Hnd as [|? ? Hk Hnd']; subst. simpl List.fold_left.
    rewrite IH by assumption.
    unfold contribution, detect_subcategory. cbn [dict_get].
    destruct (String.eqb_spec subcat k) as [->|Hne].
    + rewrite (dict_get_not_key entries k Hk).
      destruct (scan_keywords (lower_text msg) kws) as [kw|].
      * rewrite dict_get_adjust, String.eqb_refl.
        destruct (dict_get results k) as [[c i]|]; simpl; [|reflexivity].
        now rewrite Nat.add_0_r, List.app_nil_r, Nat.add_1_r.
      * destruct (dict_get results k) as [[c i]|]; simpl; [|reflexivity].
        now rewrite Nat.add_0_r, List.app_nil_r.
    + destruct (scan_keywords (lower_text msg) kws) as [kw|];
        [|reflexivity].
      rewrite dict_get_adjust.
      destruct (String.eqb_spec k subcat); [congruence|reflexivity].
Qed.

Lemma detect_patterns_get (subcat : string) :
  List.NoDup (dict_keys table) ->
  forall (messages : list Message) (initial : Dict SubResult),
    dict_get (detect_patterns table severity_of high_risk initial messages)
             subcat
    = option_map
        (fun r =>
           let l := List.concat
                      (List.map (contribution table severity_of high_risk
                                              subcat) messages) in
           {| count := count r + List.length l;
              instances := instances r ++ l |})
        (dict_get initial subcat).
Proof.
  intros Hnd. unfold detect_patterns.
  induction messages as [|m ms IH]; intros initial; simpl.
  - destruct (dict_get initial subcat) as [[c i]|]; simpl; [|reflexivity].
    now rewrite Nat.add_0_r, List.app_nil_r.
  - rewrite IH. unfold detect_message.
    rewrite detect_message_get by assumption.
    destruct (dict_get initial subcat) as [[c i]|]; simpl; [|reflexivity].
    rewrite List.length_app, List.app_assoc, Nat.add_assoc. reflexivity.
Qed.

Lemma contributions_single (subcat : string) (keywords : list string) :
  dict_get table subcat = Some keywords ->
  forall messages : list Message,
    List.Forall2 (single_contribution severity_of high_risk subcat keywords)
      messages
      (List.map (contribution table severity_of high_risk subcat) messages).
Proof.
  intros Hk. induction messages as [|m ms IH]; simpl; constructor; auto.
  unfold contribution, single_contribution. rewrite Hk.
  rewrite <- scan_keywords_any.
  destruct (scan_keywords (lower_text m) keywords) as [kw|] eqn:E.
  - right. exists kw. split; [|reflexivity].
    now apply scan_keywords_some.
  - left. split; reflexivity.
Qed.

Lemma detector_one_instance (keys : list string) :
  List.NoDup (dict_keys table) ->
  keys = dict_keys table ->
  one_instance_per_message table severity_of high_risk
    (detect_patterns table severity_of high_risk (empty_results keys)).
Proof.
  intros Hnd -> messages subcat.
  destruct (dict_get table subcat) as [keywords|] eqn:Hk; [|exact I].
  exists (List.map (contribution table severity_of high_risk subcat) messages).
  split; [now apply contributions_single|].
  rewrite detect_patterns_get by assumption.
  rewrite dict_get_empty_results by (eapply dict_get_In; eauto).
  reflexivity.
Qed.

End DetectorFacts.

(** C5.  Each of the five detectors records, for every message and every
    subcategory of its table, at most one instance: none when no keyword of
    the subcategory matches the message, and otherwise exactly one, for the
    first keyword in lexicon order that matches; the subcategory's count is
    the number of these instances.  The severity adds a subcategory's weight
    (5 for a child-focused one) once per message with a match, to the
    category subtotal and to the total.  A message matching two keywords of
    outright_denial gives one instance, for the first of them, and adds the
    weight 2 once. *)
Theorem C5_one_match_per_message_and_subcategory :
  one_instance_per_message Deny_table (severity_weight "Deny") None
    _detect_deny_patterns
  /\ one_instance_per_message Attack_table (severity_weight "Attack") None
       _detect_attack_patterns
  /\ one_instance_per_message Reverse_table
       (severity_weight "Reverse_Victim_Offender") None
       _detect_reverse_patterns
  /\ one_instance_per_message Institutional_table
       (severity_weight "Institutional_DARVO") None
       _detect_institutional_patterns
  /\ one_instance_per_message CHILD_FOCUSED_DARVO (fun _ => 5) (Some true)
       _detect_child_focused_patterns
  /\ (forall messages : list Message,
        let s := _calculate_severity messages in
        category_scores s
        = scores_dict (sum_over deny_sum messages)
                      (sum_over attack_sum messages)
                      (sum_over reverse_sum messages)
                      (sum_over institutional_sum messages)
                      (sum_over child_sum messages)
        /\ total_score s
           = sum_over deny_sum messages + sum_over attack_sum messages
             + sum_over reverse_sum messages
             + sum_over institutional_sum messages
             + sum_over child_sum messages)
  /\ (let m := text_message "I never said that and I never did that" in
      List.map (fun kw => keyword_hit kw (lower_text m))
               ["I never said that"; "I never did that"]%string
      = [true; true]
      /\ option_map (fun r => (count r, List.map inst_keyword (instances r)))
           (dict_get (_detect_deny_patterns [m]) "outright_denial")
         = Some (1, ["I never said that"%string])
      /\ category_scores (_calculate_severity [m]) = scores_dict 2 0 0 0 0).
Proof.
  destruct tables_distinct_keys as (Hd & Ha & Hr & Hi & Hc).
  split; [apply detector_one_instance; [exact Hd|reflexivity]|].
  split; [apply detector_one_instance; [exact Ha|reflexivity]|].
  split; [apply detector_one_instance; [exact Hr|reflexivity]|].
  split; [apply detector_one_instance; [exact Hi|reflexivity]|].
  split; [apply detector_one_instance; [exact Hc|reflexivity]|].
  split.
  - intros messages s. destruct (severity_closed_form messages) as [Ht Hs].
    split; assumption.
  - vm_compute. repeat split; reflexivity.
Qed.

(* ================================================================== *)
(** * C2: compound sequences *)
(* ================================================================== *)

Lemma appears_drop_head r roles window :
  appears_in_order (r :: roles) window -> appears_in_order roles window.
Proof.
  intros H. remember (r :: roles) as p eqn:E. revert r roles E.
  induction H as [w|r' roles' mc w Hr H IH|roles' mc w H IH];
    intros r roles E.
  - discriminate.
  - injection E as -> ->. now apply aio_skip.
  - apply aio_skip. eapply IH; eauto.
Qed.

Lemma appears_length roles window :
  appears_in_order roles window -> List.length roles <= List.length window.
Proof. induction 1; simpl; lia. Qed.

Lemma skipn_nth_error {A : Type} (l : list A) (i : nat) (x : A) :
  List.nth_error l i = Some x -> List.skipn i l = x :: List.skipn (S i) l.
Proof.
  revert i. induction l as [|y l IH]; intros [|i]; simpl; try discriminate.
  - now intros [= ->].
  - intros H. now rewrite (IH i H).
Qed.

(** The pointer walk reaches the end of the pattern exactly when the roles
    still to be found appear in order in the rest of the window. *)
Lemma advance_pattern_spec (target : list Role) (window : list Classified) :
  forall i, i <= List.length target ->
    advance_pattern target i window = List.length target
    <-> appears_in_order (List.skipn i target) window.
Proof.
  induction window as [|mc window IH]; intros i Hi; simpl.
  - split.
    + intros ->. rewrite List.skipn_all. constructor.
    + intros H. apply appears_length in H. rewrite List.length_skipn in H.
      simpl in H. lia.
  - destruct (List.nth_error target i) as [r|] eqn:E.
    + assert (Hlt : i < List.length target)
        by (apply List.nth_error_Some; congruence).
      rewrite (skipn_nth_error _ _ _ E).
      destruct (has_role r mc) eqn:Hr.
      * rewrite IH by lia. split.
        -- intros H. now apply aio_take.
        -- intros H. inversion H; subst; [assumption|].
           eapply appears_drop_head; eauto.
      * rewrite IH by lia. rewrite (skipn_nth_error _ _ _ E). split.
        -- intros H. now apply aio_skip.
        -- intros H. inversion H; subst; [congruence|assumption].
    + apply List.nth_error_None in E.
      rewrite IH by lia.
      rewrite List.skipn_all2 by lia. split; intros _; constructor.
Qed.

Lemma check_pattern_iff (window : list Classified) (target : list Role) :
  _check_pattern_in_window window target = true
  <-> appears_in_order target window.
Proof.
  unfold _check_pattern_in_window. rewrite Nat.eqb_eq.
  apply (advance_pattern_spec target window 0). lia.
Qed.

Lemma compound_entry_nonempty name def window :
  window <> [] -> exists entry, compound_entry name def window = Some entry.
Proof. destruct window; [congruence|]. intros _. eexists. reflexivity. Qed.

Lemma found_window_nonempty def window :
  pattern def <> [] ->
  _check_pattern_in_window window (pattern def) = true -> window <> [].
Proof.
  intros Hp H ->. apply check_pattern_iff, appears_length in H.
  destruct (pattern def); [congruence|simpl in H; lia].
Qed.

Section PatternFacts.
Variable name : string.
Variable def : CompoundPatternDef.
Variable mcs : list Classified.
Hypothesis pattern_nonempty : pattern def <> [].

Let report (i : nat) : list (nat * CompoundMatch) :=
  let window := window_at def mcs i in
  if _check_pattern_in_window window (pattern def) then
    match compound_entry name def window with
    | Some entry => [(i, entry)]
    | None => []
    end
  else [].

Lemma scan_offsets_reports (offsets : list nat) :
  forall acc,
    List.fold_left (scan_offset name def mcs) offsets (Some acc)
    = Some (acc ++ List.map snd (List.flat_map report offsets)).
Proof.
  induction offsets as [|i offsets IH]; intros acc; simpl.
  - now rewrite List.app_nil_r.
  - unfold report at 1, window_at.
    destruct (_check_pattern_in_window _ _) eqn:Hc.
    + destruct (compound_entry_nonempty name def _
                  (found_window_nonempty def _ pattern_nonempty Hc))
        as [entry ->].
      rewrite IH. simpl. now rewrite <- List.app_assoc.
    + rewrite IH. reflexivity.
Qed.

Lemma scan_pattern_reports (acc : list CompoundMatch) :
  scan_pattern mcs (Some acc) (name, def)
  = Some (acc ++ List.map snd (pattern_reports name def mcs)).
Proof. unfold scan_pattern. apply scan_offsets_reports. Qed.

Lemma report_offsets_sublist (offsets : list nat) :
  sublist (List.map fst (List.flat_map report offsets)) offsets.
Proof.
  induction offsets as [|i offsets IH]; simpl; [constructor|].
  rewrite List.map_app. unfold report at 1.
  destruct (_check_pattern_in_window _ _).
  - destruct (compound_entry _ _ _); simpl.
    + now apply sublist_skip.
    + now apply sublist_cons.
  - simpl. now apply sublist_cons.
Qed.

Lemma report_in (offsets : list nat) (i : nat) (entry : CompoundMatch) :
  List.In (i, entry) (List.flat_map report offsets)
  <-> List.In i offsets
      /\ _check_pattern_in_window (window_at def mcs i) (pattern def) = true
      /\ compound_entry name def (window_at def mcs i) = Some entry.
Proof.
  rewrite List.in_flat_map. split.
  - intros (j & Hj & Hin). unfold report in Hin.
    destruct (_check_pattern_in_window _ _) eqn:Hc; [|destruct Hin].
    destruct (compound_entry _ _ _) eqn:He; [|destruct Hin].
    destruct Hin as [[= <- <-]|[]]. auto.
  - intros (Hi & Hc & He). exists i. split; [assumption|].
    unfold report. rewrite Hc, He. now left.
Qed.

End PatternFacts.

Lemma slice_length_le {A : Type} (l : list A) (i n : nat) :
  List.length (slice l i n) <= List.length l - i.
Proof.
  unfold slice. rewrite List.length_firstn, List.length_skipn. lia.
Qed.

Lemma seq_prefix_sublist (a b : nat) :
  a <= b -> sublist (List.seq 0 a) (List.seq 0 b).
Proof.
  intros H. replace b with (a + (b - a)) by lia.
  rewrite List.seq_app. apply sublist_inserts_r. reflexivity.
Qed.

Lemma pattern_reports_correct name def messages :
  pattern def <> [] ->
  2 <= List.length messages \/ 2 <= List.length (pattern def) ->
  reports_windows_in_order name def messages.
Proof.
  intros Hp Hlen. unfold reports_windows_in_order.
  set (mcs := List.map classify messages).
  assert (Hmcs : List.length mcs = List.length messages)
    by apply List.length_map.
  assert (Hfit : forall i,
             appears_in_order (pattern def) (window_at def mcs i) ->
             i + List.length (pattern def) <= List.length messages
             /\ window_at def mcs i <> []).
  { intros i H. apply appears_length in H.
    pose proof (slice_length_le mcs i (window_messages def)) as Hs.
    fold (window_at def mcs i) in Hs. split.
    - destruct (pattern def); [congruence|]. simpl in *. lia.
    - intros E. rewrite E in H. destruct (pattern def); [congruence|].
      simpl in H. lia. }
  unfold detect_compound_with.
  destruct (Nat.ltb_spec (List.length messages) 2) as [Hshort|Hlong].
  - exists []. split; [reflexivity|]. split; [apply sublist_nil_l|].
    split; [intros i entry []|].
    intros i Hi. split; [intros [entry []]|].
    intros H. apply Hfit in H. lia.
  - exists (pattern_reports name def mcs). cbn [List.fold_left].
    fold mcs. rewrite scan_pattern_reports by assumption.
    split; [reflexivity|]. unfold pattern_reports.
    split.
    { etransitivity; [apply report_offsets_sublist|].
      rewrite Hmcs. apply seq_prefix_sublist.
      destruct (pattern def); [congruence|]. simpl. lia. }
    split.
    { intros i entry H. apply (report_in name def mcs) in H. tauto. }
    intros i Hi. split.
    + intros [entry H]. apply (report_in name def mcs) in H.
      apply check_pattern_iff. tauto.
    + intros H. destruct (Hfit i H) as [Hi' Hne].
      destruct (compound_entry_nonempty name def _ Hne) as [entry He].
      exists entry. apply (report_in name def mcs).
      split; [apply List.in_seq; lia|].
      split; [now apply check_pattern_iff|assumption].
Qed.

Lemma shipped_patterns_concat messages :
  exists r1 r2 r3 : list CompoundMatch,
    detect_compound_with
      (List.firstn 1 DARVO_COMPOUND_PATTERNS) messages = Some r1
    /\ detect_compound_with
         (List.firstn 1 (List.skipn 1 DARVO_COMPOUND_PATTERNS)) messages
       = Some r2
    /\ detect_compound_with
         (List.skipn 2 DARVO_COMPOUND_PATTERNS) messages = Some r3
    /\ detect_compound_with DARVO_COMPOUND_PATTERNS messages
       = Some (r1 ++ r2 ++ r3).
Proof.
  unfold detect_compound_with.
  destruct (Nat.ltb (List.length messages) 2).
  - exists [], [], []. repeat split.
  - unfold DARVO_COMPOUND_PATTERNS.
    cbn [List.firstn List.skipn List.fold_left].
    rewrite !scan_pattern_reports by discriminate.
    do 3 eexists. repeat split. now rewrite List.app_assoc.
Qed.

Lemma compound_patterns_total messages :
  detect_compound_with DARVO_COMPOUND_PATTERNS messages <> None.
Proof.
  destruct (shipped_patterns_concat messages) as (r1 & r2 & r3 & _ & _ & _ & E).
  congruence.
Qed.

Lemma classify_deny_none_attack_reverse :
  List.map classify deny_none_attack_reverse
  = List.map (fun p => {| classifications := fst p; message := snd p |})
      (List.combine [[deny]; []; [attack]; [reverse]]
                    deny_none_attack_reverse).
Proof. vm_compute. reflexivity. Qed.

Lemma classify_deny_reverse_attack :
  List.map classify deny_reverse_attack
  = List.map (fun p => {| classifications := fst p; message := snd p |})
      (List.combine [[deny]; [reverse]; [attack]] deny_reverse_attack).
Proof. vm_compute. reflexivity. Qed.

(** C2 (counterexample).  Messages classified deny, (no role), attack,
    reverse with the pattern (deny, attack, reverse) and a window of 3
    messages: no window of 3 consecutive messages holds the three roles, and
    nothing is reported. *)
Lemma C2_window_of_three_reports_nothing :
  List.map classifications (List.map classify deny_none_attack_reverse)
  = [[deny]; []; [attack]; [reverse]]
  /\ 3 <= window_messages (full_darvo_with_window 3)
  /\ detect_compound_with
       [("full_darvo_sequence"%string, full_darvo_with_window 3)]
       deny_none_attack_reverse
     = Some [].
Proof. vm_compute. repeat split; reflexivity. Qed.

(** C2 (amended).  For every message list and every pattern definition with
    at least one role (and at least two messages or two roles), the detector
    examines the windows [messages[i : i + window_messages]] and reports one
    entry for a window exactly when the pattern's roles appear in it in
    order, on distinct messages, with any other messages in between; the
    shipped table's result is the concatenation of its three patterns'
    entries.  For messages classified deny, (no role), attack, reverse the
    pattern (deny, attack, reverse) is reported once for every window size
    of at least 4, so by the shipped full_darvo_sequence (window 10); for
    deny, reverse, attack it is not reported, whatever the window size. *)
Theorem C2_compound_patterns_in_order :
  (forall (name : string) (def : CompoundPatternDef)
          (messages : list Message),
      pattern def <> [] ->
      2 <= List.length messages \/ 2 <= List.length (pattern def) ->
      reports_windows_in_order name def messages)
  /\ (forall messages : list Message,
        exists r1 r2 r3 : list CompoundMatch,
          detect_compound_with
            (List.firstn 1 DARVO_COMPOUND_PATTERNS) messages = Some r1
          /\ detect_compound_with
               (List.firstn 1 (List.skipn 1 DARVO_COMPOUND_PATTERNS))
               messages = Some r2
          /\ detect_compound_with
               (List.skipn 2 DARVO_COMPOUND_PATTERNS) messages = Some r3
          /\ _detect_compound_patterns messages = r1 ++ r2 ++ r3)
  /\ (forall n : nat,
        option_map (List.map (fun e => (pattern_type e, cm_severity e,
                                        List.length (cm_messages e))))
          (detect_compound_with
             [("full_darvo_sequence"%string, full_darvo_with_window (4 + n))]
             deny_none_attack_reverse)
        = Some [("full_darvo_sequence"%string, 6, 3)])
  /\ List.filter (String.eqb "full_darvo_sequence")
       (List.map pattern_type
          (_detect_compound_patterns deny_none_attack_reverse))
     = ["full_darvo_sequence"%string]
  /\ (forall n : nat,
        detect_compound_with
          [("full_darvo_sequence"%string, full_darvo_with_window n)]
          deny_reverse_attack
        = Some [])
  /\ List.filter (String.eqb "full_darvo_sequence")
       (List.map pattern_type
          (_detect_compound_patterns deny_reverse_attack))
     = [].
Proof.
  split; [exact pattern_reports_correct|].
  split.
  { intros messages.
    destruct (shipped_patterns_concat messages)
      as (r1 & r2 & r3 & E1 & E2 & E3 & E).
    exists r1, r2, r3. unfold _detect_compound_patterns. rewrite E. auto. }
  split.
  { intros n. unfold detect_compound_with.
    change (Nat.ltb (List.length deny_none_attack_reverse) 2) with false.
    cbv iota. rewrite classify_deny_none_attack_reverse.
    cbn. rewrite List.firstn_nil. reflexivity. }
  split; [vm_compute; reflexivity|].
  split; [|vm_compute; reflexivity].
  intros n. unfold detect_compound_with.
  change (Nat.ltb (List.length deny_reverse_attack) 2) with false.
  cbv iota. rewrite classify_deny_reverse_attack.
  destruct n as [|[|[|n]]]; cbn; rewrite ?List.firstn_nil; reflexivity.
Qed.

Lemma C2_compound_patterns_in_order_witness :
  pattern (full_darvo_with_window 10) <> []
  /\ (2 <= List.length deny_none_attack_reverse
      \/ 2 <= List.length (pattern (full_darvo_with_window 10)))
  /\ reports_windows_in_order "full_darvo_sequence"
       (full_darvo_with_window 10) deny_none_attack_reverse.
Proof.
  assert (H1 : pattern (full_darvo_with_window 10) <> []) by discriminate.
  assert (H2 : 2 <= List.length deny_none_attack_reverse
               \/ 2 <= List.length (pattern (full_darvo_with_window 10))).
  { left. simpl. lia. }
  split; [exact H1|]. split; [exact H2|].
  exact (proj1 C2_compound_patterns_in_order
               "full_darvo_sequence"%string (full_darvo_with_window 10)
               deny_none_attack_reverse H1 H2).
Defined.

(* ================================================================== *)
(** * C4: forensic summary *)
(* ================================================================== *)

Lemma forensic_loop_sets (messages : list Message) :
  forall (i : nat) (s : RoleSets),
    let r := forensic_loop i messages s in
    messages_with_deny r
    = index_set (role_hit Deny_table) i messages (messages_with_deny s)
    /\ messages_with_attack r
       = index_set (role_hit Attack_table) i messages (messages_with_attack s)
    /\ messages_with_reverse r
       = index_set (role_hit Reverse_table) i messages
                   (messages_with_reverse s)
    /\ messages_with_child r
       = index_set (role_hit CHILD_FOCUSED_DARVO) i messages
                   (messages_with_child s).
Proof.
  induction messages as [|m ms IH]; intros i s; simpl.
  - repeat split.
  - apply IH.
Qed.

Lemma index_set_size (P : Message -> bool) (messages : list Message) :
  forall (i : nat) (s : gset nat),
    (forall k, k ∈ s -> k < i) ->
    size (index_set P i messages s)
    = size s + List.length (List.filter P messages)
    /\ (forall k, k ∈ index_set P i messages s ->
                  k < i + List.length messages).
Proof.
  induction messages as [|m ms IH]; intros i s Hs; simpl.
  - split; [lia|]. intros k Hk. specialize (Hs k Hk). lia.
  - assert (Hs' : forall k, k ∈ add_if (P m) i s -> k < S i).
    { intros k. unfold add_if. destruct (P m).
      - rewrite elem_of_union, elem_of_singleton.
        intros [->|Hk]; [lia|]. specialize (Hs k Hk). lia.
      - intros Hk. specialize (Hs k Hk). lia. }
    destruct (IH (S i) _ Hs') as [Hsize Hbound]. split.
    + rewrite Hsize. unfold add_if. destruct (P m); simpl; [|reflexivity].
      rewrite size_union, size_singleton; [lia|].
      intros k. rewrite elem_of_singleton. intros -> Hk.
      specialize (Hs i Hk). lia.
    + intros k Hk. specialize (Hbound k Hk). lia.
Qed.

Lemma index_set_elem (P : Message -> bool) (messages : list Message) :
  forall (i : nat) (s : gset nat) (k : nat),
    k ∈ index_set P i messages s
    <-> k ∈ s
        \/ (i <= k
            /\ exists m, List.nth_error messages (k - i) = Some m
                         /\ P m = true).
Proof.
  induction messages as [|m ms IH]; intros i s k; simpl.
  - split; [auto|]. intros [H|(_ & m & H & _)]; [assumption|].
    destruct (k - i); discriminate.
  - rewrite IH. unfold add_if. split.
    + intros [H|(Hle & m' & Hn & HP)].
      * destruct (P m) eqn:E; [|auto].
        apply elem_of_union in H as [H|H]; [|auto].
        apply elem_of_singleton in H as ->. right. split; [lia|].
        exists m. rewrite Nat.sub_diag. auto.
      * right. split; [lia|]. exists m'.
        replace (k - i) with (S (k - S i)) by lia. auto.
    + intros [H|(Hle & m' & Hn & HP)].
      * left. destruct (P m); [|assumption].
        apply elem_of_union. auto.
      * destruct (Nat.eq_dec k i) as [->|Hne].
        -- rewrite Nat.sub_diag in Hn. simpl in Hn. injection Hn as <-.
           left. rewrite HP. apply elem_of_union. left.
           now apply elem_of_singleton.
        -- right. split; [lia|]. exists m'.
           replace (k - i) with (S (k - S i)) in Hn by lia. auto.
Qed.

Lemma filter_positive {A : Type} (P : A -> bool) (l : list A) :
  Nat.ltb 0 (List.length (List.filter P l)) = List.existsb P l.
Proof.
  induction l as [|x l IH]; simpl; [reflexivity|].
  destruct (P x); simpl; [reflexivity|assumption].
Qed.

Lemma filter_length_perm {A : Type} (P : A -> bool) (l l' : list A) :
  Permutation l l' ->
  List.length (List.filter P l) = List.length (List.filter P l').
Proof.
  induction 1 as [|x l l' _ IH|x y l|l l' l'' _ IH1 _ IH2]; simpl.
  - reflexivity.
  - destruct (P x); simpl; congruence.
  - destruct (P x), (P y); reflexivity.
  - congruence.
Qed.

(** The four counts of the summary are the numbers of matching messages. *)
Lemma forensic_counts (messages : list Message) :
  let s := forensic_sets messages in
  size (messages_with_deny s)
  = List.length (List.filter (role_hit Deny_table) messages)
  /\ size (messages_with_attack s)
     = List.length (List.filter (role_hit Attack_table) messages)
  /\ size (messages_with_reverse s)
     = List.length (List.filter (role_hit Reverse_table) messages)
  /\ size (messages_with_child s)
     = List.length (List.filter (role_hit CHILD_FOCUSED_DARVO) messages).
Proof.
  unfold forensic_sets.
  destruct (forensic_loop_sets messages 0
              {| messages_with_deny := ∅; messages_with_attack := ∅;
                 messages_with_reverse := ∅; messages_with_child := ∅ |})
    as (-> & -> & -> & ->). simpl.
  assert (H0 : forall k : nat, k ∈ (∅ : gset nat) -> k < 0)
    by (intros k Hk; now apply not_elem_of_empty in Hk).
  repeat split;
    match goal with
    | |- size (index_set ?P 0 ?ms ∅) = _ =>
        destruct (index_set_size P ms 0 ∅ H0) as [-> _];
        rewrite size_empty; reflexivity
    end.
Qed.

(** C4.  In the forensic summary, [full_darvo_pattern_detected] is true
    exactly when the three index sets (messages matching some Deny keyword,
    some Attack keyword, some Reverse keyword) are all non-empty, that is,
    when each role is matched by at least one message; the instance counts
    are the numbers of matching messages, each message counted once.  Flag
    and counts are the same for every permutation of the message list, and
    the flag is true on the messages reverse, attack, deny, for which the
    compound sequence detector reports nothing.  Both signals are fields of
    the analysis result of a non-empty conversation. *)
Theorem C4_full_pattern_is_unordered_presence :
  forall (messages messages' : list Message) (clk clk' : nat -> datetime),
    Permutation messages messages' ->
    let s := forensic_sets messages in
    let f := forensic_of messages clk in
    let f' := forensic_of messages' clk' in
    (full_darvo_pattern_detected f = true
     <-> messages_with_deny s <> ∅ /\ messages_with_attack s <> ∅
         /\ messages_with_reverse s <> ∅)
    /\ (forall i : nat,
          (i ∈ messages_with_deny s
           <-> exists m, List.nth_error messages i = Some m
                         /\ role_hit Deny_table m = true)
          /\ (i ∈ messages_with_attack s
              <-> exists m, List.nth_error messages i = Some m
                            /\ role_hit Attack_table m = true)
          /\ (i ∈ messages_with_reverse s
              <-> exists m, List.nth_error messages i = Some m
                            /\ role_hit Reverse_table m = true))
    /\ full_darvo_pattern_detected f
       = List.existsb (role_hit Deny_table) messages
         && List.existsb (role_hit Attack_table) messages
         && List.existsb (role_hit Reverse_table) messages
    /\ instance_counts f
       = {| deny_instances :=
              List.length (List.filter (role_hit Deny_table) messages);
            attack_instances :=
              List.length (List.filter (role_hit Attack_table) messages);
            reverse_instances :=
              List.length (List.filter (role_hit Reverse_table) messages);
            child_focused_instances :=
              List.length
                (List.filter (role_hit CHILD_FOCUSED_DARVO) messages) |}
    /\ full_darvo_pattern_detected f' = full_darvo_pattern_detected f
    /\ instance_counts f' = instance_counts f
    /\ full_darvo_pattern_detected (forensic_of reverse_attack_deny clk)
       = true
    /\ _detect_compound_patterns reverse_attack_deny = []
    /\ (forall (m : Message) (ms : list Message) (text : option string),
          let r :=
            Clock.run
              (analyze_darvo_patterns
                 (DARVOAnalyzer_init (Some (m :: ms)) text)) clk in
          forensic_summary r = forensic_of (m :: ms) clk
          /\ compound_patterns r = _detect_compound_patterns (m :: ms)).
Proof.
  intros messages messages' clk clk' Hperm s f f'.
  assert (Hcounts : forall ms c,
             instance_counts (forensic_of ms c)
             = {| deny_instances :=
                    List.length (List.filter (role_hit Deny_table) ms);
                  attack_instances :=
                    List.length (List.filter (role_hit Attack_table) ms);
                  reverse_instances :=
                    List.length (List.filter (role_hit Reverse_table) ms);
                  child_focused_instances :=
                    List.length
                      (List.filter (role_hit CHILD_FOCUSED_DARVO) ms) |}).
  { intros ms c. destruct (forensic_counts ms) as (Hd & Ha & Hr & Hc).
    unfold forensic_of, Clock.run, _generate_forensic_summary, Clock.bind,
      Clock.ret, Clock.now; simpl.
    now rewrite Hd, Ha, Hr, Hc. }
  assert (Hfull : forall ms c,
             full_darvo_pattern_detected (forensic_of ms c)
             = List.existsb (role_hit Deny_table) ms
               && List.existsb (role_hit Attack_table) ms
               && List.existsb (role_hit Reverse_table) ms).
  { intros ms c. destruct (forensic_counts ms) as (Hd & Ha & Hr & _).
    unfold forensic_of, Clock.run, _generate_forensic_summary, Clock.bind,
      Clock.ret, Clock.now; simpl.
    now rewrite Hd, Ha, Hr, !filter_positive. }
  assert (Hsets :
            full_darvo_pattern_detected f
            = Nat.ltb 0 (size (messages_with_deny s))
              && Nat.ltb 0 (size (messages_with_attack s))
              && Nat.ltb 0 (size (messages_with_reverse s)))
    by reflexivity.
  assert (Hne : forall X : gset nat, Nat.ltb 0 (size X) = true <-> X <> ∅).
  { intros X. rewrite Nat.ltb_lt. unfold_leibniz.
    rewrite <- size_non_empty_iff. lia. }
  assert (Helem : forall P i,
             i ∈ index_set P 0 messages ∅
             <-> exists m, List.nth_error messages i = Some m /\ P m = true).
  { intros P i. rewrite index_set_elem, Nat.sub_0_r. split.
    - intros [H|[_ H]]; [now apply not_elem_of_empty in H|assumption].
    - intros H. right. split; [lia|assumption]. }
  split.
  { rewrite Hsets, !andb_true_iff, !Hne. tauto. }
  split.
  { intros i. unfold s, forensic_sets.
    destruct (forensic_loop_sets messages 0
                {| messages_with_deny := ∅; messages_with_attack := ∅;
                   messages_with_reverse := ∅; messages_with_child := ∅ |})
      as (-> & -> & -> & _). simpl.
    repeat split; apply Helem. }
  split; [apply Hfull|]. split; [apply Hcounts|].
  split.
  { unfold f, f'. rewrite !Hfull.
    assert (forall P, List.existsb P messages' = List.existsb P messages)
      as E.
    { intros P. rewrite <- !filter_positive.
      now rewrite (filter_length_perm P _ _ Hperm). }
    now rewrite !E. }
  split.
  { unfold f, f'. rewrite !Hcounts.
    now rewrite !(filter_length_perm _ _ _ Hperm). }
  split; [rewrite Hfull; vm_compute; reflexivity|].
  split; [vm_compute; reflexivity|].
  intros m ms text. split; reflexivity.
Qed.

Lemma C4_full_pattern_is_unordered_presence_witness :
  Permutation deny_reverse_attack reverse_attack_deny
  /\ full_darvo_pattern_detected (forensic_of reverse_attack_deny clock_b)
     = full_darvo_pattern_detected (forensic_of deny_reverse_attack clock_a).
Proof.
  assert (H : Permutation deny_reverse_attack reverse_attack_deny).
  { unfold deny_reverse_attack, reverse_attack_deny.
    eapply perm_trans; [apply perm_swap|]. apply perm_skip, perm_swap. }
  split; [exact H|].
  exact (proj1 (proj2 (proj2 (proj2 (proj2
           (C4_full_pattern_is_unordered_presence
              deny_reverse_attack reverse_attack_deny clock_a clock_b H)))))).
Defined.

(* ================================================================== *)
(** * C6: escalation between the first and the last window *)
(* ================================================================== *)

Lemma insert_key_perm (k : Z) (ks : list Z) :
  Permutation (insert_key k ks) (k :: ks).
Proof.
  induction ks as [|k' ks IH]; simpl; [reflexivity|].
  destruct (Z.leb k k'); [reflexivity|].
  rewrite IH. apply perm_swap.
Qed.

Lemma sorted_keys_perm (ks : list Z) : Permutation (sorted_keys ks) ks.
Proof.
  induction ks as [|k ks IH]; simpl; [reflexivity|].
  rewrite insert_key_perm. now apply perm_skip.
Qed.

Lemma insert_key_sorted (k : Z) (ks : list Z) :
  StronglySorted Z.le ks -> StronglySorted Z.le (insert_key k ks).
Proof.
  induction 1 as [|k' ks Hs IH Hall]; simpl.
  - repeat constructor.
  - destruct (Z.leb_spec k k').
    + constructor; [constructor; assumption|].
      constructor; [assumption|].
      eapply List.Forall_impl; [|exact Hall]. simpl. intros; lia.
    + constructor; [assumption|].
      rewrite (insert_key_perm k ks). constructor; [lia|assumption].
Qed.

Lemma sorted_keys_sorted (ks : list Z) : StronglySorted Z.le (sorted_keys ks).
Proof.
  induction ks as [|k ks IH]; simpl; [constructor|].
  now apply insert_key_sorted.
Qed.

Lemma sorted_bounds (l : list Z) (d : Z) :
  StronglySorted Z.le l ->
  List.Forall (fun k => (List.hd d l <= k <= List.last l d)%Z) l.
Proof.
  induction 1 as [|k l Hs IH Hall]; [constructor|].
  destruct l as [|k' l].
  - repeat constructor; simpl; lia.
  - change (List.last (k :: k' :: l) d) with (List.last (k' :: l) d).
    assert (Hk : (k <= List.last (k' :: l) d)%Z).
    { inversion Hall as [|? ? Hkk' _]; subst.
      inversion IH as [|? ? [_ Hl] _]; subst. lia. }
    constructor; [cbn [List.hd]; lia|].
    rewrite List.Forall_forall in *. intros x Hx.
    specialize (IH x Hx). specialize (Hall x Hx). cbn [List.hd] in *. lia.
Qed.

Lemma window_get_in (tw : list (Z * WindowCounts)) (k : Z) :
  List.In k (List.map fst tw) -> List.In (k, window_get tw k) tw.
Proof.
  induction tw as [|[k' w] tw IH]; simpl; [tauto|].
  destruct (Z.eqb_spec k k') as [->|Hne].
  - intros _. now left.
  - intros [H|H]; [congruence|]. right. auto.
Qed.

Lemma window_get_missing (tw : list (Z * WindowCounts)) (k : Z) :
  ~ List.In k (List.map fst tw) -> window_get tw k = empty_window.
Proof.
  induction tw as [|[k' w] tw IH]; simpl; [reflexivity|].
  intros H. destruct (Z.eqb_spec k k') as [->|Hne]; [tauto|].
  apply IH. tauto.
Qed.

Lemma window_get_unique (tw : list (Z * WindowCounts)) (k : Z)
      (w : WindowCounts) :
  List.NoDup (List.map fst tw) -> List.In (k, w) tw -> window_get tw k = w.
Proof.
  induction tw as [|[k' w'] tw IH]; simpl; [tauto|].
  intros Hnd [H|H].
  - injection H as -> ->. now rewrite Z.eqb_refl.
  - inversion Hnd as [|? ? Hnotin Hnd']; subst.
    destruct (Z.eqb_spec k k') as [E|_]; [|auto].
    exfalso. apply Hnotin. rewrite <- E.
    apply List.in_map_iff. now exists (k, w).
Qed.

Lemma bump_window_keys f key tw :
  List.map fst (bump_window f key tw)
  = if List.existsb (Z.eqb key) (List.map fst tw) then List.map fst tw
    else List.map fst tw ++ [key].
Proof.
  induction tw as [|[k w] tw IH]; simpl; [reflexivity|].
  destruct (Z.eqb key k); simpl; [reflexivity|].
  rewrite IH. destruct (List.existsb _ _); reflexivity.
Qed.

Lemma bump_window_NoDup f key tw :
  List.NoDup (List.map fst tw) ->
  List.NoDup (List.map fst (bump_window f key tw)).
Proof.
  intros H. rewrite bump_window_keys.
  destruct (List.existsb _ _) eqn:E; [assumption|].
  apply List.NoDup_app; [assumption|repeat constructor; simpl; tauto|].
  intros x Hx [->|[]].
  assert (List.existsb (Z.eqb x) (List.map fst tw) = true); [|congruence].
  apply List.existsb_exists. exists x. split; [assumption|apply Z.eqb_refl].
Qed.

Lemma timeline_message_NoDup tw msg :
  List.NoDup (List.map fst tw) ->
  List.NoDup (List.map fst (timeline_message tw msg)).
Proof.
  intros H. unfold timeline_message.
  destruct (msg_timestamp msg) as [t|]; [|assumption].
  repeat match goal with
         | |- context [if ?b then _ else _] => destruct b
         end;
    repeat apply bump_window_NoDup; assumption.
Qed.

Lemma timeline_windows_NoDup messages :
  forall tw,
    List.NoDup (List.map fst tw) ->
    List.NoDup (List.map fst (List.fold_left timeline_message messages tw)).
Proof.
  induction messages as [|m ms IH]; intros tw H; simpl; [assumption|].
  apply IH. now apply timeline_message_NoDup.
Qed.

Lemma escalation_rule_holds (tw : list (Z * WindowCounts)) :
  escalation_rule tw
    (detect_escalation_windows tw (sorted_keys (List.map fst tw))).
Proof.
  destruct tw as [|p tw']; [reflexivity|].
  cbv beta iota delta [escalation_rule].
  assert (Hpos : 0 < List.length (p :: tw')) by (simpl; lia).
  set (tw := p :: tw') in *.
  set (keys := List.map fst tw). set (sorted := sorted_keys keys).
  assert (Hperm : Permutation sorted keys) by apply sorted_keys_perm.
  assert (Hlen : List.length sorted = List.length tw).
  { rewrite (Permutation_length Hperm). apply List.length_map. }
  pose proof (sorted_bounds sorted 0%Z (sorted_keys_sorted keys)) as Hb.
  assert (Hne : sorted <> []).
  { intros E. rewrite E in Hlen. simpl in Hlen. lia. }
  assert (Hhd : List.In (List.hd 0%Z sorted) keys).
  { apply (Permutation_in _ Hperm). destruct sorted; [congruence|now left]. }
  assert (Hlast : List.In (List.last sorted 0%Z) keys).
  { apply (Permutation_in _ Hperm).
    destruct (List.exists_last Hne) as (l & x & E). rewrite E.
    rewrite List.last_last. apply List.in_or_app. right. now left. }
  exists (List.hd 0%Z sorted), (window_get tw (List.hd 0%Z sorted)),
    (List.last sorted 0%Z), (window_get tw (List.last sorted 0%Z)).
  split; [now apply window_get_in|]. split; [now apply window_get_in|].
  split.
  - rewrite List.Forall_forall in *. intros [k w] Hkw. simpl.
    apply Hb. apply (Permutation_in _ (Permutation_sym Hperm)).
    apply List.in_map_iff. exists (k, w). auto.
  - unfold detect_escalation_windows, exceeds_one_and_a_half.
    fold keys. fold sorted. rewrite Hlen.
    destruct (Nat.leb 2 (List.length tw)); reflexivity.
Qed.

(** What [_analyze_timeline] returns: nothing without a timestamped
    message, else one window per week key, the flag by the rule, and the
    number of windows. *)
Lemma timeline_shape (messages : list Message) :
  match _analyze_timeline messages with
  | TimelineUnavailable => List.existsb has_timestamp messages = false
  | TimelineAvailable tw esc n =>
      List.existsb has_timestamp messages = true
      /\ List.NoDup (List.map fst tw)
      /\ n = List.length tw
      /\ escalation_rule tw esc
      /\ (Nat.ltb n 2 = true -> esc = false)
  end.
Proof.
  unfold _analyze_timeline.
  destruct (List.existsb has_timestamp messages); simpl; [|reflexivity].
  set (tw := List.fold_left timeline_message messages []).
  assert (Hlen : List.length (sorted_keys (List.map fst tw))
                 = List.length tw).
  { rewrite (Permutation_length (sorted_keys_perm _)).
    apply List.length_map. }
  split; [reflexivity|].
  split; [apply timeline_windows_NoDup; constructor|].
  split; [exact Hlen|]. split; [apply escalation_rule_holds|].
  unfold detect_escalation_windows. intros H. apply Nat.ltb_lt in H.
  destruct (Nat.leb_spec 2 (List.length (sorted_keys (List.map fst tw))));
    [lia|reflexivity].
Qed.

(** C6 (counterexample).  One message without a timestamp: there are fewer
    than two windows, yet [escalation_detected] is not false.  The timeline
    analysis is [{"timeline_available": False}] and has no such entry. *)
Lemma C6_no_timestamp_no_flag :
  Nat.ltb (List.length (window_totals (_analyze_timeline undated_denial))) 2
  = true
  /\ _analyze_timeline undated_denial = TimelineUnavailable
  /\ escalation_flag (_analyze_timeline undated_denial) <> Some false.
Proof. vm_compute. repeat split; try reflexivity. discriminate. Qed.

(** C6 (amended).  When some message has a timestamp, and the weeks lie in
    the years 1000 to 9999, the timeline has one window per week key, and
    [escalation_detected] is true exactly when there are at least two
    windows and the role-hit total (deny + attack + reverse) of the window
    with the latest key is strictly more than 1.5 times that of the window
    with the earliest key, that is [2 * last > 3 * first]; totals 2 then 4
    give true, totals 2 then 3 give false, and with fewer than two windows
    the flag is false.  When no message has a timestamp the timeline is
    unavailable and has no flag. *)
Theorem C6_escalation_last_vs_first_window :
  (forall messages : list Message,
      four_digit_weeks messages ->
      List.existsb has_timestamp messages = true ->
      exists (tw : list (Z * WindowCounts)) (esc : bool),
        _analyze_timeline messages
        = TimelineAvailable tw esc (List.length tw)
        /\ List.NoDup (List.map fst tw)
        /\ escalation_rule tw esc
        /\ (Nat.ltb (List.length tw) 2 = true -> esc = false))
  /\ (forall messages : list Message,
        four_digit_weeks messages ->
        List.existsb has_timestamp messages = true ->
        Nat.ltb (List.length (window_totals (_analyze_timeline messages))) 2
        = true ->
        escalation_flag (_analyze_timeline messages) = Some false)
  /\ (forall messages : list Message,
        List.existsb has_timestamp messages = false ->
        _analyze_timeline messages = TimelineUnavailable)
  /\ four_digit_weeks weeks_two_then_four
  /\ window_totals (_analyze_timeline weeks_two_then_four) = [2; 4]
  /\ escalation_flag (_analyze_timeline weeks_two_then_four) = Some true
  /\ four_digit_weeks weeks_two_then_three
  /\ window_totals (_analyze_timeline weeks_two_then_three) = [2; 3]
  /\ escalation_flag (_analyze_timeline weeks_two_then_three) = Some false.
Proof.
  split; [|split; [|split]].
  - intros messages _ Hdated. pose proof (timeline_shape messages) as H.
    destruct (_analyze_timeline messages) as [|tw esc n]; [congruence|].
    destruct H as (_ & Hnd & -> & Hrule & Hfew).
    exists tw, esc. auto.
  - intros messages _ Hdated Hfew.
    pose proof (timeline_shape messages) as H.
    destruct (_analyze_timeline messages) as [|tw esc n]; [congruence|].
    destruct H as (_ & _ & -> & _ & Hesc). simpl in *.
    rewrite List.length_map in Hfew. now rewrite (Hesc Hfew).
  - intros messages Hnone. unfold _analyze_timeline. now rewrite Hnone.
  - assert (Hweeks : forall messages,
               List.forallb
                 (fun m => match msg_timestamp m with
                           | Some ts =>
                               Z.leb (Datetime.make 1000 1 1 0 0)
                                     (week_start ts)
                               && Z.leb ts Datetime.max
                           | None => true
                           end) messages = true ->
               four_digit_weeks messages).
    { intros messages Hall m ts Hin Hts.
      rewrite List.forallb_forall in Hall. specialize (Hall m Hin).
      rewrite Hts in Hall. apply andb_true_iff in Hall as [H1 H2].
      split; [now apply Z.leb_le|now apply Z.leb_le]. }
    split; [apply Hweeks; vm_compute; reflexivity|].
    split; [vm_compute; reflexivity|]. split; [vm_compute; reflexivity|].
    split; [apply Hweeks; vm_compute; reflexivity|].
    split; vm_compute; reflexivity.
Qed.

Lemma C6_escalation_last_vs_first_window_witness :
  let messages := [timed_message "I never said that"
                                 (Datetime.make 2024 1 1 10 0)] in
  four_digit_weeks messages
  /\ List.existsb has_timestamp messages = true
  /\ Nat.ltb (List.length (window_totals (_analyze_timeline messages))) 2
     = true
  /\ escalation_flag (_analyze_timeline messages) = Some false.
Proof.
  intros messages.
  assert (H0 : four_digit_weeks messages).
  { intros m ts [<-|[]] [= <-]. vm_compute. split; discriminate. }
  assert (H1 : List.existsb has_timestamp messages = true) by reflexivity.
  assert (H2 : Nat.ltb (List.length
                          (window_totals (_analyze_timeline messages))) 2
               = true) by (vm_compute; reflexivity).
  split; [exact H0|]. split; [exact H1|]. split; [exact H2|].
  exact (proj1 (proj2 C6_escalation_last_vs_first_window) messages H0 H1 H2).
Defined.


(* ================================================================== *)
(** * C7: time buckets and missing timestamps *)
(* ================================================================== *)

Lemma window_size_value :
  ConversationAnalyzer.window_size = 604800000000%Z.
Proof. reflexivity. Qed.

(** The [while] loop stops, having advanced by the least whole number of
    window widths that brings the timestamp inside. *)
Lemma move_window_loop_spec (fuel : nat) :
  forall (start ts : datetime),
    0 < fuel ->
    (ts - start < Z.of_nat fuel * ConversationAnalyzer.window_size)%Z ->
    exists k : nat,
      ConversationAnalyzer.move_window_loop fuel start ts
      = Some (start + Z.of_nat k * ConversationAnalyzer.window_size)%Z
      /\ (ts <= start + Z.of_nat k * ConversationAnalyzer.window_size
                + ConversationAnalyzer.window_size)%Z
      /\ (k = 0
          \/ (start + Z.of_nat k * ConversationAnalyzer.window_size < ts)%Z).
Proof.
  rewrite window_size_value.
  induction fuel as [|fuel IH]; intros start ts Hpos Hfuel; [lia|].
  simpl. rewrite window_size_value.
  destruct (Z.ltb_spec (start + 604800000000) ts) as [Hgo|Hstop].
  - destruct fuel as [|fuel]; [lia|].
    destruct (IH (start + 604800000000)%Z ts) as (k & E & Hin & Hmin);
      [lia|lia|].
    exists (S k). rewrite E. split; [f_equal; lia|]. split; [lia|].
    right. destruct Hmin as [->|Hmin]; lia.
  - exists 0. split; [f_equal; lia|]. split; [lia|]. now left.
Qed.

Lemma move_window_loop_total (start ts : datetime) :
  ConversationAnalyzer.move_window_loop
    (S (Z.to_nat ((ts - start) / ConversationAnalyzer.window_size)))
    start ts <> None.
Proof.
  destruct (move_window_loop_spec
              (S (Z.to_nat ((ts - start) / ConversationAnalyzer.window_size)))
              start ts) as (k & E & _); [lia| |congruence].
  rewrite window_size_value.
  destruct (Z.lt_ge_cases (ts - start) 0) as [Hneg|Hpos].
  - lia.
  - pose proof (Z.mod_pos_bound (ts - start) 604800000000 ltac:(lia)).
    pose proof (Z.div_mod (ts - start) 604800000000 ltac:(lia)).
    pose proof (Z.div_pos (ts - start) 604800000000 Hpos ltac:(lia)).
    lia.
Qed.

Lemma move_window_spec (start ts : datetime) :
  exists k : nat,
    ConversationAnalyzer.move_window start ts
    = (start + Z.of_nat k * ConversationAnalyzer.window_size)%Z
    /\ (ts <= ConversationAnalyzer.move_window start ts
              + ConversationAnalyzer.window_size)%Z
    /\ (k = 0 \/ (ConversationAnalyzer.move_window start ts < ts)%Z).
Proof.
  unfold ConversationAnalyzer.move_window.
  destruct (move_window_loop_spec
              (S (Z.to_nat ((ts - start) / ConversationAnalyzer.window_size)))
              start ts) as (k & E & Hin & Hmin).
  - lia.
  - rewrite window_size_value.
    destruct (Z.lt_ge_cases (ts - start) 0) as [Hneg|Hpos]; [lia|].
    pose proof (Z.mod_pos_bound (ts - start) 604800000000 ltac:(lia)).
    pose proof (Z.div_mod (ts - start) 604800000000 ltac:(lia)).
    pose proof (Z.div_pos (ts - start) 604800000000 Hpos ltac:(lia)).
    lia.
  - exists k. rewrite E. auto.
Qed.

Lemma loop_follows_trace (messages : list Message) :
  forall st : ConversationAnalyzer.LoopState,
    List.fold_left ConversationAnalyzer.escalation_message messages st
    = List.fold_left trace_step
        (List.combine messages
           (ConversationAnalyzer.bucket_trace
              (ConversationAnalyzer.current_window_start st) messages))
        st.
Proof.
  induction messages as [|m ms IH]; intros st; simpl; [reflexivity|].
  unfold ConversationAnalyzer.escalation_message at 2.
  destruct (msg_timestamp m) as [ts|]; simpl.
  - rewrite IH. reflexivity.
  - rewrite IH. reflexivity.
Qed.

Lemma anchored_trace (t0 : datetime) (messages : list Message) :
  forall (start : datetime) (k0 : nat),
    start = (t0 + Z.of_nat k0 * ConversationAnalyzer.window_size)%Z ->
    StronglySorted Z.le (timestamps messages) ->
    List.Forall (fun t => (start <= t)%Z) (timestamps messages) ->
    List.Forall2 (anchored_bucket t0) messages
                 (ConversationAnalyzer.bucket_trace start messages).
Proof.
  induction messages as [|m ms IH]; intros start k0 Hstart Hsorted Hlow;
    simpl; [constructor|].
  unfold timestamps in Hsorted, Hlow. simpl in Hsorted, Hlow.
  destruct (msg_timestamp m) as [ts|] eqn:Ets; simpl in Hsorted, Hlow.
  - apply StronglySorted_inv in Hsorted as [Hs' Hall].
    pose proof (List.Forall_inv Hlow) as Hts.
    pose proof (List.Forall_inv_tail Hlow) as Hlow'. simpl in Hts.
    destruct (move_window_spec start ts) as (k & E & Hin & Hmin).
    constructor.
    + unfold anchored_bucket. rewrite Ets. split.
      * exists (k0 + k). rewrite E, Nat2Z.inj_add. lia.
      * split; [|exact Hin]. destruct Hmin as [->|Hlt]; [|lia].
        rewrite E. simpl. lia.
    + apply (IH _ (k0 + k)); [rewrite E, Nat2Z.inj_add; lia|assumption|].
      rewrite List.Forall_forall in *. intros t Ht.
      specialize (Hall t Ht). specialize (Hlow' t Ht).
      destruct Hmin as [->|Hlt]; [rewrite E; simpl|]; lia.
  - constructor.
    + unfold anchored_bucket. now rewrite Ets.
    + now apply (IH _ k0).
Qed.

Lemma escalation_skips_missing (messages : list Message) :
  forall st : ConversationAnalyzer.LoopState,
    List.fold_left ConversationAnalyzer.escalation_message messages st
    = List.fold_left ConversationAnalyzer.escalation_message
        (List.filter has_timestamp messages) st.
Proof.
  induction messages as [|m ms IH]; intros st; simpl; [reflexivity|].
  unfold has_timestamp at 1.
  unfold ConversationAnalyzer.escalation_message at 2.
  destruct (msg_timestamp m) as [ts|] eqn:E; simpl.
  - unfold ConversationAnalyzer.escalation_message at 3. rewrite E.
    apply IH.
  - apply IH.
Qed.

(** [__init__] of [ConversationAnalyzer] keeps all messages and sorts them
    by their key, which leaves the timestamps in chronological order. *)
Lemma insert_message_perm m ms :
  Permutation (ConversationAnalyzer.insert_message m ms) (m :: ms).
Proof.
  induction ms as [|m' ms IH]; simpl; [reflexivity|].
  destruct (Z.leb _ _); [reflexivity|].
  rewrite IH. apply perm_swap.
Qed.

Lemma init_perm messages :
  Permutation (ConversationAnalyzer.init messages) messages.
Proof.
  induction messages as [|m ms IH]; simpl; [reflexivity|].
  rewrite insert_message_perm. now apply perm_skip.
Qed.

Lemma insert_message_sorted m ms :
  StronglySorted Z.le (List.map ConversationAnalyzer.sort_key ms) ->
  StronglySorted Z.le
    (List.map ConversationAnalyzer.sort_key
              (ConversationAnalyzer.insert_message m ms)).
Proof.
  induction ms as [|m' ms IH]; simpl; intros H.
  - repeat constructor.
  - apply StronglySorted_inv in H as [Hs Hall].
    destruct (Z.leb_spec (ConversationAnalyzer.sort_key m)
                         (ConversationAnalyzer.sort_key m')).
    + simpl. constructor; [constructor; assumption|].
      constructor; [assumption|].
      eapply List.Forall_impl; [|exact Hall]. simpl. intros; lia.
    + simpl. constructor; [auto|].
      rewrite (Permutation_map _ (insert_message_perm m ms)). simpl.
      constructor; [lia|assumption].
Qed.

Lemma sort_keys_timestamps (ms : list Message) :
  StronglySorted Z.le (List.map ConversationAnalyzer.sort_key ms) ->
  StronglySorted Z.le (timestamps ms).
Proof.
  induction ms as [|m ms IH]; simpl; intros H; [constructor|].
  apply StronglySorted_inv in H as [Hs Hall].
  unfold timestamps in *. simpl.
  unfold ConversationAnalyzer.sort_key at 1 in Hall.
  destruct (msg_timestamp m) as [t|]; simpl; [|auto].
  constructor; [auto|].
  rewrite List.Forall_forall in *. intros x Hx.
  apply List.in_flat_map in Hx as (m' & Hm' & Hx).
  specialize (Hall (ConversationAnalyzer.sort_key m')
                   (List.in_map _ _ _ Hm')).
  unfold ConversationAnalyzer.sort_key in Hall.
  destruct (msg_timestamp m'); [|destruct Hx].
  destruct Hx as [<-|[]]. exact Hall.
Qed.

Lemma init_chronological messages :
  chronological (ConversationAnalyzer.init messages).
Proof.
  apply sort_keys_timestamps.
  induction messages as [|m ms IH]; simpl; [constructor|].
  now apply insert_message_sorted.
Qed.

Lemma window_get_bump f key tw k :
  window_get (bump_window f key tw) k
  = if Z.eqb k key then f (window_get tw key) else window_get tw k.
Proof.
  induction tw as [|[k' w] tw IH]; simpl.
  - destruct (Z.eqb_spec k key); reflexivity.
  - destruct (Z.eqb_spec key k') as [->|Hne]; simpl.
    + destruct (Z.eqb_spec k k'); reflexivity.
    + rewrite IH. destruct (Z.eqb_spec k k') as [->|];
        destruct (Z.eqb_spec k' key); try congruence; reflexivity.
Qed.

Lemma timeline_message_counts tw m key :
  let w := window_get tw key in
  let w' := window_get (timeline_message tw m) key in
  deny_count w'
  = deny_count w + (if in_week Deny_table key m then 1 else 0)
  /\ attack_count w'
     = attack_count w + (if in_week Attack_table key m then 1 else 0)
  /\ reverse_count w'
     = reverse_count w + (if in_week Reverse_table key m then 1 else 0).
Proof.
  unfold timeline_message, in_week, role_hit.
  destruct (msg_timestamp m) as [ts|]; simpl; [|lia].
  rewrite (Z.eqb_sym (week_key ts) key).
  destruct (any_keyword Deny_table _), (any_keyword Attack_table _),
    (any_keyword Reverse_table _);
    rewrite ?window_get_bump;
    destruct (Z.eqb_spec key (week_key ts)) as [->|]; simpl;
    rewrite ?window_get_bump, ?Z.eqb_refl; simpl; lia.
Qed.

Lemma timeline_counts (messages : list Message) (key : Z) :
  forall tw,
    let w := window_get tw key in
    let w' := window_get (List.fold_left timeline_message messages tw) key in
    deny_count w'
    = deny_count w + List.length (week_hits Deny_table key messages)
    /\ attack_count w'
       = attack_count w + List.length (week_hits Attack_table key messages)
    /\ reverse_count w'
       = reverse_count w
         + List.length (week_hits Reverse_table key messages).
Proof.
  induction messages as [|m ms IH]; intros tw; simpl; [lia|].
  destruct (IH (timeline_message tw m)) as (Hd & Ha & Hr).
  destruct (timeline_message_counts tw m key) as (Hd' & Ha' & Hr').
  unfold week_hits; simpl. fold (in_week Deny_table key m).
  fold (in_week Attack_table key m). fold (in_week Reverse_table key m).
  rewrite Hd, Ha, Hr, Hd', Ha', Hr'.
  destruct (in_week Deny_table key m), (in_week Attack_table key m),
    (in_week Reverse_table key m); simpl; unfold week_hits; lia.
Qed.

Lemma week_key_is_monday (ts : datetime) :
  (week_key ts mod 7 = 0
   /\ week_key ts <= Datetime.day_number ts < week_key ts + 7)%Z.
Proof.
  unfold week_key, week_start, Datetime.weekday, Datetime.timedelta_days,
    Datetime.day_number, Datetime.usec_per_day.
  set (d := (ts / 86400000000)%Z).
  replace ((ts - d mod 7 * 86400000000) / 86400000000)%Z
    with (d - d mod 7)%Z.
  - pose proof (Z.mod_pos_bound d 7 ltac:(lia)).
    pose proof (Z.div_mod d 7 ltac:(lia)).
    split; [|lia].
    replace (d - d mod 7)%Z with (d / 7 * 7)%Z by lia.
    apply Z.mod_mul. lia.
  - unfold d.
    replace (ts - (ts / 86400000000) mod 7 * 86400000000)%Z
      with (ts + (- ((ts / 86400000000) mod 7)) * 86400000000)%Z by lia.
    rewrite Z.div_add by lia. lia.
Qed.

Lemma timeline_skips_missing (messages : list Message) :
  _analyze_timeline messages
  = _analyze_timeline (List.filter has_timestamp messages).
Proof.
  assert (Hfold : forall ms tw,
             List.fold_left timeline_message ms tw
             = List.fold_left timeline_message
                 (List.filter has_timestamp ms) tw).
  { induction ms as [|m ms IH]; intros tw; simpl; [reflexivity|].
    unfold has_timestamp at 1. unfold timeline_message at 2.
    destruct (msg_timestamp m) as [ts|] eqn:E; simpl; [|apply IH].
    unfold timeline_message at 3. rewrite E. apply IH. }
  assert (Hany : List.existsb has_timestamp
                   (List.filter has_timestamp messages)
                 = List.existsb has_timestamp messages).
  { induction messages as [|m ms IH]; simpl; [reflexivity|].
    destruct (has_timestamp m) eqn:E; simpl; rewrite ?E; simpl;
      [reflexivity|assumption]. }
  unfold _analyze_timeline. rewrite Hany, <- Hfold. reflexivity.
Qed.

Lemma content_ignores_timestamps (messages : list Message) :
  _calculate_severity (List.map without_timestamp messages)
  = _calculate_severity messages
  /\ forensic_sets (List.map without_timestamp messages)
     = forensic_sets messages
  /\ List.map classifications
       (List.map classify (List.map without_timestamp messages))
     = List.map classifications (List.map classify messages).
Proof.
  split; [|split].
  - unfold _calculate_severity.
    assert (E : forall ms st,
               List.fold_left score_message
                              (List.map without_timestamp ms) st
               = List.fold_left score_message ms st).
    { induction ms as [|m ms IH]; intros st; simpl; [reflexivity|].
      rewrite IH. reflexivity. }
    rewrite E. reflexivity.
  - unfold forensic_sets.
    assert (E : forall ms i s,
               forensic_loop i (List.map without_timestamp ms) s
               = forensic_loop i ms s).
    { induction ms as [|m ms IH]; intros i s; simpl; [reflexivity|].
      rewrite IH. reflexivity. }
    apply E.
  - induction messages as [|m ms IH]; simpl; [reflexivity|].
    rewrite IH. reflexivity.
Qed.

(** C7 (counterexample).  A message on Wednesday 2024-01-03 10:00 and one on
    Monday 2024-01-08 10:00: a 7-day bucket anchored at the first message's
    timestamp holds both, but the DARVO timeline puts them in two windows,
    keyed by the Mondays 2024-01-01 and 2024-01-08, the first of which
    starts before the first message. *)
Lemma C7_darvo_timeline_uses_calendar_weeks :
  let t0 := Datetime.make 2024 1 3 10 0 in
  ConversationAnalyzer.bucket_trace t0 wednesday_then_monday
  = [Some t0; Some t0]
  /\ _analyze_timeline wednesday_then_monday
     = TimelineAvailable
         [ (Datetime.days_from_civil 2024 1 1,
            {| deny_count := 1; attack_count := 0; reverse_count := 0;
               wc_total_score := 0 |});
           (Datetime.days_from_civil 2024 1 8,
            {| deny_count := 0; attack_count := 1; reverse_count := 0;
               wc_total_score := 0 |}) ]
         false 2
  /\ (Datetime.days_from_civil 2024 1 1 < Datetime.day_number t0)%Z.
Proof. vm_compute. repeat split; reflexivity. Qed.

Lemma buckets_in_range (t0 : datetime) (messages : list Message)
      (buckets : list (option datetime)) :
  List.Forall2 (anchored_bucket t0) messages buckets ->
  all_dated messages ->
  dated_in_range messages ->
  List.Forall bucket_in_range buckets.
Proof.
  induction 1 as [|m b ms bs Hb _ IH]; intros Hdated Hrange;
    [constructor|].
  unfold all_dated in Hdated. simpl in Hdated.
  apply andb_true_iff in Hdated as [Hm Hms].
  constructor.
  - unfold anchored_bucket, has_timestamp in *.
    destruct (msg_timestamp m) as [ts|] eqn:Hts; [|discriminate].
    destruct b as [start|]; [|contradiction].
    destruct Hb as [_ [Hlow _]].
    destruct (Hrange m ts (or_introl eq_refl) Hts) as [_ Hmax].
    exists start. split; [reflexivity|lia].
  - apply IH; [exact Hms|].
    intros m' ts Hin. apply Hrange. now right.
Qed.

Lemma stored_dated_chronological (messages : list Message) :
  stored_order messages -> chronological messages.
Proof. apply sort_keys_timestamps. Qed.

(** C7 (amended).  [ConversationAnalyzer.analyze_escalation_patterns], on a
    list in which every message has a timestamp, in the order [__init__]
    stores it and with every timestamp at least seven days before
    [datetime.max], counts each message in a 7-day bucket anchored at the
    first message's timestamp: the anchor advances by whole window widths,
    and only as far as needed, until the timestamp is no later than the
    anchor plus 7 days, and no date sum leaves the range of [datetime].
    The DARVO timeline instead counts each timestamped message in the
    calendar week of its timestamp, keyed by that week's Monday; it skips
    every message without a timestamp, giving the result it gives on the
    timestamped messages alone.  The content-based results (severity,
    forensic index sets, role classification) do not read timestamps, so
    such messages contribute to them like any other. *)
Theorem C7_time_buckets_and_missing_timestamps :
  (forall (first : Message) (rest : list Message) (t0 : datetime),
      msg_timestamp first = Some t0 ->
      all_dated (first :: rest) ->
      stored_order (first :: rest) ->
      dated_in_range (first :: rest) ->
      let messages := first :: rest in
      let st0 :=
        {| ConversationAnalyzer.current_window_start := t0;
           ConversationAnalyzer.window_counts := [] |} in
      List.Forall2 (anchored_bucket t0) messages
                   (ConversationAnalyzer.bucket_trace t0 messages)
      /\ List.Forall bucket_in_range
                     (ConversationAnalyzer.bucket_trace t0 messages)
      /\ List.fold_left ConversationAnalyzer.escalation_message messages st0
         = List.fold_left trace_step
             (List.combine messages
                (ConversationAnalyzer.bucket_trace t0 messages)) st0)
  /\ (forall messages : list Message,
        stored_order (ConversationAnalyzer.init messages)
        /\ Permutation (ConversationAnalyzer.init messages) messages)
  /\ (forall start ts : datetime,
        window_in_range start ->
        window_in_range ts ->
        exists k : nat,
          ConversationAnalyzer.move_window start ts
          = (start + Z.of_nat k * ConversationAnalyzer.window_size)%Z
          /\ (ts <= ConversationAnalyzer.move_window start ts
                    + ConversationAnalyzer.window_size)%Z
          /\ (k = 0 \/ (ConversationAnalyzer.move_window start ts < ts)%Z)
          /\ (ConversationAnalyzer.move_window start ts
              + ConversationAnalyzer.window_size <= Datetime.max)%Z)
  /\ (forall messages : list Message,
        _analyze_timeline messages
        = _analyze_timeline (List.filter has_timestamp messages))
  /\ (forall (messages : list Message) (key : Z),
        match _analyze_timeline messages with
        | TimelineUnavailable => List.existsb has_timestamp messages = false
        | TimelineAvailable tw _ _ =>
            (forall w : WindowCounts,
                List.In (key, w) tw ->
                deny_count w
                = List.length (week_hits Deny_table key messages)
                /\ attack_count w
                   = List.length (week_hits Attack_table key messages)
                /\ reverse_count w
                   = List.length (week_hits Reverse_table key messages))
            /\ (~ List.In key (List.map fst tw) ->
                week_hits Deny_table key messages = []
                /\ week_hits Attack_table key messages = []
                /\ week_hits Reverse_table key messages = [])
        end)
  /\ (forall ts : datetime,
        (week_key ts mod 7 = 0
         /\ week_key ts <= Datetime.day_number ts < week_key ts + 7)%Z)
  /\ (forall messages : list Message,
        _calculate_severity (List.map without_timestamp messages)
        = _calculate_severity messages
        /\ forensic_sets (List.map without_timestamp messages)
           = forensic_sets messages
        /\ List.map classifications
             (List.map classify (List.map without_timestamp messages))
           = List.map classifications (List.map classify messages)).
Proof.
  split.
  { intros first rest t0 Ht0 Hdated Hstored Hrange messages st0.
    assert (Htrace : List.Forall2 (anchored_bucket t0) messages
                       (ConversationAnalyzer.bucket_trace t0 messages)).
    { apply stored_dated_chronological in Hstored.
      apply (anchored_trace t0 messages t0 0); [lia|exact Hstored|].
      unfold chronological, messages, timestamps in *. simpl in *.
      rewrite Ht0 in *. simpl in *.
      apply StronglySorted_inv in Hstored as [_ Hall].
      constructor; [lia|exact Hall]. }
    split; [exact Htrace|]. split.
    - exact (buckets_in_range t0 messages _ Htrace Hdated Hrange).
    - apply (loop_follows_trace messages st0). }
  split.
  { intros messages. split; [|apply init_perm].
    unfold stored_order.
    induction messages as [|m ms IH]; simpl; [constructor|].
    now apply insert_message_sorted. }
  split.
  { intros start ts [_ Hstart] [_ Hts].
    destruct (move_window_spec start ts) as (k & E & Hin & Hmin).
    exists k. split; [exact E|]. split; [exact Hin|]. split; [exact Hmin|].
    destruct Hmin as [->|Hlt]; [rewrite E; simpl|]; lia. }
  split; [exact timeline_skips_missing|].
  split.
  { intros messages key. unfold _analyze_timeline.
    destruct (List.existsb has_timestamp messages); simpl; [|reflexivity].
    destruct (timeline_counts messages key []) as (Hd & Ha & Hr).
    simpl in Hd, Ha, Hr. split.
    - intros w Hin.
      rewrite (window_get_unique _ _ _
                 (timeline_windows_NoDup messages [] (List.NoDup_nil _))
                 Hin) in Hd, Ha, Hr.
      auto.
    - intros Hout. rewrite (window_get_missing _ _ Hout) in Hd, Ha, Hr.
      simpl in Hd, Ha, Hr.
      repeat split; apply List.length_zero_iff_nil; congruence. }
  split; [exact week_key_is_monday|].
  exact content_ignores_timestamps.
Qed.

Lemma C7_time_buckets_and_missing_timestamps_witness :
  let t0 := Datetime.make 2024 1 3 10 0 in
  let first := timed_message "I never said that" t0 in
  let rest := [timed_message "You're crazy" (Datetime.make 2024 1 12 9 30)] in
  msg_timestamp first = Some t0
  /\ all_dated (first :: rest)
  /\ stored_order (first :: rest)
  /\ dated_in_range (first :: rest)
  /\ List.Forall2 (anchored_bucket t0) (first :: rest)
                  (ConversationAnalyzer.bucket_trace t0 (first :: rest))
  /\ (exists k : nat,
         ConversationAnalyzer.move_window t0 (Datetime.make 2024 1 12 9 30)
         = (t0 + Z.of_nat k * ConversationAnalyzer.window_size)%Z).
Proof.
  intros t0 first rest.
  assert (H1 : msg_timestamp first = Some t0) by reflexivity.
  assert (H2 : all_dated (first :: rest)) by reflexivity.
  assert (H3 : stored_order (first :: rest)).
  { unfold stored_order; simpl.
    repeat constructor. vm_compute. discriminate. }
  assert (R0 : window_in_range t0) by (vm_compute; split; discriminate).
  assert (R1 : window_in_range (Datetime.make 2024 1 12 9 30))
    by (vm_compute; split; discriminate).
  assert (H4 : dated_in_range (first :: rest)).
  { intros m ts [<-|[<-|[]]] [= <-]; assumption. }
  split; [exact H1|]. split; [exact H2|]. split; [exact H3|].
  split; [exact H4|]. split.
  - exact (proj1 (proj1 C7_time_buckets_and_missing_timestamps
                        first rest t0 H1 H2 H3 H4)).
  - destruct (proj1 (proj2 (proj2 C7_time_buckets_and_missing_timestamps))
                    t0 (Datetime.make 2024 1 12 9 30) R0 R1)
      as (k & E & _).
    exists k. exact E.
Defined.
(* ================================================================== *)
(** * [SequenceMatcher]: the matching blocks fit in both sequences *)
(* ================================================================== *)

Section MatcherBounds.
Variables a b : list ascii.
Variables alo ahi blo bhi : nat.
Hypothesis a_range : alo <= ahi.
Hypothesis b_range : blo <= bhi.

(** An entry [(j, k)] of [j2len] while row [i] is processed: a run of [k]
    equal elements ends at [j] in [b] and at row [i - 1] in [a]. *)
Let entries_ok (i : nat) (j2len : list (nat * nat)) : Prop :=
  List.Forall (fun e : nat * nat =>
                 blo <= fst e /\ fst e < bhi
                 /\ snd e <= fst e + 1 - blo /\ snd e <= i - alo) j2len.

Let best_ok (m : Difflib.Match) : Prop :=
  let '(besti, bestj, bestsize) := m in
  alo <= besti /\ besti + bestsize <= ahi
  /\ blo <= bestj /\ bestj + bestsize <= bhi.

Lemma j2len_get_bound i j2len j :
  entries_ok i j2len ->
  Difflib.j2len_get j2len j <= j + 1 - blo
  /\ Difflib.j2len_get j2len j <= i - alo
  /\ (Difflib.j2len_get j2len j = 0 \/ blo <= j).
Proof.
  unfold entries_ok. induction 1 as [|[j' k] l (H1 & H2 & H3 & H4) _ IH];
    simpl; [lia|].
  destruct (Nat.eqb_spec j j') as [->|]; [simpl in *; lia|exact IH].
Qed.

Lemma row_ok (js : list nat) (i : nat) (j2len : list (nat * nat)) :
  alo <= i -> i < ahi -> entries_ok i j2len ->
  forall newj2len best,
    entries_ok (S i) newj2len -> best_ok best ->
    entries_ok (S i) (fst (Difflib.row js blo bhi i j2len newj2len best))
    /\ best_ok (snd (Difflib.row js blo bhi i j2len newj2len best)).
Proof.
  intros Hlo Hhi Hold.
  induction js as [|j js IH]; intros newj2len best Hnew Hbest; simpl;
    [auto|].
  destruct (Nat.ltb_spec j blo) as [|Hj]; [auto|].
  destruct (Nat.leb_spec bhi j) as [|Hj']; [auto|].
  destruct best as [[besti bestj] bestsize].
  assert (Hk : Difflib.j2len_prev j2len j + 1 <= j + 1 - blo
               /\ Difflib.j2len_prev j2len j + 1 <= S i - alo).
  { destruct j as [|j0]; simpl; [lia|].
    destruct (j2len_get_bound i j2len j0 Hold) as (B1 & B2 & B3). lia. }
  apply IH.
  - constructor; [simpl; lia|exact Hnew].
  - destruct (Nat.ltb_spec bestsize (Difflib.j2len_prev j2len j + 1));
      [|exact Hbest].
    unfold best_ok. lia.
Qed.

Lemma rows_ok (a_rest : list ascii) :
  forall (i : nat) (j2len : list (nat * nat)) (best : Difflib.Match),
    alo <= i -> i + List.length a_rest <= ahi ->
    entries_ok i j2len -> best_ok best ->
    best_ok (Difflib.rows b blo bhi i a_rest j2len best).
Proof.
  induction a_rest as [|c a_rest IH]; intros i j2len best Hlo Hhi Hj Hb;
    simpl; [exact Hb|].
  simpl in Hhi.
  destruct (row_ok (Difflib.b2j b c) i j2len Hlo ltac:(lia) Hj [] best
              ltac:(constructor) Hb) as [Hj' Hb'].
  destruct (Difflib.row _ _ _ _ _ _ _) as [newj2len best'].
  apply IH; [lia|lia|exact Hj'|exact Hb'].
Qed.

Lemma extend_left_ok (fuel : nat) :
  forall m, best_ok m -> best_ok (Difflib.extend_left fuel a b alo blo m).
Proof.
  induction fuel as [|fuel IH]; intros [[besti bestj] bestsize] Hm; simpl;
    [exact Hm|].
  destruct (Nat.ltb_spec alo besti); simpl; [|exact Hm].
  destruct (Nat.ltb_spec blo bestj); simpl; [|exact Hm].
  destruct (Difflib.nth_eqb _ _ _ _); [|exact Hm].
  apply IH. unfold best_ok in *. lia.
Qed.

Lemma extend_right_ok (fuel : nat) :
  forall m, best_ok m -> best_ok (Difflib.extend_right fuel a b ahi bhi m).
Proof.
  induction fuel as [|fuel IH]; intros [[besti bestj] bestsize] Hm; simpl;
    [exact Hm|].
  destruct (Nat.ltb_spec (besti + bestsize) ahi); simpl; [|exact Hm].
  destruct (Nat.ltb_spec (bestj + bestsize) bhi); simpl; [|exact Hm].
  destruct (Difflib.nth_eqb _ _ _ _); [|exact Hm].
  apply IH. unfold best_ok in *. lia.
Qed.

Lemma find_longest_match_ok :
  let '(i, j, k) := Difflib.find_longest_match a b alo ahi blo bhi in
  alo <= i /\ i + k <= ahi /\ blo <= j /\ j + k <= bhi.
Proof.
  unfold Difflib.find_longest_match.
  assert (H : best_ok
                (Difflib.extend_right (List.length a) a b ahi bhi
                   (Difflib.extend_left (List.length a) a b alo blo
                      (Difflib.rows b blo bhi alo (slice a alo (ahi - alo))
                                    [] (alo, blo, 0))))).
  { apply extend_right_ok, extend_left_ok, rows_ok.
    - lia.
    - pose proof (slice_length_le a alo (ahi - alo)).
      unfold slice in *. rewrite List.length_firstn in *. lia.
    - constructor.
    - unfold best_ok. lia. }
  destruct (Difflib.extend_right _ _ _ _ _ _) as [[i j] k]. exact H.
Qed.

End MatcherBounds.

Lemma blocks_size_app l1 l2 :
  blocks_size (l1 ++ l2) = blocks_size l1 + blocks_size l2.
Proof.
  induction l1 as [|[[i j] k] l1 IH]; simpl; [reflexivity|].
  unfold blocks_size in *. simpl. rewrite IH. lia.
Qed.

(** With fuel above the length of the [a] range the work list empties, and
    the blocks found fit side by side in both ranges. *)
Lemma matching_blocks_bound (a b : list ascii) (fuel : nat) :
  forall alo ahi blo bhi,
    alo <= ahi -> blo <= bhi -> ahi - alo < fuel ->
    exists blocks,
      Difflib.matching_blocks fuel a b alo ahi blo bhi = Some blocks
      /\ blocks_size blocks <= ahi - alo
      /\ blocks_size blocks <= bhi - blo.
Proof.
  induction fuel as [|fuel IH]; intros alo ahi blo bhi Ha Hb Hfuel; [lia|].
  simpl.
  pose proof (find_longest_match_ok a b alo ahi blo bhi Ha Hb) as Hm.
  destruct (Difflib.find_longest_match a b alo ahi blo bhi) as [[i j] k].
  destruct Hm as (H1 & H2 & H3 & H4).
  destruct (Nat.eqb_spec k 0) as [->|Hk].
  - exists []. simpl. repeat split; lia.
  - assert (Hleft : exists l,
               (if Nat.ltb alo i && Nat.ltb blo j
                then Difflib.matching_blocks fuel a b alo i blo j
                else Some []) = Some l
               /\ blocks_size l <= i - alo /\ blocks_size l <= j - blo).
    { destruct (Nat.ltb alo i && Nat.ltb blo j).
      - apply IH; lia.
      - exists []. simpl. repeat split; lia. }
    assert (Hright : exists r,
               (if Nat.ltb (i + k) ahi && Nat.ltb (j + k) bhi
                then Difflib.matching_blocks fuel a b (i + k) ahi (j + k) bhi
                else Some []) = Some r
               /\ blocks_size r <= ahi - (i + k)
               /\ blocks_size r <= bhi - (j + k)).
    { destruct (Nat.ltb (i + k) ahi && Nat.ltb (j + k) bhi).
      - apply IH; lia.
      - exists []. simpl. repeat split; lia. }
    destruct Hleft as (l & -> & Hl1 & Hl2).
    destruct Hright as (r & -> & Hr1 & Hr2).
    exists (l ++ (i, j, k) :: r). split; [reflexivity|].
    rewrite blocks_size_app. unfold blocks_size at 2 4. simpl.
    fold (blocks_size r). lia.
Qed.

Lemma matches_bound (a b : list ascii) :
  exists m,
    Difflib.matches a b = Some m
    /\ m <= List.length a /\ m <= List.length b.
Proof.
  unfold Difflib.matches, Difflib.get_matching_blocks.
  destruct (matching_blocks_bound a b (S (List.length a))
              0 (List.length a) 0 (List.length b))
    as (blocks & -> & H1 & H2); [lia|lia|lia|].
  exists (blocks_size blocks). split; [reflexivity|]. lia.
Qed.

(** [fuzzy_match] always returns, and never reports a hit when the text is
    more than 23/17 times as long as the keyword (or the keyword more than
    23/17 times as long as the text). *)
Lemma fuzzy_match_needs_similar_lengths (self : AbusePatternEngine)
      (text keyword : string) :
  let la := List.length (Text.chars text) in
  let lb := List.length (Text.chars keyword) in
  (exists hit, fuzzy_match self text keyword = Some hit)
  /\ (23 * lb < 17 * la \/ 23 * la < 17 * lb ->
      fuzzy_match self text keyword = Some false).
Proof.
  intros la lb. unfold fuzzy_match, Difflib.ratio_ge_085.
  destruct (matches_bound (Text.lower (Text.chars text))
                          (Text.lower (Text.chars keyword)))
    as (m & -> & Ha & Hb).
  unfold Text.lower in *. rewrite !List.length_map in *.
  fold la in Ha |- *. fold lb in Hb |- *.
  split; [eexists; reflexivity|].
  intros H. f_equal.
  destruct (Nat.eqb_spec (la + lb) 0); [lia|].
  apply Nat.leb_gt. lia.
Qed.

(* ================================================================== *)
(** * C1: the fuzzy matcher *)
(* ================================================================== *)

(** C1 (the code at the failing input).  The text "You are worthlass" holds
    the keyword "worthless" with one character changed: its window
    "worthlass" has 8 matching characters out of 9 + 9, ratio 16/18 >= 0.85.
    [fuzzy_match] compares the whole text with the keyword, 8 matching
    characters out of 17 + 9, ratio 16/26 < 0.85, and reports no hit, so
    [analyze_message] detects nothing; even a text that contains the keyword
    itself is no fuzzy hit.  The sliding-window scan of [analyze_text] in
    [analyze.py] does report the window.  In general [fuzzy_match] always
    returns, and returns false for every text more than 23/17 times as long
    as the keyword; conversely it reports the text "worthles", which is
    shorter than the keyword and so has no window at all. *)
Theorem C1_fuzzy_match_compares_whole_text :
  let text := "You are worthlass"%string in
  let keyword := "worthless"%string in
  slice (Text.lower (Text.chars text)) 8 9 = Text.chars "worthlass"
  /\ Difflib.matches (Text.chars "worthlass") (Text.chars keyword) = Some 8
  /\ Difflib.ratio_ge_085 (Text.chars "worthlass") (Text.chars keyword)
     = Some true
  /\ Difflib.matches (Text.lower (Text.chars text)) (Text.chars keyword)
     = Some 8
  /\ fuzzy_match worthless_engine text keyword = Some false
  /\ analyze_message worthless_engine (text_message text) = Some []
  /\ analyze_text_fuzzy text keyword = Some true
  /\ fuzzy_match worthless_engine "You are worthless to me" keyword
     = Some false
  /\ fuzzy_match worthless_engine "worthles" keyword = Some true
  /\ analyze_text_fuzzy "worthles" keyword = Some false
  /\ (forall (self : AbusePatternEngine) (txt kw : string),
        (exists hit, fuzzy_match self txt kw = Some hit)
        /\ (if Nat.ltb (23 * List.length (Text.chars kw))
                       (17 * List.length (Text.chars txt))
            then fuzzy_match self txt kw = Some false
            else True)).
Proof.
  do 10 (split; [vm_compute; reflexivity|]).
  intros self txt kw.
  destruct (fuzzy_match_needs_similar_lengths self txt kw) as [Hret Hfar].
  split; [exact Hret|].
  destruct (Nat.ltb_spec (23 * List.length (Text.chars kw))
                         (17 * List.length (Text.chars txt)));
    [apply Hfar; now left|exact I].
Qed.

(* ================================================================== *)
(** * Further properties: the exact matcher *)
(* ================================================================== *)

Lemma match_literal_spec (lit text rest : list ascii) :
  Text.match_literal lit text = Some rest <-> text = lit ++ rest.
Proof.
  revert text. induction lit as [|c lit IH]; intros text; simpl.
  - split; [now intros [= ->]|now intros ->].
  - destruct text as [|d text]; [split; discriminate|].
    destruct (Ascii.eqb_spec c d) as [->|Hne].
    + rewrite IH. split; [now intros ->|now intros [= ->]].
    + split; [discriminate|intros [= E _]; congruence].
Qed.

Lemma last_before_end_last_or (prev : option ascii) (lit : list ascii) :
  Text.last_before_end prev lit = last_or prev lit.
Proof.
  destruct lit as [|c lit]; [reflexivity|]. simpl.
  revert c. induction lit as [|d lit IH]; intros c; [reflexivity|].
  destruct lit as [|e lit]; [reflexivity|].
  change (List.last (d :: e :: lit) c) with (List.last (e :: lit) c).
  rewrite (IH c). reflexivity.
Qed.

Lemma match_at_spec (prev : option ascii) (lit text : list ascii) :
  Text.match_at prev lit text = true
  <-> exists post,
        text = lit ++ post
        /\ Text.at_boundary prev (List.head (lit ++ post)) = true
        /\ Text.at_boundary (last_or prev lit) (List.head post) = true.
Proof.
  unfold Text.match_at. rewrite last_before_end_last_or. split.
  - destruct (Text.match_literal lit text) as [rest|] eqn:E; [|discriminate].
    apply match_literal_spec in E. subst text.
    intros H. apply andb_prop in H as [H1 H2]. eauto.
  - intros (post & -> & H1 & H2).
    rewrite (proj2 (match_literal_spec lit (lit ++ post) post) eq_refl).
    now rewrite H1, H2.
Qed.

Lemma last_or_app (prev : option ascii) (s t : list ascii) :
  last_or prev (s ++ t) = last_or (last_or prev s) t.
Proof. revert prev. induction s as [|c s IH]; intros prev; simpl; auto. Qed.

Lemma search_from_spec (lit text : list ascii) :
  forall prev,
    Text.search_from prev lit text = true
    <-> exists pre post,
          text = pre ++ lit ++ post
          /\ Text.at_boundary (last_or prev pre) (List.head (lit ++ post))
             = true
          /\ Text.at_boundary (last_or prev (pre ++ lit)) (List.head post)
             = true.
Proof.
  induction text as [|c text IH]; intros prev.
  - simpl. rewrite orb_false_r, match_at_spec. split.
    + intros (post & E & H1 & H2). exists [], post. auto.
    + intros (pre & post & E & H1 & H2).
      destruct pre as [|d pre]; [|discriminate]. exists post. auto.
  - simpl. rewrite orb_true_iff, match_at_spec, IH. split.
    + intros [(post & E & H1 & H2)|(pre & post & E & H1 & H2)].
      * exists [], post. auto.
      * exists (c :: pre), post. rewrite E. auto.
    + intros (pre & post & E & H1 & H2). destruct pre as [|d pre].
      * left. exists post. auto.
      * right. injection E as <- E. exists pre, post. auto.
Qed.

Lemma contains_spec (sub text : list ascii) :
  Text.contains sub text = true
  <-> exists pre post, text = pre ++ sub ++ post.
Proof.
  assert (Hp : forall p s, Text.is_prefix p s = true
                           <-> exists post, s = p ++ post).
  { induction p as [|c p IHp]; intros s; simpl.
    - split; [eauto|reflexivity].
    - destruct s as [|d s]; [split; [discriminate|intros [? [=]]]|].
      rewrite andb_true_iff, IHp. split.
      + intros [E [post ->]]. apply Ascii.eqb_eq in E. subst. eauto.
      + intros [post [= -> ->]]. split; [apply Ascii.eqb_refl|eauto]. }
  induction text as [|c text IH]; simpl.
  - rewrite orb_false_r, Hp. split.
    + intros [post E]. exists [], post. exact E.
    + intros (pre & post & E). destruct pre; [eauto|discriminate].
  - rewrite orb_true_iff, Hp, IH. split.
    + intros [[post E]|(pre & post & E)].
      * exists [], post. exact E.
      * exists (c :: pre), post. now rewrite E.
    + intros (pre & post & E). destruct pre as [|d pre].
      * left. eauto.
      * right. injection E as <- E. eauto.
Qed.

(** X1.  For a keyword and a text of code points below 128, the keyword
    hits the text exactly when the lower-cased keyword occurs in it between
    two word boundaries.  So a hit is always a substring occurrence, and for
    a keyword that starts and ends with a word character the occurrence is
    neither preceded nor followed by a word character: "fat" is not found
    inside "my father is here". *)
Theorem X1_keyword_hit_is_bounded_occurrence :
  forall (keyword : string) (text : list ascii),
    Text.ascii_only (Text.chars keyword) = true ->
    Text.ascii_only text = true ->
    let lit := Text.lower (Text.chars keyword) in
    (keyword_hit keyword text = true <-> bounded_occurrence lit text)
    /\ (keyword_hit keyword text = true -> Text.contains lit text = true)
    /\ (Text.word_opt (List.head lit) = true ->
        Text.word_opt (last_or None lit) = true ->
        keyword_hit keyword text = true ->
        exists pre post,
          text = pre ++ lit ++ post
          /\ Text.word_opt (last_or None pre) = false
          /\ Text.word_opt (List.head post) = false)
    /\ keyword_hit "fat" (Text.chars "my father is here") = false.
Proof.
  intros keyword text _ _ lit.
  assert (Hiff : keyword_hit keyword text = true
                 <-> bounded_occurrence lit text).
  { unfold keyword_hit, Text.re_search_word. fold lit.
    apply search_from_spec. }
  split; [exact Hiff|]. split; [|split].
  - intros H. apply Hiff in H as (pre & post & E & _).
    apply contains_spec. eauto.
  - intros Hfirst Hlast H. apply Hiff in H as (pre & post & E & H1 & H2).
    exists pre, post. split; [exact E|].
    destruct lit as [|c lit']; [discriminate|].
    unfold Text.at_boundary in H1, H2. simpl in H1.
    simpl in Hfirst. rewrite Hfirst in H1.
    rewrite last_or_app in H2.
    assert (E2 : last_or (last_or None pre) (c :: lit')
                 = last_or None (c :: lit')) by reflexivity.
    rewrite E2, Hlast in H2.
    split.
    + now destruct (Text.word_opt (last_or None pre)).
    + now destruct (Text.word_opt (List.head post)).
  - vm_compute. reflexivity.
Qed.

Lemma X1_keyword_hit_is_bounded_occurrence_witness :
  let keyword := "custody"%string in
  let text := Text.chars "i'll get full custody now" in
  Text.ascii_only (Text.chars keyword) = true
  /\ Text.ascii_only text = true
  /\ keyword_hit keyword text = true
  /\ Text.contains (Text.lower (Text.chars keyword)) text = true.
Proof.
  intros keyword text.
  assert (A1 : Text.ascii_only (Text.chars keyword) = true) by reflexivity.
  assert (A2 : Text.ascii_only text = true) by reflexivity.
  assert (H : keyword_hit keyword text = true) by (vm_compute; reflexivity).
  split; [exact A1|]. split; [exact A2|]. split; [exact H|].
  exact (proj1 (proj2 (X1_keyword_hit_is_bounded_occurrence
                         keyword text A1 A2)) H).
Defined.

(* ================================================================== *)
(** * Further properties: letter case *)
(* ================================================================== *)

Lemma lower_upper_char (c : ascii) :
  Text.lower_char (upper_char c) = Text.lower_char c.
Proof. destruct c as [[] [] [] [] [] [] [] []]; reflexivity. Qed.

Lemma lower_text_upper (m : Message) :
  lower_text (upper_message m) = lower_text m.
Proof.
  unfold lower_text, upper_message, Text.chars, Text.lower; simpl.
  rewrite list_ascii_of_string_of_list_ascii, List.map_map.
  apply List.map_ext. apply lower_upper_char.
Qed.

(** The content analyses read a message through its lower-cased text and
    its timestamp only. *)
Lemma content_depends_on_lower_text (f : Message -> Message) :
  (forall m, lower_text (f m) = lower_text m) ->
  (forall m, msg_timestamp (f m) = msg_timestamp m) ->
  forall messages : list Message,
    _calculate_severity (List.map f messages) = _calculate_severity messages
    /\ forensic_sets (List.map f messages) = forensic_sets messages
    /\ List.map classifications (List.map classify (List.map f messages))
       = List.map classifications (List.map classify messages)
    /\ _analyze_timeline (List.map f messages) = _analyze_timeline messages.
Proof.
  intros Htext Hts messages.
  split; [|split; [|split]].
  - unfold _calculate_severity.
    assert (E : forall ms st,
               List.fold_left score_message (List.map f ms) st
               = List.fold_left score_message ms st).
    { induction ms as [|m ms IH]; intros st; simpl; [reflexivity|].
      rewrite IH. unfold score_message. now rewrite Htext. }
    now rewrite E.
  - unfold forensic_sets.
    assert (E : forall ms i s,
               forensic_loop i (List.map f ms) s = forensic_loop i ms s).
    { induction ms as [|m ms IH]; intros i s; simpl; [reflexivity|].
      rewrite IH. unfold forensic_message. now rewrite Htext. }
    apply E.
  - induction messages as [|m ms IH]; simpl; [reflexivity|].
    rewrite IH. now rewrite Htext.
  - unfold _analyze_timeline.
    assert (E : forall ms tw,
               List.fold_left timeline_message (List.map f ms) tw
               = List.fold_left timeline_message ms tw).
    { induction ms as [|m ms IH]; intros tw; simpl; [reflexivity|].
      rewrite IH. unfold timeline_message. now rewrite Htext, Hts. }
    assert (E2 : List.existsb has_timestamp (List.map f messages)
                 = List.existsb has_timestamp messages).
    { induction messages as [|m ms IH]; simpl; [reflexivity|].
      rewrite IH. unfold has_timestamp. now rewrite Hts. }
    now rewrite E, E2.
Qed.

(** X2.  Matching ignores the letter case of a message text of code points
    below 128: writing every such message in upper case changes neither the
    severity assessment, nor the forensic index sets, nor the role
    classification, nor the timeline. *)
Theorem X2_analysis_ignores_letter_case :
  forall messages : list Message,
    ascii_messages messages ->
    let shouted := List.map upper_message messages in
    _calculate_severity shouted = _calculate_severity messages
    /\ forensic_sets shouted = forensic_sets messages
    /\ List.map classifications (List.map classify shouted)
       = List.map classifications (List.map classify messages)
    /\ _analyze_timeline shouted = _analyze_timeline messages.
Proof.
  intros messages _ shouted.
  apply (content_depends_on_lower_text upper_message);
    [apply lower_text_upper|reflexivity].
Qed.

Lemma X2_analysis_ignores_letter_case_witness :
  let messages := [text_message "I never said that. You're crazy."] in
  ascii_messages messages
  /\ _calculate_severity (List.map upper_message messages)
     = _calculate_severity messages.
Proof.
  intros messages.
  assert (A : ascii_messages messages) by reflexivity.
  split; [exact A|].
  exact (proj1 (X2_analysis_ignores_letter_case messages A)).
Defined.

(* ================================================================== *)
(** * Further properties: compound sequences *)
(* ================================================================== *)

Lemma appears_app_r roles window post :
  appears_in_order roles window -> appears_in_order roles (window ++ post).
Proof.
  induction 1; simpl; [constructor|now apply aio_take|now apply aio_skip].
Qed.

Lemma appears_app_l roles window pre :
  appears_in_order roles window -> appears_in_order roles (pre ++ window).
Proof.
  intros H. induction pre as [|mc pre IH]; simpl; [exact H|].
  now apply aio_skip.
Qed.

Lemma firstn_add_split {A : Type} (n e : nat) (l : list A) :
  List.firstn (n + e) l = List.firstn n l ++ List.firstn e (List.skipn n l).
Proof.
  revert l. induction n as [|n IH]; intros l; simpl; [reflexivity|].
  destruct l as [|x l]; simpl.
  - now rewrite List.firstn_nil.
  - now rewrite IH.
Qed.

(** X3.  [_check_pattern_in_window] is monotone in the window: a pattern
    found in a window is found in every window that contains it as a
    contiguous part, so widening [window_messages] never loses the match at
    an offset; and a window with fewer messages than the pattern has roles
    never matches. *)
Theorem X3_check_pattern_monotone :
  forall (target_pattern : list Role) (window pre post : list Classified),
    (_check_pattern_in_window window target_pattern = true ->
     _check_pattern_in_window (pre ++ window ++ post) target_pattern = true)
    /\ (List.length window < List.length target_pattern ->
        _check_pattern_in_window window target_pattern = false)
    /\ (forall (i n wider : nat),
          _check_pattern_in_window (slice window i n) target_pattern = true ->
          _check_pattern_in_window (slice window i (n + wider))
                                   target_pattern = true).
Proof.
  intros target window pre post. split; [|split].
  - rewrite !check_pattern_iff. intros H.
    now apply appears_app_l, appears_app_r.
  - intros Hlen.
    destruct (_check_pattern_in_window window target) eqn:E; [|reflexivity].
    apply check_pattern_iff, appears_length in E. lia.
  - intros i n wider. rewrite !check_pattern_iff. unfold slice.
    rewrite firstn_add_split. apply appears_app_r.
Qed.

Lemma X3_check_pattern_monotone_witness :
  let window := List.map classify deny_reverse_attack in
  let pre := [classify (text_message "ok")] in
  _check_pattern_in_window window [deny; attack] = true
  /\ _check_pattern_in_window (pre ++ window ++ pre) [deny; attack] = true.
Proof.
  intros window pre.
  assert (H : _check_pattern_in_window window [deny; attack] = true)
    by (vm_compute; reflexivity).
  split; [exact H|].
  exact (proj1 (X3_check_pattern_monotone [deny; attack] window pre pre) H).
Defined.

Lemma in_slice {A : Type} (l : list A) (i n : nat) (x : A) :
  List.In x (slice l i n) -> List.In x l.
Proof.
  unfold slice. intros H.
  rewrite <- (List.firstn_skipn i l). apply List.in_or_app. right.
  rewrite <- (List.firstn_skipn n (List.skipn i l)).
  apply List.in_or_app. now left.
Qed.

Lemma appears_role_messages roles window :
  appears_in_order roles window ->
  List.length roles
  <= List.length
       (List.filter
          (fun w => negb (Nat.eqb (List.length (classifications w)) 0))
          window).
Proof.
  induction 1 as [w|r roles mc w Hr H IH|roles mc w H IH]; simpl.
  - lia.
  - unfold has_role in Hr. destruct (classifications mc) as [|c cs] eqn:E;
      [discriminate|]. simpl. lia.
  - destruct (negb _); simpl; lia.
Qed.

Lemma compound_entry_facts messages name def i e :
  compound_entry name def (window_at def (List.map classify messages) i)
  = Some e ->
  appears_in_order (pattern def)
                   (window_at def (List.map classify messages) i) ->
  compound_entry_sound messages name def e.
Proof.
  unfold compound_entry. set (window := window_at def _ i).
  intros He Happ.
  destruct window as [|first rest] eqn:Ew; [discriminate|].
  rewrite <- Ew in *. injection He as <-. unfold compound_entry_sound; simpl.
  split; [reflexivity|]. split; [reflexivity|]. split; [lia|].
  rewrite List.length_map. split; [now apply appears_role_messages|].
  split.
  - etransitivity; [apply List.filter_length_le|].
    unfold window, window_at, slice. rewrite List.length_firstn. lia.
  - apply List.Forall_forall. intros m Hm.
    apply List.in_map_iff in Hm as (mc & <- & Hmc).
    apply List.filter_In in Hmc as [Hin Hne].
    apply in_slice in Hin.
    apply List.in_map_iff in Hin as (m0 & <- & Hm0).
    split; [exact Hm0|]. simpl in *.
    intros E. rewrite E in Hne. discriminate.
Qed.

Lemma single_pattern_entries messages name def r :
  2 <= List.length (pattern def) ->
  detect_compound_with [(name, def)] messages = Some r ->
  List.Forall (compound_entry_sound messages name def) r
  /\ List.length r <= List.length messages.
Proof.
  intros Hlen Hr.
  destruct (pattern_reports_correct name def messages)
    as (reports & E & Hsub & Hentry & Hiff).
  { destruct (pattern def); [simpl in Hlen; lia|discriminate]. }
  { now right. }
  rewrite Hr in E. injection E as ->. split.
  - apply List.Forall_forall. intros e He.
    apply List.in_map_iff in He as ([i e'] & <- & Hin). simpl.
    apply (compound_entry_facts messages name def i).
    + now apply Hentry.
    + apply Hiff; [|eauto].
      assert (Hi : List.In i (List.map fst reports)).
      { apply List.in_map_iff. exists (i, e'). auto. }
      apply list_elem_of_In in Hi.
      apply (sublist_subseteq _ _ Hsub) in Hi.
      apply list_elem_of_In, List.in_seq in Hi. lia.
  - rewrite List.length_map, <- (List.length_map fst).
    apply sublist_length in Hsub. rewrite List.length_seq in Hsub.
    exact Hsub.
Qed.

(** X4.  Every entry [_detect_compound_patterns] returns carries the name
    and description of one of the three shipped patterns, the severity twice
    that pattern's number of roles (4 or 6), and as its messages only
    messages of the input that have at least one role: at least as many as
    the pattern has roles and at most [window_messages].  There is at most
    one entry per pattern and offset, so never more than three times the
    number of messages, and none for fewer than two messages. *)
Theorem X4_compound_entries_are_sound :
  forall messages : list Message,
    List.Forall
      (fun e =>
         exists def,
           List.In (pattern_type e, def) DARVO_COMPOUND_PATTERNS
           /\ compound_entry_sound messages (pattern_type e) def e
           /\ (cm_severity e = 4 \/ cm_severity e = 6))
      (_detect_compound_patterns messages)
    /\ List.length (_detect_compound_patterns messages)
       <= 3 * List.length messages
    /\ _detect_compound_patterns (List.firstn 1 messages) = [].
Proof.
  intros messages.
  destruct (shipped_patterns_concat messages)
    as (r1 & r2 & r3 & E1 & E2 & E3 & E).
  unfold _detect_compound_patterns. rewrite E.
  pose proof (fun H => single_pattern_entries messages _ _ r1 H E1)
    as P1.
  destruct (P1 ltac:(simpl; lia)) as [F1 L1]. clear P1.
  pose proof (fun H => single_pattern_entries messages _ _ r2 H E2)
    as P2.
  destruct (P2 ltac:(simpl; lia)) as [F2 L2]. clear P2.
  pose proof (fun H => single_pattern_entries messages _ _ r3 H E3)
    as P3.
  destruct (P3 ltac:(simpl; lia)) as [F3 L3]. clear P3.
  split; [|split].
  - rewrite !List.Forall_app. repeat split;
      (eapply List.Forall_impl; [|eassumption]); intros e He;
      pose proof He as (Hn & _ & Hs & _); eexists;
      (split; [rewrite Hn; simpl; eauto|]);
      (split; [rewrite Hn; exact He|]); rewrite Hs; simpl; auto.
  - rewrite !List.length_app. lia.
  - unfold detect_compound_with.
    destruct messages as [|m ms]; [reflexivity|].
    simpl List.firstn. rewrite List.firstn_O. reflexivity.
Qed.

Lemma has_role_classify (m : Message) :
  has_role deny (classify m) = role_hit Deny_table m
  /\ has_role attack (classify m) = role_hit Attack_table m
  /\ has_role reverse (classify m) = role_hit Reverse_table m.
Proof.
  unfold has_role, classify, role_hit; simpl.
  destruct (any_keyword Deny_table _), (any_keyword Attack_table _),
    (any_keyword Reverse_table _); repeat split; reflexivity.
Qed.

Lemma appears_roles_present roles window :
  appears_in_order roles window ->
  List.Forall
    (fun r => exists mc, List.In mc window /\ has_role r mc = true) roles.
Proof.
  induction 1 as [w|r roles mc w Hr H IH|roles mc w H IH].
  - constructor.
  - constructor.
    + exists mc. split; [now left|exact Hr].
    + eapply List.Forall_impl; [|exact IH].
      intros r' (mc' & Hin & Hr'). exists mc'. split; [now right|exact Hr'].
  - eapply List.Forall_impl; [|exact IH].
    intros r' (mc' & Hin & Hr'). exists mc'. split; [now right|exact Hr'].
Qed.

(** The roles of a reported pattern are carried by messages of the input. *)
Lemma single_pattern_roles messages name def r e :
  2 <= List.length (pattern def) ->
  detect_compound_with [(name, def)] messages = Some r ->
  List.In e r ->
  pattern_type e = name
  /\ List.Forall
       (fun role =>
          exists m, List.In m messages /\ has_role role (classify m) = true)
       (pattern def).
Proof.
  intros Hlen Hr He.
  destruct (single_pattern_entries messages name def r Hlen Hr) as [Hs _].
  rewrite List.Forall_forall in Hs. split; [apply (Hs e He)|].
  destruct (pattern_reports_correct name def messages)
    as (reports & E & Hsub & Hentry & Hiff).
  { destruct (pattern def); [simpl in Hlen; lia|discriminate]. }
  { now right. }
  rewrite Hr in E. injection E as ->.
  apply List.in_map_iff in He as ([i e'] & <- & Hin).
  assert (Hi : i < List.length messages).
  { assert (Hi : List.In i (List.map fst reports)).
    { apply List.in_map_iff. exists (i, e'). auto. }
    apply list_elem_of_In in Hi.
    apply (sublist_subseteq _ _ Hsub) in Hi.
    apply list_elem_of_In, List.in_seq in Hi. lia. }
  assert (Happ : appears_in_order
                   (pattern def)
                   (window_at def (List.map classify messages) i))
    by (apply Hiff; eauto).
  apply appears_roles_present in Happ.
  eapply List.Forall_impl; [|exact Happ].
  intros role (mc & Hmc & Hrole). apply in_slice in Hmc.
  apply List.in_map_iff in Hmc as (m & <- & Hm). eauto.
Qed.

Lemma forensic_flags (messages : list Message) (clk : nat -> datetime) :
  let f := forensic_of messages clk in
  cp_deny (darvo_components_present f)
  = List.existsb (role_hit Deny_table) messages
  /\ cp_attack (darvo_components_present f)
     = List.existsb (role_hit Attack_table) messages
  /\ cp_reverse (darvo_components_present f)
     = List.existsb (role_hit Reverse_table) messages
  /\ high_risk_indicators f
     = List.existsb (role_hit CHILD_FOCUSED_DARVO) messages
  /\ full_darvo_pattern_detected f
     = cp_deny (darvo_components_present f)
       && cp_attack (darvo_components_present f)
       && cp_reverse (darvo_components_present f).
Proof.
  destruct (forensic_counts messages) as (Hd & Ha & Hr & Hc).
  unfold forensic_of, Clock.run, _generate_forensic_summary, Clock.bind,
    Clock.ret, Clock.now; simpl.
  rewrite Hd, Ha, Hr, Hc, !filter_positive. repeat split.
Qed.

(** X5.  The ordered detector implies the unordered one: whenever
    [_detect_compound_patterns] reports full_darvo_sequence, the forensic
    summary of the same messages has [full_darvo_pattern_detected] true, and
    a reported deny_then_attack or attack_then_reverse means both of its
    components are marked present. *)
Theorem X5_compound_pattern_implies_forensic_flags :
  forall (messages : list Message) (clk : nat -> datetime),
    let names :=
      List.map pattern_type (_detect_compound_patterns messages) in
    let f := forensic_of messages clk in
    (List.In "full_darvo_sequence"%string names ->
     full_darvo_pattern_detected f = true)
    /\ (List.In "deny_then_attack"%string names ->
        cp_deny (darvo_components_present f) = true
        /\ cp_attack (darvo_components_present f) = true)
    /\ (List.In "attack_then_reverse"%string names ->
        cp_attack (darvo_components_present f) = true
        /\ cp_reverse (darvo_components_present f) = true).
Proof.
  intros messages clk names f.
  destruct (forensic_flags messages clk) as (Hd & Ha & Hr & _ & Hfull).
  fold f in Hd, Ha, Hr, Hfull.
  destruct (shipped_patterns_concat messages)
    as (r1 & r2 & r3 & E1 & E2 & E3 & E).
  assert (Hnames : forall name,
             List.In name names ->
             exists e, pattern_type e = name
                       /\ (List.In e r1 \/ List.In e r2 \/ List.In e r3)).
  { intros name Hn. unfold names, _detect_compound_patterns in Hn.
    rewrite E in Hn. apply List.in_map_iff in Hn as (e & <- & He).
    exists e. split; [reflexivity|].
    rewrite !List.in_app_iff in He. tauto. }
  assert (Hhit : forall role,
             (exists m, List.In m messages
                        /\ has_role role (classify m) = true) ->
             match role with
             | deny => cp_deny (darvo_components_present f)
             | attack => cp_attack (darvo_components_present f)
             | reverse => cp_reverse (darvo_components_present f)
             end = true).
  { intros role (m & Hm & Hrole).
    destruct (has_role_classify m) as (Rd & Ra & Rr).
    destruct role; [rewrite Hd|rewrite Ha|rewrite Hr];
      apply List.existsb_exists; exists m;
      (split; [exact Hm|]); congruence. }
  assert (Hcase : forall name e,
             pattern_type e = name ->
             List.In e r1 \/ List.In e r2 \/ List.In e r3 ->
             (name = "deny_then_attack"%string
              /\ cp_deny (darvo_components_present f) = true
              /\ cp_attack (darvo_components_present f) = true)
             \/ (name = "attack_then_reverse"%string
                 /\ cp_attack (darvo_components_present f) = true
                 /\ cp_reverse (darvo_components_present f) = true)
             \/ (name = "full_darvo_sequence"%string
                 /\ cp_deny (darvo_components_present f) = true
                 /\ cp_attack (darvo_components_present f) = true
                 /\ cp_reverse (darvo_components_present f) = true)).
  { intros name e Hname [He|[He|He]].
    - pose proof (fun H => single_pattern_roles messages _ _ r1 e H E1 He)
        as P. destruct (P ltac:(simpl; lia)) as [Hn Hroles]. simpl in Hroles.
      left. split; [congruence|].
      inversion Hroles as [|? ? H1 Hroles']; subst.
      inversion Hroles' as [|? ? H2 _]; subst.
      split; [exact (Hhit deny H1)|exact (Hhit attack H2)].
    - pose proof (fun H => single_pattern_roles messages _ _ r2 e H E2 He)
        as P. destruct (P ltac:(simpl; lia)) as [Hn Hroles]. simpl in Hroles.
      right; left. split; [congruence|].
      inversion Hroles as [|? ? H1 Hroles']; subst.
      inversion Hroles' as [|? ? H2 _]; subst.
      split; [exact (Hhit attack H1)|exact (Hhit reverse H2)].
    - pose proof (fun H => single_pattern_roles messages _ _ r3 e H E3 He)
        as P. destruct (P ltac:(simpl; lia)) as [Hn Hroles]. simpl in Hroles.
      right; right. split; [congruence|].
      inversion Hroles as [|? ? H1 Hroles']; subst.
      inversion Hroles' as [|? ? H2 Hroles'']; subst.
      inversion Hroles'' as [|? ? H3 _]; subst.
      split; [exact (Hhit deny H1)|].
      split; [exact (Hhit attack H2)|exact (Hhit reverse H3)]. }
  split; [|split]; intros Hin;
    destruct (Hnames _ Hin) as (e & Hname & He);
    destruct (Hcase _ e Hname He)
      as [(N & A & B)|[(N & A & B)|(N & A & B & C)]];
    try discriminate N; auto.
  rewrite Hfull, A, B, C. reflexivity.
Qed.

Lemma X5_compound_pattern_implies_forensic_flags_witness :
  List.In "full_darvo_sequence"%string
          (List.map pattern_type
             (_detect_compound_patterns deny_none_attack_reverse))
  /\ full_darvo_pattern_detected
       (forensic_of deny_none_attack_reverse clock_a) = true.
Proof.
  assert (H : List.In "full_darvo_sequence"%string
                (List.map pattern_type
                   (_detect_compound_patterns deny_none_attack_reverse))).
  { vm_compute. do 4 right. left. reflexivity. }
  split; [exact H|].
  exact (proj1 (X5_compound_pattern_implies_forensic_flags
                  deny_none_attack_reverse clock_a) H).
Defined.

(* ================================================================== *)
(** * Further properties: forensic summary, severity, recommendations *)
(* ================================================================== *)

Lemma recommendations_spec (full_pattern child_risk : bool) :
  let r := _generate_recommendations full_pattern child_risk in
  r <> []
  /\ (List.In urgent_recommendation r <-> child_risk = true)
  /\ (List.In document_recommendation r <-> full_pattern = true)
  /\ (r = [monitoring_recommendation]
      <-> full_pattern = false /\ child_risk = false)
  /\ List.length r
     = if full_pattern then (if child_risk then 5 else 2)
       else (if child_risk then 3 else 1).
Proof.
  assert (Hin : forall (x : string) (l : list string),
             List.In x l <-> List.existsb (String.eqb x) l = true).
  { intros x l. rewrite List.existsb_exists. split.
    - intros H. exists x. split; [exact H|apply String.eqb_refl].
    - intros (y & Hy & E). apply String.eqb_eq in E. now subst. }
  intros r. rewrite !Hin. unfold r.
  destruct full_pattern, child_risk; vm_compute;
    repeat split; try discriminate; try reflexivity;
    try (intros [H1 H2]; discriminate); auto.
Qed.

Lemma severity_child_positive (messages : list Message) :
  Nat.ltb 0 (child_focused_score
               (category_scores (_calculate_severity messages)))
  = List.existsb (role_hit CHILD_FOCUSED_DARVO) messages.
Proof.
  destruct (severity_closed_form messages) as [_ ->].
  change (child_focused_score (scores_dict _ _ _ _ ?c)) with c.
  unfold sum_over. rewrite list_sum_positive.
  induction messages as [|m ms IH]; simpl; [reflexivity|].
  now rewrite IH, child_sum_positive.
Qed.

(** X6.  The forensic summary and the severity assessment agree on child
    risk: [high_risk_indicators] is true exactly when the child-focused
    subtotal is positive, and the risk level is critical exactly when
    [high_risk_indicators] is true or the total exceeds 50.  The
    recommended actions are never empty; they hold the urgent child
    recommendation exactly when [high_risk_indicators] is true, the
    documentation advice exactly when the full pattern is detected, and the
    single monitoring advice exactly when neither holds. *)
Theorem X6_forensic_and_severity_agree :
  forall (messages : list Message) (clk : nat -> datetime),
    let f := forensic_of messages clk in
    let s := _calculate_severity messages in
    (high_risk_indicators f = true
     <-> 0 < child_focused_score (category_scores s))
    /\ (risk_level s = critical
        <-> high_risk_indicators f = true \/ 50 < total_score s)
    /\ recommended_actions f <> []
    /\ (List.In urgent_recommendation (recommended_actions f)
        <-> high_risk_indicators f = true)
    /\ (List.In document_recommendation (recommended_actions f)
        <-> full_darvo_pattern_detected f = true)
    /\ (recommended_actions f = [monitoring_recommendation]
        <-> full_darvo_pattern_detected f = false
            /\ high_risk_indicators f = false).
Proof.
  intros messages clk f s.
  destruct (forensic_flags messages clk) as (_ & _ & _ & Hhigh & _).
  fold f in Hhigh.
  pose proof (severity_child_positive messages) as Hchild. fold s in Hchild.
  assert (H1 : high_risk_indicators f = true
               <-> 0 < child_focused_score (category_scores s)).
  { rewrite Hhigh, <- Hchild. apply Nat.ltb_lt. }
  split; [exact H1|]. split.
  { rewrite H1. unfold s, _calculate_severity;
      cbn [risk_level total_score category_scores].
    destruct (Nat.ltb_spec 0 (child_focused_score
               (st_scores (List.fold_left score_message messages
                  {| st_total := 0; st_scores := initial_scores |}))))
      as [Hpos|Hzero].
    - split; [intros _; now left|reflexivity].
    - unfold risk_of_total. set (t := st_total _).
      destruct (Nat.ltb_spec 50 t), (Nat.ltb_spec 30 t), (Nat.ltb_spec 15 t);
        split; try discriminate; try (intros _; right; lia);
        try reflexivity; intros [?|?]; lia. }
  assert (Hrec : recommended_actions f
                 = _generate_recommendations
                     (full_darvo_pattern_detected f)
                     (high_risk_indicators f)) by reflexivity.
  rewrite Hrec.
  destruct (recommendations_spec (full_darvo_pattern_detected f)
                                 (high_risk_indicators f))
    as (R1 & R2 & R3 & R4 & _).
  auto.
Qed.

Lemma category_sum_positive text table score_of :
  List.forallb (fun item : string * list string =>
                  Nat.ltb 0 (score_of (fst item))) table = true ->
  Nat.ltb 0 (category_sum text table score_of) = any_keyword table text.
Proof.
  intros Hpos. unfold category_sum.
  rewrite list_sum_positive, any_keyword_exists.
  induction table as [|item table IH]; simpl in *; [reflexivity|].
  apply andb_prop in Hpos as [Hi Ht]. rewrite (IH Ht).
  destruct (any_hit text (snd item)); [now rewrite Hi|reflexivity].
Qed.

Lemma category_sum_bound text table score_of :
  category_sum text table score_of
  <= List.list_sum (List.map (fun item : string * list string =>
                                score_of (fst item)) table).
Proof.
  unfold category_sum. induction table as [|item table IH]; simpl; [lia|].
  destruct (any_hit text (snd item)); lia.
Qed.

Lemma sum_over_bound (f : Message -> nat) (bound : nat) messages :
  (forall m, f m <= bound) ->
  sum_over f messages <= bound * List.length messages.
Proof.
  intros H. unfold sum_over.
  induction messages as [|m ms IH]; simpl; [lia|].
  specialize (H m). lia.
Qed.

Lemma sum_over_zero (f : Message -> nat) messages :
  Nat.eqb (sum_over f messages) 0
  = negb (List.existsb (fun m => Nat.ltb 0 (f m)) messages).
Proof.
  unfold sum_over. rewrite <- list_sum_positive.
  destruct (List.list_sum (List.map f messages)); reflexivity.
Qed.

(** X7.  The total score is the sum of the five category subtotals.  It is
    0 exactly when no message matches any keyword of the five tables, and
    it never exceeds 60 per message (6 for deny, 15 for attack, 14 for
    reverse, 10 for institutional, 15 for child-focused). *)
Theorem X7_total_score_bounds :
  forall messages : list Message,
    let s := _calculate_severity messages in
    let n := List.length messages in
    total_score s = List.list_sum (dict_values (category_scores s))
    /\ Nat.eqb (total_score s) 0
       = negb (List.existsb any_table_hit messages)
    /\ total_score s <= 60 * n
    /\ category_scores s
       = scores_dict (sum_over deny_sum messages)
                     (sum_over attack_sum messages)
                     (sum_over reverse_sum messages)
                     (sum_over institutional_sum messages)
                     (sum_over child_sum messages)
    /\ sum_over deny_sum messages <= 6 * n
    /\ sum_over attack_sum messages <= 15 * n
    /\ sum_over reverse_sum messages <= 14 * n
    /\ sum_over institutional_sum messages <= 10 * n
    /\ sum_over child_sum messages <= 15 * n.
Proof.
  intros messages s n.
  destruct (severity_closed_form messages) as [Ht Hs].
  fold s in Ht, Hs.
  assert (Bd : sum_over deny_sum messages <= 6 * n).
  { apply sum_over_bound. intros m. unfold deny_sum.
    etransitivity; [apply category_sum_bound|]. vm_compute. lia. }
  assert (Ba : sum_over attack_sum messages <= 15 * n).
  { apply sum_over_bound. intros m. unfold attack_sum.
    etransitivity; [apply category_sum_bound|]. vm_compute. lia. }
  assert (Br : sum_over reverse_sum messages <= 14 * n).
  { apply sum_over_bound. intros m. unfold reverse_sum.
    etransitivity; [apply category_sum_bound|]. vm_compute. lia. }
  assert (Bi : sum_over institutional_sum messages <= 10 * n).
  { apply sum_over_bound. intros m. unfold institutional_sum.
    etransitivity; [apply category_sum_bound|]. vm_compute. lia. }
  assert (Bc : sum_over child_sum messages <= 15 * n).
  { apply sum_over_bound. intros m. unfold child_sum.
    etransitivity; [apply category_sum_bound|]. vm_compute. lia. }
  split; [rewrite Ht, Hs; simpl; lia|].
  split.
  { rewrite Ht.
    assert (E : sum_over deny_sum messages + sum_over attack_sum messages
                + sum_over reverse_sum messages
                + sum_over institutional_sum messages
                + sum_over child_sum messages
                = sum_over (fun m => deny_sum m + attack_sum m + reverse_sum m
                                     + institutional_sum m + child_sum m)
                           messages).
    { unfold sum_over. clear. induction messages as [|m ms IH]; simpl; lia. }
    rewrite E, sum_over_zero. f_equal.
    clear. induction messages as [|m ms IH]; simpl; [reflexivity|].
    rewrite IH. f_equal. unfold any_table_hit, role_hit.
    rewrite <- (category_sum_positive (lower_text m) Deny_table
                  (severity_weight "Deny")) by (vm_compute; reflexivity).
    rewrite <- (category_sum_positive (lower_text m) Attack_table
                  (severity_weight "Attack")) by (vm_compute; reflexivity).
    rewrite <- (category_sum_positive (lower_text m) Reverse_table
                  (severity_weight "Reverse_Victim_Offender"))
      by (vm_compute; reflexivity).
    rewrite <- (category_sum_positive (lower_text m) Institutional_table
                  (severity_weight "Institutional_DARVO"))
      by (vm_compute; reflexivity).
    rewrite <- (category_sum_positive (lower_text m) CHILD_FOCUSED_DARVO
                  (fun _ => 5)) by (vm_compute; reflexivity).
    fold (deny_sum m). fold (attack_sum m). fold (reverse_sum m).
    fold (institutional_sum m). fold (child_sum m).
    destruct (deny_sum m), (attack_sum m), (reverse_sum m),
      (institutional_sum m), (child_sum m); reflexivity. }
  split; [rewrite Ht; lia|]. auto 10.
Qed.

Lemma sum_over_app (f : Message -> nat) (a b : list Message) :
  sum_over f (a ++ b) = sum_over f a + sum_over f b.
Proof.
  unfold sum_over. now rewrite List.map_app, List.list_sum_app.
Qed.

Lemma sum_over_perm (f : Message -> nat) (a b : list Message) :
  Permutation a b -> sum_over f a = sum_over f b.
Proof.
  unfold sum_over.
  induction 1 as [|x l l' _ IH|x y l|l l' l'' _ IH1 _ IH2]; simpl; lia.
Qed.

Lemma severity_from_sums (messages : list Message) :
  let total :=
    sum_over deny_sum messages + sum_over attack_sum messages
    + sum_over reverse_sum messages + sum_over institutional_sum messages
    + sum_over child_sum messages in
  let risk :=
    if Nat.ltb 0 (sum_over child_sum messages) then critical
    else risk_of_total total in
  _calculate_severity messages
  = {| total_score := total;
       category_scores :=
         scores_dict (sum_over deny_sum messages)
                     (sum_over attack_sum messages)
                     (sum_over reverse_sum messages)
                     (sum_over institutional_sum messages)
                     (sum_over child_sum messages);
       risk_level := risk;
       interpretation := _interpret_severity risk total |}.
Proof.
  unfold _calculate_severity.
  change initial_scores with (scores_dict 0 0 0 0 0).
  rewrite score_messages_shape. reflexivity.
Qed.

Lemma risk_of_total_monotone (t t' : nat) :
  t <= t' -> risk_rank (risk_of_total t) <= risk_rank (risk_of_total t').
Proof.
  intros H. unfold risk_of_total.
  destruct (Nat.ltb_spec 50 t), (Nat.ltb_spec 30 t), (Nat.ltb_spec 15 t),
    (Nat.ltb_spec 50 t'), (Nat.ltb_spec 30 t'), (Nat.ltb_spec 15 t');
    simpl; lia.
Qed.

(** X8.  Scores add up over concatenated message lists: the total and each
    category subtotal of [a ++ b] are the sums of those of [a] and of [b].
    So analysing more messages never lowers the total, and never lowers the
    risk level in the order low < medium < high < critical. *)
Theorem X8_severity_is_additive_and_monotone :
  forall a b : list Message,
    let sa := _calculate_severity a in
    let sb := _calculate_severity b in
    let sab := _calculate_severity (a ++ b) in
    total_score sab = total_score sa + total_score sb
    /\ List.map snd (category_scores sab)
       = List.map (fun p => fst p + snd p)
           (List.combine (List.map snd (category_scores sa))
                         (List.map snd (category_scores sb)))
    /\ total_score sa <= total_score sab
    /\ risk_rank (risk_level sa) <= risk_rank (risk_level sab).
Proof.
  intros a b sa sb sab. unfold sa, sb, sab.
  rewrite !severity_from_sums, !sum_over_app. simpl.
  split; [lia|]. split; [reflexivity|]. split; [lia|].
  destruct (Nat.ltb_spec 0 (sum_over child_sum a)) as [Ha|Ha];
    destruct (Nat.ltb_spec 0 (sum_over child_sum a + sum_over child_sum b))
      as [Hab|Hab]; simpl; try lia.
  - destruct (risk_of_total _); simpl; lia.
  - apply risk_of_total_monotone. lia.
Qed.

(** X9.  The severity assessment does not depend on the order of the
    messages.  In particular the DARVO analysis [ConversationAnalyzer] runs
    on its sorted message list has the severity assessment of the
    normalized messages in their original order. *)
Theorem X9_severity_ignores_message_order :
  forall (messages messages' : list Message),
    Permutation messages messages' ->
    _calculate_severity messages = _calculate_severity messages'
    /\ (forall (m : Message) (ms : list Message) (clk : nat -> datetime),
          severity_assessment
            (Clock.run
               (analyze_darvo_tactics (ConversationAnalyzer_new (m :: ms)))
               clk)
          = _calculate_severity (Normalizer.normalize_messages (m :: ms))).
Proof.
  intros messages messages' Hperm.
  assert (Hinv : forall a b, Permutation a b ->
                             _calculate_severity a = _calculate_severity b).
  { intros a b H. rewrite !severity_from_sums.
    now rewrite !(sum_over_perm _ a b H). }
  split; [now apply Hinv|].
  intros m ms clk. unfold ConversationAnalyzer_new.
  pose proof (init_perm (Normalizer.normalize_messages (m :: ms))) as Hp.
  rewrite <- (Hinv _ _ Hp).
  destruct (ConversationAnalyzer.init
              (Normalizer.normalize_messages (m :: ms)))
    as [|m' ms'] eqn:E; [|reflexivity].
  apply Permutation_nil in Hp. discriminate Hp.
Qed.

Lemma X9_severity_ignores_message_order_witness :
  Permutation deny_reverse_attack reverse_attack_deny
  /\ _calculate_severity deny_reverse_attack
     = _calculate_severity reverse_attack_deny.
Proof.
  assert (H : Permutation deny_reverse_attack reverse_attack_deny).
  { unfold deny_reverse_attack, reverse_attack_deny.
    eapply perm_trans; [apply perm_swap|]. apply perm_skip, perm_swap. }
  split; [exact H|].
  exact (proj1 (X9_severity_ignores_message_order _ _ H)).
Defined.

(* ================================================================== *)
(** * Further properties: the five detectors *)
(* ================================================================== *)

Lemma dict_ext {V : Type} (d d' : Dict V) :
  dict_keys d = dict_keys d' ->
  List.NoDup (dict_keys d) ->
  (forall k, List.In k (dict_keys d) -> dict_get d k = dict_get d' k) ->
  d = d'.
Proof.
  revert d'. induction d as [|[k v] d IH]; intros [|[k' v'] d'] Hk Hnd Hget;
    simpl in *; try discriminate; [reflexivity|].
  injection Hk as <- Hk. inversion Hnd as [|? ? Hnotin Hnd']; subst.
  pose proof (Hget k (or_introl eq_refl)) as Hv.
  rewrite String.eqb_refl in Hv. injection Hv as <-.
  f_equal. apply IH; [assumption|assumption|].
  intros k0 Hk0. specialize (Hget k0 (or_intror Hk0)).
  destruct (String.eqb_spec k0 k) as [E|]; [congruence|exact Hget].
Qed.

Lemma dict_keys_adjust {V : Type} (f : V -> V) (k : string) (d : Dict V) :
  dict_keys (dict_adjust f k d) = dict_keys d.
Proof.
  induction d as [|[k' v] d IH]; simpl; [reflexivity|].
  destruct (String.eqb k k'); simpl; [reflexivity|]. now rewrite IH.
Qed.

Lemma detect_patterns_keys table severity_of high_risk messages :
  forall initial,
    dict_keys (detect_patterns table severity_of high_risk initial messages)
    = dict_keys initial.
Proof.
  unfold detect_patterns.
  induction messages as [|m ms IH]; intros initial; simpl; [reflexivity|].
  rewrite IH. unfold detect_message. generalize initial. clear.
  induction table as [|[sc kws] table IH]; intros initial; simpl;
    [reflexivity|].
  rewrite IH. destruct (scan_keywords _ _); [|reflexivity].
  apply dict_keys_adjust.
Qed.

Lemma dict_get_tabulate {V : Type} (table : Dict (list string))
      (h : string -> V) (k : string) :
  List.In k (dict_keys table) ->
  dict_get (List.map (fun item : string * list string =>
                        (fst item, h (fst item))) table) k
  = Some (h k).
Proof.
  induction table as [|[k' v] table IH]; simpl; [tauto|].
  destruct (String.eqb_spec k k') as [->|Hne]; [reflexivity|].
  intros [H|H]; [congruence|auto].
Qed.

Lemma detector_result_eq table severity_of high_risk messages :
  List.NoDup (dict_keys table) ->
  detect_patterns table severity_of high_risk
                  (empty_results (dict_keys table)) messages
  = detector_result table severity_of high_risk messages.
Proof.
  intros Hnd.
  assert (Hkeys : dict_keys (empty_results (dict_keys table))
                  = dict_keys table).
  { unfold empty_results, dict_keys. rewrite List.map_map. simpl.
    apply List.map_id. }
  apply dict_ext.
  - rewrite detect_patterns_keys, Hkeys. unfold detector_result, dict_keys.
    rewrite List.map_map. reflexivity.
  - now rewrite detect_patterns_keys, Hkeys.
  - intros k Hk. rewrite detect_patterns_keys, Hkeys in Hk.
    rewrite detect_patterns_get by assumption.
    rewrite dict_get_empty_results by assumption.
    unfold detector_result.
    symmetry.
    exact (dict_get_tabulate table
             (fun sc =>
                let l := List.concat
                           (List.map (contribution table severity_of
                                                   high_risk sc) messages) in
                {| count := List.length l; instances := l |}) k Hk).
Qed.

Lemma contribution_sound table severity_of high_risk subcat m inst :
  List.In inst (contribution table severity_of high_risk subcat m) ->
  exists keywords,
    dict_get table subcat = Some keywords
    /\ List.In (inst_keyword inst) keywords
    /\ keyword_hit (inst_keyword inst) (lower_text m) = true
    /\ inst = make_instance severity_of high_risk m subcat
                            (inst_keyword inst).
Proof.
  unfold contribution.
  destruct (dict_get table subcat) as [keywords|]; [|intros []].
  destruct (scan_keywords (lower_text m) keywords) as [kw|] eqn:E;
    [|intros []].
  intros [<-|[]]. apply scan_keywords_some in E as (b & a & -> & Hk & _).
  exists (b ++ kw :: a). simpl.
  repeat split; auto. apply List.in_or_app. right. now left.
Qed.

Lemma contribution_length table severity_of high_risk subcat m :
  List.length (contribution table severity_of high_risk subcat m) <= 1.
Proof.
  unfold contribution. destruct (dict_get table subcat); [|simpl; lia].
  destruct (scan_keywords _ _); simpl; lia.
Qed.

Lemma detector_result_sound table severity_of high_risk messages :
  detector_sound table severity_of high_risk messages
                 (detector_result table severity_of high_risk messages).
Proof.
  unfold detector_sound, detector_result. split.
  - unfold dict_keys. rewrite List.map_map. reflexivity.
  - apply List.Forall_forall. intros kv Hkv.
    apply List.in_map_iff in Hkv as ([sc kws] & <- & Hitem). simpl.
    split; [reflexivity|]. split.
    + clear. induction messages as [|m ms IH]; simpl; [lia|].
      rewrite List.length_app.
      pose proof (contribution_length table severity_of high_risk sc m). lia.
    + apply List.Forall_forall. intros inst Hinst.
      apply List.in_concat in Hinst as (c & Hc & Hinst).
      apply List.in_map_iff in Hc as (m & <- & Hm).
      apply contribution_sound in Hinst as (keywords & H1 & H2 & H3 & H4).
      exists m, keywords. auto.
Qed.

(** X10.  Whatever the messages, each of the five detectors returns its
    table's subcategories in lexicon order; every subcategory's count is
    the length of its instance list and at most the number of messages; and
    every instance was built from a message of the input and a keyword of
    that subcategory that hits the message, with the subcategory's weight
    (5 and the high-risk mark for a child-focused one). *)
Theorem X10_detector_results_are_sound :
  forall messages : list Message,
    detector_sound Deny_table (severity_weight "Deny") None messages
                   (_detect_deny_patterns messages)
    /\ detector_sound Attack_table (severity_weight "Attack") None messages
                      (_detect_attack_patterns messages)
    /\ detector_sound Reverse_table
                      (severity_weight "Reverse_Victim_Offender") None
                      messages (_detect_reverse_patterns messages)
    /\ detector_sound Institutional_table
                      (severity_weight "Institutional_DARVO") None messages
                      (_detect_institutional_patterns messages)
    /\ detector_sound CHILD_FOCUSED_DARVO (fun _ => 5) (Some true) messages
                      (_detect_child_focused_patterns messages).
Proof.
  intros messages.
  destruct tables_distinct_keys as (Hd & Ha & Hr & Hi & Hc).
  unfold _detect_deny_patterns, _detect_attack_patterns,
    _detect_reverse_patterns, _detect_institutional_patterns,
    _detect_child_focused_patterns.
  change ["minimization"; "outright_denial"; "blame_shifting"]%string
    with (dict_keys Deny_table).
  change ["credibility_attacks"; "character_assassination";
          "threat_of_consequences"; "gaslighting"]%string
    with (dict_keys Attack_table).
  change ["self_victimization"; "victim_blaming"; "false_equivalence";
          "protective_parent_reversal"]%string
    with (dict_keys Reverse_table).
  change ["court_manipulation"; "professional_credibility";
          "systemic_bias_indicators"]%string
    with (dict_keys Institutional_table).
  change ["child_weaponization"; "parental_alienation_claims";
          "custody_threats"]%string
    with (dict_keys CHILD_FOCUSED_DARVO).
  rewrite !detector_result_eq by assumption.
  repeat split; apply detector_result_sound.
Qed.

Lemma dict_get_first {V : Type} (d : Dict V) (k : string) (v : V) :
  List.NoDup (dict_keys d) -> List.In (k, v) d -> dict_get d k = Some v.
Proof.
  induction d as [|[k0 v0] d IH]; simpl; [tauto|].
  intros Hnd [H|H].
  - injection H as -> ->. now rewrite String.eqb_refl.
  - inversion Hnd as [|? ? Hnotin Hnd']; subst.
    destruct (String.eqb_spec k k0) as [E|_]; [|auto].
    exfalso. apply Hnotin. rewrite <- E.
    unfold dict_keys. apply List.in_map_iff. now exists (k, v).
Qed.

Lemma list_sum_pointwise {A : Type} (f g : A -> nat) (l : list A) :
  List.list_sum (List.map (fun x => f x + g x) l)
  = List.list_sum (List.map f l) + List.list_sum (List.map g l).
Proof. induction l as [|x l IH]; simpl; lia. Qed.

Lemma list_sum_swap {A B : Type} (g : A -> B -> nat) (la : list A)
      (lb : list B) :
  List.list_sum (List.map (fun a => List.list_sum (List.map (g a) lb)) la)
  = List.list_sum
      (List.map (fun b => List.list_sum (List.map (fun a => g a b) la)) lb).
Proof.
  induction la as [|a la IH]; simpl.
  - induction lb as [|b lb IHb]; simpl; auto.
  - rewrite IH. symmetry. apply list_sum_pointwise.
Qed.

Lemma contribution_severity table severity_of high_risk subcat keywords
      messages :
  dict_get table subcat = Some keywords ->
  List.list_sum
    (List.map inst_severity
       (List.concat
          (List.map (contribution table severity_of high_risk subcat)
                    messages)))
  = List.list_sum
      (List.map (fun m => if any_hit (lower_text m) keywords
                          then severity_of subcat else 0) messages).
Proof.
  intros Hk. induction messages as [|m ms IH]; simpl; [reflexivity|].
  rewrite List.map_app, List.list_sum_app, IH. f_equal.
  unfold contribution. rewrite Hk. rewrite <- scan_keywords_any.
  destruct (scan_keywords (lower_text m) keywords); simpl; lia.
Qed.

Lemma detector_result_severity table severity_of high_risk messages :
  List.NoDup (dict_keys table) ->
  results_severity (detector_result table severity_of high_risk messages)
  = sum_over (fun m => category_sum (lower_text m) table severity_of)
             messages.
Proof.
  intros Hnd. unfold results_severity, detector_result, sum_over, category_sum.
  rewrite List.map_map. simpl.
  rewrite <- (list_sum_swap
                (fun (item : string * list string) (m : Message) =>
                   if any_hit (lower_text m) (snd item)
                   then severity_of (fst item) else 0)).
  f_equal. apply List.map_ext_in. intros [sc kws] Hin. simpl.
  apply contribution_severity. now apply dict_get_first.
Qed.

(** X11.  The total score computed by [_calculate_severity] is exactly the
    sum of the severities written on the instances that the five detectors
    record for the same messages: the two passes over the lexicon, although
    written separately, never disagree. *)
Theorem X11_total_score_is_sum_of_instance_severities :
  forall messages : list Message,
    total_score (_calculate_severity messages)
    = results_severity (_detect_deny_patterns messages)
      + results_severity (_detect_attack_patterns messages)
      + results_severity (_detect_reverse_patterns messages)
      + results_severity (_detect_institutional_patterns messages)
      + results_severity (_detect_child_focused_patterns messages).
Proof.
  intros messages.
  destruct tables_distinct_keys as (Hd & Ha & Hr & Hi & Hc).
  destruct (severity_closed_form messages) as [-> _].
  unfold _detect_deny_patterns, _detect_attack_patterns,
    _detect_reverse_patterns, _detect_institutional_patterns,
    _detect_child_focused_patterns.
  change ["minimization"; "outright_denial"; "blame_shifting"]%string
    with (dict_keys Deny_table).
  change ["credibility_attacks"; "character_assassination";
          "threat_of_consequences"; "gaslighting"]%string
    with (dict_keys Attack_table).
  change ["self_victimization"; "victim_blaming"; "false_equivalence";
          "protective_parent_reversal"]%string
    with (dict_keys Reverse_table).
  change ["court_manipulation"; "professional_credibility";
          "systemic_bias_indicators"]%string
    with (dict_keys Institutional_table).
  change ["child_weaponization"; "parental_alienation_claims";
          "custody_threats"]%string
    with (dict_keys CHILD_FOCUSED_DARVO).
  rewrite !detector_result_eq by assumption.
  rewrite !detector_result_severity by assumption.
  reflexivity.
Qed.

(* ================================================================== *)
(** * Further properties: the DARVO timeline *)
(* ================================================================== *)

Lemma bump_window_Forall (Q : Z * WindowCounts -> Prop)
      (f : WindowCounts -> WindowCounts) (key : Z)
      (tw : list (Z * WindowCounts)) :
  List.Forall Q tw ->
  Q (key, f empty_window) ->
  (forall w, Q (key, w) -> Q (key, f w)) ->
  List.Forall Q (bump_window f key tw).
Proof.
  intros Htw Hnew Hupd. induction Htw as [|[k w] tw Hq Htw IH]; simpl.
  - constructor; [assumption|constructor].
  - destruct (Z.eqb_spec key k) as [<-|Hne].
    + constructor; [now apply Hupd|assumption].
    + constructor; assumption.
Qed.

Lemma timeline_message_justified (messages : list Message) (m : Message)
      (tw : list (Z * WindowCounts)) :
  List.In m messages ->
  List.Forall (window_justified messages) tw ->
  List.Forall (window_justified messages) (timeline_message tw m).
Proof.
  intros Hin Htw. unfold timeline_message.
  destruct (msg_timestamp m) as [ts|] eqn:Hts; [|assumption].
  assert (Hstep : forall f tw0,
             (forall w, wc_total_score (f w) = wc_total_score w
                        /\ role_total (f w) = S (role_total w)) ->
             (role_hit Deny_table m || role_hit Attack_table m
              || role_hit Reverse_table m = true) ->
             List.Forall (window_justified messages) tw0 ->
             List.Forall (window_justified messages)
                         (bump_window f (week_key ts) tw0)).
  { intros f tw0 Hf Hhit H0.
    apply bump_window_Forall; [assumption| |].
    - destruct (Hf empty_window) as [H1 H2].
      unfold window_justified. simpl. rewrite H1, H2. simpl.
      split; [reflexivity|]. split; [lia|]. exists m, ts. auto.
    - intros w (H1 & H2 & H3). destruct (Hf w) as [H4 H5].
      unfold window_justified. simpl in *. rewrite H4, H5.
      split; [assumption|]. split; [lia|assumption]. }
  fold (role_hit Deny_table m). fold (role_hit Attack_table m).
  fold (role_hit Reverse_table m).
  destruct (role_hit Deny_table m) eqn:Ed;
    destruct (role_hit Attack_table m) eqn:Ea;
    destruct (role_hit Reverse_table m) eqn:Er;
    repeat (apply Hstep;
            [intros w; unfold role_total; simpl; split; [reflexivity|lia]
            |reflexivity|]);
    assumption.
Qed.

Lemma timeline_fold_justified (messages rest : list Message) :
  forall tw,
    List.incl rest messages ->
    List.Forall (window_justified messages) tw ->
    List.Forall (window_justified messages)
                (List.fold_left timeline_message rest tw).
Proof.
  induction rest as [|m rest IH]; intros tw Hincl Htw; simpl; [assumption|].
  apply IH.
  - intros x Hx. apply Hincl. now right.
  - apply timeline_message_justified; [|assumption].
    apply Hincl. now left.
Qed.

Lemma timeline_windows_justified (messages : list Message) :
  List.Forall (window_justified messages)
              (List.fold_left timeline_message messages []).
Proof.
  apply timeline_fold_justified; [apply List.incl_refl|constructor].
Qed.

Lemma timestamps_length (messages : list Message) :
  List.length (timestamps messages)
  = List.length (List.filter has_timestamp messages).
Proof.
  unfold timestamps, has_timestamp.
  induction messages as [|m ms IH]; simpl; [reflexivity|].
  destruct (msg_timestamp m); simpl; now rewrite ?IH.
Qed.

Lemma timeline_keys_are_weeks (messages : list Message) :
  List.incl (List.map fst (List.fold_left timeline_message messages []))
            (List.map week_key (timestamps messages)).
Proof.
  intros k Hk. apply List.in_map_iff in Hk as (kw & <- & Hkw).
  pose proof (timeline_windows_justified messages) as Hall.
  rewrite List.Forall_forall in Hall.
  destruct (Hall kw Hkw) as (_ & _ & m & ts & Hm & Hts & <- & _).
  apply List.in_map. unfold timestamps. apply List.in_flat_map.
  exists m. split; [assumption|]. rewrite Hts. now left.
Qed.

Lemma timeline_total_score_zero (messages : list Message) (key : Z) :
  wc_total_score
    (window_get (List.fold_left timeline_message messages []) key) = 0.
Proof.
  set (tw := List.fold_left timeline_message messages []).
  destruct (List.in_dec Z.eq_dec key (List.map fst tw)) as [Hin|Hout].
  - apply window_get_in in Hin.
    pose proof (timeline_windows_justified messages) as Hall.
    rewrite List.Forall_forall in Hall.
    destruct (Hall _ Hin) as [H _]. exact H.
  - now rewrite window_get_missing.
Qed.

Lemma timeline_key_iff (messages : list Message) (key : Z) :
  let tw := List.fold_left timeline_message messages [] in
  List.In key (List.map fst tw) <-> 1 <= role_total (window_get tw key).
Proof.
  intros tw. split.
  - intros Hin. apply window_get_in in Hin.
    pose proof (timeline_windows_justified messages) as Hall.
    rewrite List.Forall_forall in Hall.
    destruct (Hall _ Hin) as (_ & H & _). exact H.
  - intros H.
    destruct (List.in_dec Z.eq_dec key (List.map fst tw)) as [Hin|Hout];
      [assumption|].
    rewrite window_get_missing in H by assumption.
    unfold role_total in H. simpl in H. lia.
Qed.

Lemma week_hit_has_window (messages : list Message) (m : Message)
      (ts : datetime) :
  List.In m messages ->
  msg_timestamp m = Some ts ->
  (role_hit Deny_table m || role_hit Attack_table m
   || role_hit Reverse_table m = true) ->
  List.In (week_key ts)
          (List.map fst (List.fold_left timeline_message messages [])).
Proof.
  intros Hin Hts Hhit. apply timeline_key_iff.
  destruct (timeline_counts messages (week_key ts) []) as (Hd & Ha & Hr).
  simpl in Hd, Ha, Hr. unfold role_total. rewrite Hd, Ha, Hr.
  assert (Hweek : forall table,
             role_hit table m = true ->
             1 <= List.length (week_hits table (week_key ts) messages)).
  { intros table Ht.
    assert (Hm : List.In m (week_hits table (week_key ts) messages)).
    { unfold week_hits. apply List.filter_In. split; [assumption|].
      unfold in_week. now rewrite Hts, Z.eqb_refl, Ht. }
    destruct (week_hits table (week_key ts) messages); [destruct Hm|].
    simpl. lia. }
  apply orb_true_iff in Hhit as [Hhit|Hhit];
    [apply orb_true_iff in Hhit as [Hhit|Hhit]|];
    apply Hweek in Hhit; lia.
Qed.

(** X12.  Invariants of the timeline's [time_windows].  Every window that
    exists is keyed by a Monday that is the week of some timestamped
    message matching a deny, attack or reverse keyword, counts at least one
    role hit, and still has [total_score] 0: that field is initialised and
    never updated.  Conversely every such message has a window for its
    week, so the keys are exactly the weeks with a matching message.  The
    weeks are never more than the timestamped messages. *)
Theorem X12_timeline_window_invariants :
  forall messages : list Message,
    let t := _analyze_timeline messages in
    List.Forall (window_justified messages) (timeline_windows t)
    /\ List.Forall (fun kw => (fst kw mod 7 = 0)%Z) (timeline_windows t)
    /\ List.length (timeline_windows t)
       <= List.length (List.filter has_timestamp messages)
    /\ (forall key : Z,
           List.In key (List.map fst (timeline_windows t))
           <-> exists (m : Message) (ts : datetime),
                 List.In m messages
                 /\ msg_timestamp m = Some ts
                 /\ week_key ts = key
                 /\ (role_hit Deny_table m || role_hit Attack_table m
                     || role_hit Reverse_table m = true))
    /\ (List.existsb
          (fun m => has_timestamp m
                    && (role_hit Deny_table m || role_hit Attack_table m
                        || role_hit Reverse_table m)) messages = false ->
        timeline_windows t = []
        /\ escalation_flag t <> Some true).
Proof.
  intros messages t.
  assert (Hj : List.Forall (window_justified messages) (timeline_windows t)).
  { unfold t, _analyze_timeline.
    destruct (List.existsb has_timestamp messages); simpl; [|constructor].
    apply timeline_windows_justified. }
  split; [exact Hj|]. split.
  { eapply List.Forall_impl; [|exact Hj].
    intros kw (_ & _ & m & ts & _ & _ & <- & _).
    apply week_key_is_monday. }
  split.
  { unfold t, _analyze_timeline.
    destruct (List.existsb has_timestamp messages); simpl; [|lia].
    rewrite <- timestamps_length.
    rewrite <- (List.length_map week_key (timestamps messages)).
    rewrite <- (List.length_map fst
                  (List.fold_left timeline_message messages [])).
    apply List.NoDup_incl_length.
    - apply timeline_windows_NoDup. constructor.
    - apply timeline_keys_are_weeks. }
  split.
  { intros key. split.
    - intros Hkey. apply List.in_map_iff in Hkey as (kw & <- & Hkw).
      rewrite List.Forall_forall in Hj.
      destruct (Hj kw Hkw) as (_ & _ & m & ts & H1 & H2 & H3 & H4).
      exists m, ts. auto.
    - intros (m & ts & Hm & Hts & <- & Hhit).
      unfold t, _analyze_timeline.
      assert (Hdated : List.existsb has_timestamp messages = true).
      { apply List.existsb_exists. exists m. split; [assumption|].
        unfold has_timestamp. now rewrite Hts. }
      rewrite Hdated. simpl. now apply (week_hit_has_window messages m ts). }
  intros Hnone.
  assert (Hnil : timeline_windows t = []).
  { destruct (timeline_windows t) as [|kw tw]; [reflexivity|].
    apply List.Forall_inv in Hj.
    destruct Hj as (_ & _ & m & ts & Hm & Hts & _ & Hhit).
    assert (List.existsb
              (fun m => has_timestamp m
                        && (role_hit Deny_table m || role_hit Attack_table m
                            || role_hit Reverse_table m)) messages = true);
      [|congruence].
    apply List.existsb_exists. exists m. split; [assumption|].
    unfold has_timestamp. rewrite Hts. simpl. exact Hhit. }
  split; [exact Hnil|].
  unfold t, _analyze_timeline in *.
  destruct (List.existsb has_timestamp messages); simpl in *; [|discriminate].
  rewrite Hnil. simpl. discriminate.
Qed.

Lemma X12_timeline_window_invariants_witness :
  timeline_windows
    (_analyze_timeline
       [timed_message "see you at eight" (Datetime.make 2024 1 3 10 0)])
  = [].
Proof.
  refine (proj1 (proj2 (proj2 (proj2 (proj2
            (X12_timeline_window_invariants
               [timed_message "see you at eight"
                              (Datetime.make 2024 1 3 10 0)])))) _)).
  vm_compute. reflexivity.
Defined.

Lemma sorted_perm_eq (l1 l2 : list Z) :
  StronglySorted Z.le l1 -> StronglySorted Z.le l2 -> Permutation l1 l2 ->
  l1 = l2.
Proof.
  revert l2. induction l1 as [|x l1 IH]; intros l2 H1 H2 Hp.
  - now apply Permutation_nil in Hp.
  - destruct l2 as [|y l2];
      [apply Permutation_sym, Permutation_nil in Hp; discriminate|].
    apply StronglySorted_inv in H1 as [H1 Hx].
    apply StronglySorted_inv in H2 as [H2 Hy].
    rewrite List.Forall_forall in Hx, Hy.
    assert (Hxy : x = y).
    { assert (Hin1 : List.In x (y :: l2))
        by (eapply Permutation_in; [exact Hp|now left]).
      assert (Hin2 : List.In y (x :: l1))
        by (eapply Permutation_in;
            [apply Permutation_sym; exact Hp|now left]).
      destruct Hin1 as [E|Hin1]; [congruence|].
      destruct Hin2 as [E|Hin2]; [congruence|].
      specialize (Hx y Hin2). specialize (Hy x Hin1). lia. }
    subst y. f_equal. apply IH; [assumption|assumption|].
    eapply Permutation_cons_inv; exact Hp.
Qed.

Lemma timeline_window_perm (messages messages' : list Message) (key : Z) :
  Permutation messages messages' ->
  window_get (List.fold_left timeline_message messages []) key
  = window_get (List.fold_left timeline_message messages' []) key.
Proof.
  intros Hp.
  destruct (timeline_counts messages key []) as (Hd & Ha & Hr).
  destruct (timeline_counts messages' key []) as (Hd' & Ha' & Hr').
  pose proof (timeline_total_score_zero messages key) as Hs.
  pose proof (timeline_total_score_zero messages' key) as Hs'.
  unfold week_hits in *.
  rewrite (filter_length_perm (in_week Deny_table key) _ _ Hp) in Hd.
  rewrite (filter_length_perm (in_week Attack_table key) _ _ Hp) in Ha.
  rewrite (filter_length_perm (in_week Reverse_table key) _ _ Hp) in Hr.
  destruct (window_get (List.fold_left timeline_message messages []) key).
  destruct (window_get (List.fold_left timeline_message messages' []) key).
  simpl in *. congruence.
Qed.

Lemma timeline_keys_perm (messages messages' : list Message) :
  Permutation messages messages' ->
  Permutation
    (List.map fst (List.fold_left timeline_message messages []))
    (List.map fst (List.fold_left timeline_message messages' [])).
Proof.
  intros Hp. apply Stdlib.Sorting.Permutation.NoDup_Permutation.
  - apply timeline_windows_NoDup. constructor.
  - apply timeline_windows_NoDup. constructor.
  - intros key. rewrite (timeline_key_iff messages key).
    rewrite (timeline_key_iff messages' key).
    now rewrite (timeline_window_perm messages messages' key Hp).
Qed.

Lemma existsb_perm {A : Type} (P : A -> bool) (l l' : list A) :
  Permutation l l' -> List.existsb P l = List.existsb P l'.
Proof.
  induction 1 as [|x l l' _ IH|x y l|l l' l'' _ IH1 _ IH2]; simpl.
  - reflexivity.
  - now rewrite IH.
  - destruct (P x), (P y); reflexivity.
  - congruence.
Qed.

(** X13.  The timeline does not depend on the order of the messages.  For
    two orderings of the same messages [time_windows] holds the same weeks
    with the same counters (as a dictionary: the entries are a permutation
    of each other), and [escalation_detected] and [total_weeks] are
    equal. *)
Theorem X13_timeline_ignores_message_order :
  forall messages messages' : list Message,
    Permutation messages messages' ->
    let t := _analyze_timeline messages in
    let t' := _analyze_timeline messages' in
    Permutation (timeline_windows t) (timeline_windows t')
    /\ (forall key : Z,
           window_get (timeline_windows t) key
           = window_get (timeline_windows t') key)
    /\ escalation_flag t = escalation_flag t'
    /\ timeline_weeks t = timeline_weeks t'.
Proof.
  intros messages messages' Hp t t'.
  pose proof (timeline_keys_perm messages messages' Hp) as Hkeys.
  pose proof (fun key => timeline_window_perm messages messages' key Hp)
    as Hget.
  assert (Hsorted :
            sorted_keys
              (List.map fst (List.fold_left timeline_message messages []))
            = sorted_keys
                (List.map fst (List.fold_left timeline_message messages' []))).
  { apply sorted_perm_eq; try apply sorted_keys_sorted.
    rewrite !sorted_keys_perm. exact Hkeys. }
  assert (Hnd : forall ms,
             List.NoDup (List.map fst
                           (List.fold_left timeline_message ms [])))
    by (intros ms; apply timeline_windows_NoDup; constructor).
  unfold t, t', _analyze_timeline.
  rewrite <- (existsb_perm has_timestamp _ _ Hp).
  destruct (List.existsb has_timestamp messages); simpl;
    [|repeat split; constructor].
  split.
  { apply Stdlib.Sorting.Permutation.NoDup_Permutation.
    - eapply List.NoDup_map_inv. apply Hnd.
    - eapply List.NoDup_map_inv. apply Hnd.
    - intros [k w]. split; intros Hin.
      + pose proof (window_get_unique _ _ _ (Hnd messages) Hin) as E.
        rewrite Hget in E. rewrite <- E. apply window_get_in.
        eapply Permutation_in; [exact Hkeys|].
        apply List.in_map_iff. now exists (k, w).
      + pose proof (window_get_unique _ _ _ (Hnd messages') Hin) as E.
        rewrite <- Hget in E. rewrite <- E. apply window_get_in.
        eapply Permutation_in; [apply Permutation_sym; exact Hkeys|].
        apply List.in_map_iff. now exists (k, w). }
  split; [exact Hget|].
  rewrite Hsorted. split; [|reflexivity].
  unfold detect_escalation_windows. rewrite !Hget. reflexivity.
Qed.

Lemma X13_timeline_ignores_message_order_witness :
  Permutation one_week_messages one_week_reversed
  /\ escalation_flag (_analyze_timeline one_week_messages)
     = escalation_flag (_analyze_timeline one_week_reversed).
Proof.
  assert (Hp : Permutation one_week_messages one_week_reversed)
    by apply perm_swap.
  split; [exact Hp|].
  exact (proj1 (proj2 (proj2
           (X13_timeline_ignores_message_order
              one_week_messages one_week_reversed Hp)))).
Defined.

Lemma single_week_timeline :
  forall (messages : list Message) (week : Z),
    (forall (m : Message) (ts : datetime),
        List.In m messages -> msg_timestamp m = Some ts ->
        week_key ts = week) ->
    let t := _analyze_timeline messages in
    List.length (timeline_windows t) <= 1
    /\ escalation_flag t <> Some true.
Proof.
  intros messages week Hweek t.
  assert (Hlen : List.length
                   (List.map fst
                      (List.fold_left timeline_message messages [])) <= 1).
  { change 1 with (List.length [week]). apply List.NoDup_incl_length.
    - apply timeline_windows_NoDup. constructor.
    - intros k Hk. apply timeline_keys_are_weeks in Hk.
      apply List.in_map_iff in Hk as (ts & <- & Hts).
      unfold timestamps in Hts. apply List.in_flat_map in Hts as (m & Hm & H).
      destruct (msg_timestamp m) as [ts'|] eqn:E; [|destruct H].
      destruct H as [->|[]]. left. symmetry. eapply Hweek; eauto. }
  unfold t, _analyze_timeline.
  destruct (List.existsb has_timestamp messages); simpl;
    [|split; [lia|discriminate]].
  rewrite List.length_map in Hlen. split; [exact Hlen|].
  unfold detect_escalation_windows.
  rewrite (Permutation_length (sorted_keys_perm _)), List.length_map.
  destruct (Nat.leb_spec 2
              (List.length (List.fold_left timeline_message messages [])));
    [lia|discriminate].
Qed.

(** X14.  When all timestamped messages fall in one calendar week (Monday
    to Sunday) the timeline has at most one window and reports no
    escalation, however many keyword hits the week holds. *)
Theorem X14_one_week_never_escalates :
  forall (messages : list Message) (week : Z),
    (forall (m : Message) (ts : datetime),
        List.In m messages -> msg_timestamp m = Some ts ->
        week_key ts = week) ->
    let t := _analyze_timeline messages in
    List.length (timeline_windows t) <= 1
    /\ escalation_flag t <> Some true.
Proof. exact single_week_timeline. Qed.

Lemma X14_one_week_never_escalates_witness :
  escalation_flag (_analyze_timeline one_week_messages) <> Some true.
Proof.
  refine (proj2 (X14_one_week_never_escalates one_week_messages 738885 _)).
  intros m ts [<-|[<-|[]]] [= <-]; vm_compute; reflexivity.
Defined.

(* ================================================================== *)
(** * Further properties: [AbusePatternEngine] *)
(* ================================================================== *)

Lemma extend_entry_app (entry : option (list string)) (l1 l2 : list string) :
  extend_entry (extend_entry entry l1) l2 = extend_entry entry (l1 ++ l2).
Proof.
  destruct l1 as [|a l1]; [reflexivity|].
  destruct l2 as [|b l2]; simpl; [now rewrite List.app_nil_r|].
  destruct entry; simpl; now rewrite <- ?List.app_assoc.
Qed.

Lemma dict_get_append (d : Dict (list string)) (k v c : string) :
  dict_get (dict_append d k v) c
  = if String.eqb c k then extend_entry (dict_get d k) [v]
    else dict_get d c.
Proof.
  induction d as [|[k' vs] d IH]; simpl.
  - destruct (String.eqb c k); reflexivity.
  - destruct (String.eqb_spec k k') as [->|Hne]; simpl.
    + destruct (String.eqb_spec c k'); reflexivity.
    + rewrite IH. destruct (String.eqb_spec c k') as [->|];
        destruct (String.eqb_spec k' k); try congruence; reflexivity.
Qed.

Lemma dict_append_keys (d : Dict (list string)) (k v : string) :
  dict_keys (dict_append d k v)
  = if List.existsb (String.eqb k) (dict_keys d) then dict_keys d
    else dict_keys d ++ [k].
Proof.
  induction d as [|[k' vs] d IH]; simpl; [reflexivity|].
  destruct (String.eqb k k'); simpl; [reflexivity|].
  rewrite IH. destruct (List.existsb _ _); reflexivity.
Qed.

Lemma dict_append_NoDup (d : Dict (list string)) (k v : string) :
  List.NoDup (dict_keys d) -> List.NoDup (dict_keys (dict_append d k v)).
Proof.
  intros H. rewrite dict_append_keys.
  destruct (List.existsb _ _) eqn:E; [assumption|].
  apply List.NoDup_app; [assumption|repeat constructor; simpl; tauto|].
  intros x Hx [->|[]].
  assert (List.existsb (String.eqb x) (dict_keys d) = true); [|congruence].
  apply List.existsb_exists. exists x. split; [assumption|].
  apply String.eqb_refl.
Qed.

Lemma keyword_detected_detects (self : AbusePatternEngine)
      (text kw : string) :
  keyword_detected self text kw = Some (detects self text kw).
Proof.
  unfold keyword_detected, detects.
  destruct (synonym_match self text kw); [reflexivity|].
  destruct (fuzzy_match_needs_similar_lengths self text kw) as [[hit ->] _].
  reflexivity.
Qed.

Lemma analyze_keywords_spec (self : AbusePatternEngine)
      (text category : string) (keywords : list string) :
  forall results,
    List.NoDup (dict_keys results) ->
    exists results',
      analyze_keywords self text category keywords results = Some results'
      /\ List.NoDup (dict_keys results')
      /\ forall c,
          dict_get results' c
          = if String.eqb c category
            then extend_entry (dict_get results category)
                              (List.filter (detects self text) keywords)
            else dict_get results c.
Proof.
  induction keywords as [|kw kws IH]; intros results Hnd; simpl.
  - exists results. split; [reflexivity|]. split; [assumption|].
    intros c. destruct (String.eqb_spec c category) as [->|]; reflexivity.
  - rewrite keyword_detected_detects.
    destruct (detects self text kw) eqn:E.
    + destruct (IH (dict_append results category kw)
                   (dict_append_NoDup _ _ _ Hnd)) as (r & -> & Hr & Hget).
      exists r. split; [reflexivity|]. split; [assumption|].
      intros c. rewrite Hget, !dict_get_append, String.eqb_refl.
      destruct (String.eqb c category); [|reflexivity].
      apply (extend_entry_app _ [kw]).
    + destruct (IH results Hnd) as (r & -> & Hr & Hget).
      exists r. auto.
Qed.

Lemma analyze_categories_spec (self : AbusePatternEngine) (text : string)
      (items : Dict (list string)) :
  forall results,
    List.NoDup (dict_keys results) ->
    exists results',
      analyze_categories self text items results = Some results'
      /\ List.NoDup (dict_keys results')
      /\ forall c,
          dict_get results' c
          = extend_entry (dict_get results c)
              (List.filter (detects self text) (category_keywords items c)).
Proof.
  induction items as [|[category keywords] items IH]; intros results Hnd;
    simpl.
  - exists results. auto.
  - destruct (analyze_keywords_spec self text category keywords results Hnd)
      as (r1 & -> & Hnd1 & Hget1).
    destruct (IH r1 Hnd1) as (r2 & -> & Hnd2 & Hget2).
    exists r2. split; [reflexivity|]. split; [assumption|].
    intros c. rewrite Hget2, Hget1, List.filter_app.
    rewrite (String.eqb_sym category c).
    destruct (String.eqb_spec c category) as [->|Hne].
    + apply extend_entry_app.
    + reflexivity.
Qed.

(** [analyze_message] always returns (the matcher never runs out of fuel),
    with distinct categories, and what it holds under a category is exactly
    the detected keywords of that category when there are any. *)
Lemma analyze_message_total (self : AbusePatternEngine) (m : Message) :
  analyze_message self m = Some (analyze_message_value self m)
  /\ List.NoDup (dict_keys (analyze_message_value self m))
  /\ forall c,
      dict_get (analyze_message_value self m) c
      = extend_entry None (detected_keywords self m c).
Proof.
  unfold analyze_message_value, analyze_message, detected_keywords.
  destruct (analyze_categories_spec self
              (string_of_list_ascii (lower_text m)) (indicators self) []
              (List.NoDup_nil _)) as (r & -> & Hnd & Hget).
  split; [reflexivity|]. split; [assumption|]. exact Hget.
Qed.

Lemma dict_get_key_value {V : Type} (d : Dict V) (k : string) (v : V) :
  List.In (k, v) d -> exists v', dict_get d k = Some v'.
Proof.
  induction d as [|[k0 v0] d IH]; simpl; [tauto|].
  intros [H|H]; destruct (String.eqb_spec k k0); eauto; congruence.
Qed.

Lemma lower_text_twice (m : Message) :
  Text.lower (Text.chars (string_of_list_ascii (lower_text m)))
  = lower_text m.
Proof.
  unfold Text.chars. rewrite list_ascii_of_string_of_list_ascii.
  unfold lower_text, Text.lower. rewrite List.map_map.
  apply List.map_ext. intros c.
  destruct c as [[] [] [] [] [] [] [] []]; reflexivity.
Qed.

(** X15.  [analyze_message] always returns a dictionary.  Its categories
    are distinct; under a category it holds, in lexicon order, exactly the
    keywords of that category for which [synonym_match] or [fuzzy_match]
    holds, and a category with no such keyword is absent (so no category
    maps to an empty list).  In particular a keyword that occurs in the
    lower-cased text, even inside a longer word, is always reported. *)
Theorem X15_analyze_message_reports_detected_keywords :
  forall (self : AbusePatternEngine) (m : Message),
    exists results : Dict (list string),
      analyze_message self m = Some results
      /\ List.NoDup (dict_keys results)
      /\ (forall category : string,
             dict_get results category
             = match detected_keywords self m category with
               | [] => None
               | kw :: kws => Some (kw :: kws)
               end)
      /\ List.Forall (fun entry => snd entry <> []) results
      /\ (forall (category kw : string) (keywords : list string),
             List.In (category, keywords) (indicators self) ->
             List.In kw keywords ->
             Text.contains (Text.chars kw) (lower_text m) = true ->
             exists found,
               dict_get results category = Some found /\ List.In kw found).
Proof.
  intros self m.
  destruct (analyze_message_total self m) as (Hrun & Hnd & Hget).
  exists (analyze_message_value self m).
  assert (Hget' : forall category : string,
             dict_get (analyze_message_value self m) category
             = match detected_keywords self m category with
               | [] => None
               | kw :: kws => Some (kw :: kws)
               end).
  { intros category. rewrite Hget.
    destruct (detected_keywords self m category); reflexivity. }
  split; [exact Hrun|]. split; [exact Hnd|]. split; [exact Hget'|]. split.
  - apply List.Forall_forall. intros [c l] Hin. simpl.
    pose proof (dict_get_first _ _ _ Hnd Hin) as E. rewrite Hget' in E.
    destruct (detected_keywords self m c); [discriminate|].
    injection E as <-. discriminate.
  - intros category kw keywords Hitem Hkw Hcontains.
    assert (Hdet : List.In kw (detected_keywords self m category)).
    { unfold detected_keywords. apply List.filter_In. split.
      - unfold category_keywords. apply List.in_flat_map.
        exists (category, keywords). split; [assumption|]. simpl.
        now rewrite String.eqb_refl.
      - unfold detects, synonym_match. rewrite lower_text_twice, Hcontains.
        destruct (dict_get (synonyms self) kw); simpl;
          now rewrite ?orb_true_r. }
    rewrite Hget'.
    destruct (detected_keywords self m category) as [|k ks];
      [destruct Hdet|].
    eexists. split; [reflexivity|exact Hdet].
Qed.

Lemma X15_analyze_message_reports_detected_keywords_witness :
  exists results found,
    analyze_message worthless_engine
                    (text_message "You are WORTHLESS to me") = Some results
    /\ dict_get results "Emotional Abuse / Degradation" = Some found
    /\ List.In "worthless"%string found.
Proof.
  destruct (X15_analyze_message_reports_detected_keywords
              worthless_engine (text_message "You are WORTHLESS to me"))
    as (results & Hrun & _ & _ & _ & Hfound).
  destruct (Hfound "Emotional Abuse / Degradation"%string
                   "worthless"%string ["worthless"%string])
    as (found & Hget & Hin).
  - now left.
  - now left.
  - vm_compute. reflexivity.
  - exists results, found. auto.
Defined.

Lemma lower_char_not_upper (c : ascii) :
  Text.is_upper (Text.lower_char c) = false.
Proof. destruct c as [[] [] [] [] [] [] [] []]; reflexivity. Qed.

(** X16.  [synonym_match] looks for the keyword as it is written inside the
    lower-cased text.  A keyword that contains a capital letter and has no
    synonym entry therefore never matches, whatever the text. *)
Theorem X16_capital_keyword_never_matches_literally :
  forall (self : AbusePatternEngine) (text kw : string),
    List.existsb Text.is_upper (Text.chars kw) = true ->
    dict_get (synonyms self) kw = None ->
    synonym_match self text kw = false.
Proof.
  intros self text kw Hup Hsyn. unfold synonym_match. rewrite Hsyn.
  destruct (Text.contains (Text.chars kw) (Text.lower (Text.chars text)))
    eqn:E; [|reflexivity].
  apply contains_spec in E as (pre & post & E).
  apply List.existsb_exists in Hup as (c & Hc & Hupper).
  assert (Hin : List.In c (Text.lower (Text.chars text))).
  { rewrite E. apply List.in_or_app. right. apply List.in_or_app. now left. }
  unfold Text.lower in Hin. apply List.in_map_iff in Hin as (c' & <- & _).
  now rewrite lower_char_not_upper in Hupper.
Qed.

Lemma X16_capital_keyword_never_matches_literally_witness :
  synonym_match capital_engine "you are Crazy" "Crazy" = false.
Proof.
  apply X16_capital_keyword_never_matches_literally; reflexivity.
Defined.

Lemma adjacent_split {A : Type} (l : list A) (i : nat) :
  S i < List.length l ->
  exists before x y after,
    l = before ++ x :: y :: after /\ List.length before = i.
Proof.
  revert l. induction i as [|i IH]; intros l Hlen.
  - destruct l as [|x [|y l]]; simpl in Hlen; try lia.
    exists [], x, y, l. auto.
  - destruct l as [|a l]; simpl in Hlen; [lia|].
    destruct (IH l) as (before & x & y & after & -> & Hb); [lia|].
    exists (a :: before), x, y, after. simpl. auto.
Qed.

Lemma nth_adjacent (before after : list nat) (x y : nat) :
  List.nth (List.length before) (before ++ x :: y :: after) 0 = x
  /\ List.nth (S (List.length before)) (before ++ x :: y :: after) 0 = y.
Proof. induction before as [|a before IH]; simpl; auto. Qed.

(** X17.  [detect_escalation] is true exactly when some message is
    directly followed by a message for which [analyze_message] reports
    more categories; fewer than two messages never escalate. *)
Theorem X17_detect_escalation_is_adjacent_increase :
  forall (self : AbusePatternEngine) (messages : list Message),
    (detect_escalation self messages = true
     <-> adjacent_increase self messages)
    /\ (Nat.ltb (List.length messages) 2 = true ->
        detect_escalation self messages = false).
Proof.
  intros self messages.
  assert (Hiff : detect_escalation self messages = true
                 <-> adjacent_increase self messages).
  { unfold detect_escalation, adjacent_increase.
    fold (category_count self).
    rewrite List.existsb_exists, List.length_map. split.
    - intros (i & Hi & Hlt). apply List.in_seq in Hi.
      destruct (adjacent_split messages i) as (before & m1 & m2 & after
                                               & -> & Hb); [lia|].
      exists before, m1, m2, after. split; [reflexivity|].
      apply Nat.ltb_lt in Hlt. subst i.
      rewrite List.map_app in Hlt. simpl in Hlt.
      rewrite <- (List.length_map (category_count self) before) in Hlt.
      destruct (nth_adjacent (List.map (category_count self) before)
                             (List.map (category_count self) after)
                             (category_count self m1)
                             (category_count self m2)) as [E1 E2].
      rewrite E1, E2 in Hlt. exact Hlt.
    - intros (before & m1 & m2 & after & -> & Hlt).
      exists (List.length before). split.
      + apply List.in_seq. rewrite List.length_app. simpl. lia.
      + apply Nat.ltb_lt. rewrite List.map_app. simpl.
        rewrite <- (List.length_map (category_count self) before).
        destruct (nth_adjacent (List.map (category_count self) before)
                               (List.map (category_count self) after)
                               (category_count self m1)
                               (category_count self m2)) as [E1 E2].
        rewrite E1, E2. exact Hlt. }
  split; [exact Hiff|].
  intros Hshort. apply Nat.ltb_lt in Hshort.
  assert (Hno : ~ adjacent_increase self messages).
  { intros (before & m1 & m2 & after & -> & _).
    rewrite List.length_app in Hshort. simpl in Hshort. lia. }
  destruct (detect_escalation self messages); [|reflexivity].
  exfalso. apply Hno, Hiff. reflexivity.
Qed.

Lemma X17_detect_escalation_is_adjacent_increase_witness :
  detect_escalation worthless_engine [text_message "you are worthless"]
  = false.
Proof.
  apply (proj2 (X17_detect_escalation_is_adjacent_increase
                  worthless_engine [text_message "you are worthless"])).
  reflexivity.
Defined.

Lemma cycle_loop_spec (self : AbusePatternEngine) (messages : list Message) :
  forall (last_cat : string) (cycle_count : nat),
    cycle_loop self (Some last_cat) cycle_count messages
    = cycle_count
      + adjacent_repeats (last_cat :: first_categories self messages).
Proof.
  induction messages as [|m ms IH]; intros last_cat cycle_count;
    [simpl; lia|].
  cbn [cycle_loop first_categories List.flat_map].
  fold (first_categories self ms).
  destruct (dict_keys (analyze_message_value self m)) as [|cat cats].
  - apply IH.
  - rewrite IH. cbn [List.app adjacent_repeats].
    destruct (String.eqb cat last_cat); lia.
Qed.

Lemma adjacent_repeats_bound (l : list string) :
  adjacent_repeats l <= List.length l - 1.
Proof.
  induction l as [|a [|b l] IH]; simpl in *; try lia.
  destruct (String.eqb b a); lia.
Qed.

Lemma first_categories_length (self : AbusePatternEngine)
      (messages : list Message) :
  List.length (first_categories self messages)
  = List.length
      (List.filter (fun m => Nat.ltb 0 (category_count self m)) messages).
Proof.
  unfold first_categories, category_count, dict_keys.
  induction messages as [|m ms IH]; simpl; [reflexivity|].
  destruct (analyze_message_value self m); simpl; now rewrite ?IH.
Qed.

(** X18.  [detect_cycle] counts how often the first category reported for
    a message equals the first category of the previous message that had
    any, skipping messages without detections, and answers true when this
    happens more than twice.  So it can only be true when at least four
    messages have detections. *)
Theorem X18_detect_cycle_counts_repeated_first_category :
  forall (self : AbusePatternEngine) (messages : list Message),
    detect_cycle self messages
    = Nat.ltb 2 (adjacent_repeats (first_categories self messages))
    /\ (detect_cycle self messages = true ->
        4 <= List.length
               (List.filter (fun m => Nat.ltb 0 (category_count self m))
                            messages)).
Proof.
  intros self messages.
  assert (H : cycle_loop self None 0 messages
              = adjacent_repeats (first_categories self messages)).
  { induction messages as [|m ms IH]; [reflexivity|].
    cbn [cycle_loop first_categories List.flat_map].
    fold (first_categories self ms).
    destruct (dict_keys (analyze_message_value self m)) as [|cat cats].
    - exact IH.
    - rewrite cycle_loop_spec. reflexivity. }
  unfold detect_cycle. rewrite H. split; [reflexivity|].
  intros Hc. apply Nat.ltb_lt in Hc.
  rewrite <- first_categories_length.
  pose proof (adjacent_repeats_bound (first_categories self messages)). lia.
Qed.

Lemma X18_detect_cycle_counts_repeated_first_category_witness :
  4 <= List.length
         (List.filter
            (fun m => Nat.ltb 0 (category_count worthless_engine m))
            four_insults).
Proof.
  apply (proj2 (X18_detect_cycle_counts_repeated_first_category
                  worthless_engine four_insults)).
  vm_compute. reflexivity.
Defined.

Lemma dict_get_extend (d : Dict (list string)) (k c : string)
      (kws : list string) :
  kws <> [] ->
  dict_get (dict_extend d k kws) c
  = if String.eqb c k then extend_entry (dict_get d k) kws
    else dict_get d c.
Proof.
  intros Hne.
  assert (E : forall entry, extend_entry entry kws
                            = Some (match entry with
                                    | Some l => l ++ kws
                                    | None => kws
                                    end))
    by (intros entry; destruct kws; [congruence|reflexivity]).
  rewrite E. clear E.
  induction d as [|[k' vs] d IH]; simpl.
  - destruct (String.eqb c k); reflexivity.
  - destruct (String.eqb_spec k k') as [->|Hk]; simpl.
    + destruct (String.eqb_spec c k'); reflexivity.
    + rewrite IH. destruct (String.eqb_spec c k') as [->|];
        destruct (String.eqb_spec k' k); try congruence; reflexivity.
Qed.

Lemma dict_extend_keys (d : Dict (list string)) (k : string)
      (kws : list string) :
  dict_keys (dict_extend d k kws)
  = if List.existsb (String.eqb k) (dict_keys d) then dict_keys d
    else dict_keys d ++ [k].
Proof.
  induction d as [|[k' vs] d IH]; simpl; [reflexivity|].
  destruct (String.eqb k k'); simpl; [reflexivity|].
  rewrite IH. destruct (List.existsb _ _); reflexivity.
Qed.

Lemma keys_snoc_NoDup (keys : list string) (k : string) :
  List.NoDup keys ->
  List.NoDup (if List.existsb (String.eqb k) keys then keys
              else keys ++ [k]).
Proof.
  intros H. destruct (List.existsb _ _) eqn:E; [assumption|].
  apply List.NoDup_app; [assumption|repeat constructor; simpl; tauto|].
  intros x Hx [->|[]].
  assert (List.existsb (String.eqb x) keys = true); [|congruence].
  apply List.existsb_exists. exists x. split; [assumption|].
  apply String.eqb_refl.
Qed.

Lemma dict_set_keys {V : Type} (d : Dict V) (k : string) (v : V) :
  dict_keys (dict_set d k v)
  = if List.existsb (String.eqb k) (dict_keys d) then dict_keys d
    else dict_keys d ++ [k].
Proof.
  induction d as [|[k' v'] d IH]; simpl; [reflexivity|].
  destruct (String.eqb k k'); simpl; [reflexivity|].
  rewrite IH. destruct (List.existsb _ _); reflexivity.
Qed.

Lemma dict_get_set {V : Type} (d : Dict V) (k c : string) (v : V) :
  dict_get (dict_set d k v) c
  = if String.eqb c k then Some v else dict_get d c.
Proof.
  induction d as [|[k' v'] d IH]; simpl.
  - destruct (String.eqb c k); reflexivity.
  - destruct (String.eqb_spec k k') as [->|Hk]; simpl.
    + destruct (String.eqb_spec c k'); reflexivity.
    + rewrite IH. destruct (String.eqb_spec c k') as [->|];
        destruct (String.eqb_spec k' k); try congruence; reflexivity.
Qed.

Lemma merge_items_spec (items : Dict (list string)) :
  List.NoDup (dict_keys items) ->
  List.Forall (fun entry => snd entry <> []) items ->
  forall d,
    List.NoDup (dict_keys d) ->
    let d' := List.fold_left
                (fun acc item => dict_extend acc (fst item) (snd item))
                items d in
    List.NoDup (dict_keys d')
    /\ forall c,
        dict_get d' c
        = extend_entry (dict_get d c)
            (match dict_get items c with Some l => l | None => [] end).
Proof.
  induction items as [|[k v] items IH]; intros Hnd Hne d Hd; simpl.
  - split; [assumption|]. intros c. reflexivity.
  - inversion Hnd as [|? ? Hnotin Hnd']; subst.
    apply List.Forall_cons_iff in Hne as [Hv Hne]. simpl in Hv.
    destruct (IH Hnd' Hne (dict_extend d k v)) as [H1 H2].
    { rewrite dict_extend_keys. now apply keys_snoc_NoDup. }
    split; [exact H1|].
    intros c. rewrite H2, dict_get_extend by assumption.
    destruct (String.eqb_spec c k) as [->|Hck].
    + rewrite (dict_get_not_key items k Hnotin).
      destruct v; [congruence|reflexivity].
    + reflexivity.
Qed.

Lemma merge_patterns_spec (self : AbusePatternEngine) (m : Message) :
  forall d,
    List.NoDup (dict_keys d) ->
    List.NoDup (dict_keys (merge_patterns self d m))
    /\ forall c,
        dict_get (merge_patterns self d m) c
        = extend_entry (dict_get d c) (detected_keywords self m c).
Proof.
  intros d Hd. unfold merge_patterns.
  destruct (analyze_message_total self m) as (_ & Hnd & Hget).
  assert (Hne : List.Forall (fun entry : string * list string =>
                               snd entry <> [])
                            (analyze_message_value self m)).
  { apply List.Forall_forall. intros [c l] Hin. simpl.
    pose proof (dict_get_first _ _ _ Hnd Hin) as E. rewrite Hget in E.
    destruct (detected_keywords self m c); [discriminate|].
    injection E as <-. discriminate. }
  destruct (merge_items_spec _ Hnd Hne d Hd) as [H1 H2].
  split; [exact H1|]. intros c. rewrite H2, Hget.
  destruct (detected_keywords self m c); reflexivity.
Qed.

Lemma merge_conversation_spec (self : AbusePatternEngine)
      (messages : list Message) :
  forall d,
    List.NoDup (dict_keys d) ->
    let d' := List.fold_left (merge_patterns self) messages d in
    List.NoDup (dict_keys d')
    /\ forall c,
        dict_get d' c
        = extend_entry (dict_get d c) (conversation_keywords self messages c).
Proof.
  induction messages as [|m ms IH]; intros d Hd; simpl.
  - split; [assumption|reflexivity].
  - destruct (merge_patterns_spec self m d Hd) as [H1 H2].
    destruct (IH _ H1) as [H3 H4]. split; [exact H3|].
    intros c. rewrite H4, H2. apply extend_entry_app.
Qed.

Lemma dict_get_map_values {V W : Type} (f : V -> W) (d : Dict V)
      (c : string) :
  dict_get (List.map (fun item => (fst item, f (snd item))) d) c
  = option_map f (dict_get d c).
Proof.
  induction d as [|[k v] d IH]; simpl; [reflexivity|].
  destruct (String.eqb c k); [reflexivity|exact IH].
Qed.

(** X19.  The dictionary [analyze_conversation] returns always holds the
    two flags, equal to [detect_escalation] and [detect_cycle] of the same
    messages.  Under any other name it holds the detected keywords of that
    category of all messages in message order, and nothing when no message
    has one; no key occurs twice.  A category that is itself named like a
    flag is overwritten by the flag. *)
Theorem X19_analyze_conversation_contents :
  forall (self : AbusePatternEngine) (messages : list Message),
    let results := analyze_conversation self messages in
    dict_get results "escalation_detected"
    = Some (Flag (detect_escalation self messages))
    /\ dict_get results "cycle_detected"
       = Some (Flag (detect_cycle self messages))
    /\ (forall category : string,
           category <> "escalation_detected"%string ->
           category <> "cycle_detected"%string ->
           dict_get results category
           = match conversation_keywords self messages category with
             | [] => None
             | kw :: kws => Some (Keywords (kw :: kws))
             end)
    /\ List.NoDup (dict_keys results).
Proof.
  intros self messages results. unfold results, analyze_conversation.
  destruct (merge_conversation_spec self messages [] (List.NoDup_nil _))
    as [Hnd Hget].
  set (gathered := List.fold_left (merge_patterns self) messages []) in *.
  split; [|split; [|split]].
  - rewrite !dict_get_set. reflexivity.
  - rewrite !dict_get_set. reflexivity.
  - intros category H1 H2. rewrite !dict_get_set.
    destruct (String.eqb_spec category "cycle_detected"); [congruence|].
    destruct (String.eqb_spec category "escalation_detected"); [congruence|].
    rewrite (dict_get_map_values Keywords), Hget. simpl.
    destruct (conversation_keywords self messages category); reflexivity.
  - rewrite dict_set_keys. apply keys_snoc_NoDup.
    rewrite dict_set_keys. apply keys_snoc_NoDup.
    unfold dict_keys. rewrite List.map_map. simpl. exact Hnd.
Qed.

Lemma X19_analyze_conversation_contents_witness :
  dict_get (analyze_conversation worthless_engine four_insults)
           "Emotional Abuse / Degradation"
  = Some (Keywords ["worthless"; "worthless"; "worthless"; "worthless"]%string).
Proof.
  pose proof (proj1 (proj2 (proj2
                (X19_analyze_conversation_contents
                   worthless_engine four_insults)))
                "Emotional Abuse / Degradation"%string) as H.
  rewrite H; [vm_compute; reflexivity|discriminate|discriminate].
Defined.

(* ================================================================== *)
(** * Further properties: [message_normalizer.py] *)
(* ================================================================== *)

Lemma collapse_single_spaced (b : bool) (l : list ascii) :
  single_spaced b (Normalizer.collapse_whitespace b l) = true.
Proof.
  revert b. induction l as [|c l IH]; intros b; simpl; [reflexivity|].
  destruct (Normalizer.is_space c) eqn:E.
  - destruct b; [apply IH|]. simpl. apply IH.
  - simpl. rewrite E. apply IH.
Qed.

Lemma single_spaced_fixed (b : bool) (l : list ascii) :
  single_spaced b l = true -> Normalizer.collapse_whitespace b l = l.
Proof.
  revert b. induction l as [|c l IH]; intros b; simpl; [reflexivity|].
  destruct (Normalizer.is_space c) eqn:E.
  - rewrite !andb_true_iff. intros [[Hc Hb] Hrest].
    apply Ascii.eqb_eq in Hc. destruct b; [discriminate|].
    subst c. f_equal. now apply IH.
  - intros H. f_equal. now apply IH.
Qed.

Lemma single_spaced_weaken (l : list ascii) :
  single_spaced true l = true -> single_spaced false l = true.
Proof.
  destruct l as [|c l]; simpl; [reflexivity|].
  destruct (Normalizer.is_space c); [|auto].
  rewrite !andb_true_iff. intros [[_ H] _]. discriminate H.
Qed.

Lemma lstrip_single_spaced (b : bool) (l : list ascii) :
  single_spaced b l = true -> single_spaced true (Normalizer.lstrip l) = true.
Proof.
  revert b. induction l as [|c l IH]; intros b; simpl; [reflexivity|].
  destruct (Normalizer.is_space c) eqn:E.
  - rewrite !andb_true_iff. intros [_ H]. now apply (IH true).
  - intros H. simpl. now rewrite E.
Qed.

Lemma lstrip_fixed (l : list ascii) :
  single_spaced true l = true -> Normalizer.lstrip l = l.
Proof.
  destruct l as [|c l]; simpl; [reflexivity|].
  destruct (Normalizer.is_space c); [|reflexivity].
  rewrite !andb_true_iff. intros [[_ H] _]. discriminate H.
Qed.

Lemma rstrip_single_spaced (b : bool) (l : list ascii) :
  single_spaced b l = true -> single_spaced b (Normalizer.rstrip l) = true.
Proof.
  revert b. induction l as [|c l IH]; intros b; [reflexivity|].
  cbn [Normalizer.rstrip single_spaced].
  destruct (Normalizer.rstrip l) as [|d kept] eqn:Er.
  - destruct (Normalizer.is_space c) eqn:E; [reflexivity|].
    intros _. simpl. now rewrite E.
  - cbn [single_spaced]. fold single_spaced.
    destruct (Normalizer.is_space c).
    + rewrite !andb_true_iff. intros [H1 H2]. split; [exact H1|].
      now apply IH.
    + apply IH.
Qed.

Lemma rstrip_idempotent (l : list ascii) :
  Normalizer.rstrip (Normalizer.rstrip l) = Normalizer.rstrip l.
Proof.
  induction l as [|c l IH]; [reflexivity|].
  cbn [Normalizer.rstrip].
  destruct (Normalizer.rstrip l) as [|d kept] eqn:Er.
  - destruct (Normalizer.is_space c) eqn:E; [reflexivity|].
    simpl. now rewrite E.
  - cbn [Normalizer.rstrip]. fold Normalizer.rstrip.
    cbn [Normalizer.rstrip] in IH. fold Normalizer.rstrip in IH.
    rewrite IH. reflexivity.
Qed.

Lemma lstrip_visible (l : list ascii) :
  visible (Normalizer.lstrip l) = visible l.
Proof.
  unfold visible. induction l as [|c l IH]; simpl; [reflexivity|].
  destruct (Normalizer.is_space c) eqn:E; simpl; [exact IH|].
  now rewrite E.
Qed.

Lemma rstrip_visible (l : list ascii) :
  visible (Normalizer.rstrip l) = visible l.
Proof.
  unfold visible. induction l as [|c l IH]; [reflexivity|].
  cbn [Normalizer.rstrip List.filter].
  destruct (Normalizer.rstrip l) as [|d kept] eqn:Er.
  - rewrite <- IH. destruct (Normalizer.is_space c) eqn:E; simpl;
      rewrite ?E; reflexivity.
  - rewrite <- IH. reflexivity.
Qed.

Lemma collapse_visible (b : bool) (l : list ascii) :
  visible (Normalizer.collapse_whitespace b l) = visible l.
Proof.
  unfold visible. revert b. induction l as [|c l IH]; intros b; simpl;
    [reflexivity|].
  destruct (Normalizer.is_space c) eqn:E; simpl.
  - destruct b; simpl; apply IH.
  - rewrite E. simpl. now rewrite IH.
Qed.

Lemma lstrip_length (l : list ascii) :
  List.length (Normalizer.lstrip l) <= List.length l.
Proof.
  induction l as [|c l IH]; simpl; [lia|].
  destruct (Normalizer.is_space c); simpl; lia.
Qed.

Lemma rstrip_length (l : list ascii) :
  List.length (Normalizer.rstrip l) <= List.length l.
Proof.
  induction l as [|c l IH]; [simpl; lia|].
  cbn [Normalizer.rstrip].
  destruct (Normalizer.rstrip l) as [|d kept].
  - destruct (Normalizer.is_space c); simpl; lia.
  - simpl in *. lia.
Qed.

Lemma collapse_length (b : bool) (l : list ascii) :
  List.length (Normalizer.collapse_whitespace b l) <= List.length l.
Proof.
  revert b. induction l as [|c l IH]; intros b; simpl; [lia|].
  pose proof (IH true). pose proof (IH false).
  destruct (Normalizer.is_space c); [destruct b|]; simpl; lia.
Qed.

Lemma normalize_text_chars (text : string) :
  Text.chars (Normalizer.normalize_text text)
  = Normalizer.strip (Normalizer.collapse_whitespace false (Text.chars text)).
Proof.
  unfold Normalizer.normalize_text, Text.chars.
  destruct (String.eqb_spec text "") as [->|_]; [reflexivity|].
  apply list_ascii_of_string_of_list_ascii.
Qed.

Lemma string_of_chars (s : string) :
  string_of_list_ascii (Text.chars s) = s.
Proof. apply string_of_list_ascii_of_string. Qed.

(** X20.  On a text of code points below 128,
    [normalize_text] leaves a text in which the only whitespace is
    single spaces between other characters, with none at either end; it
    keeps all other characters in order, never makes the text longer, and
    normalizing a second time changes nothing. *)
Theorem X20_normalize_text_normal_form :
  forall text : string,
    Text.ascii_only (Text.chars text) = true ->
    let result := Normalizer.normalize_text text in
    single_spaced true (Text.chars result) = true
    /\ Normalizer.rstrip (Text.chars result) = Text.chars result
    /\ visible (Text.chars result) = visible (Text.chars text)
    /\ List.length (Text.chars result) <= List.length (Text.chars text)
    /\ Normalizer.normalize_text result = result.
Proof.
  intros text _ result.
  assert (Hs : single_spaced true (Text.chars result) = true).
  { unfold result. rewrite normalize_text_chars. unfold Normalizer.strip.
    apply rstrip_single_spaced.
    apply (lstrip_single_spaced false), collapse_single_spaced. }
  assert (Hr : Normalizer.rstrip (Text.chars result) = Text.chars result).
  { unfold result. rewrite normalize_text_chars. unfold Normalizer.strip.
    apply rstrip_idempotent. }
  split; [exact Hs|]. split; [exact Hr|]. split; [|split].
  - unfold result. rewrite normalize_text_chars. unfold Normalizer.strip.
    now rewrite rstrip_visible, lstrip_visible, collapse_visible.
  - unfold result. rewrite normalize_text_chars. unfold Normalizer.strip.
    pose proof (rstrip_length
                  (Normalizer.lstrip
                     (Normalizer.collapse_whitespace false
                                                     (Text.chars text)))).
    pose proof (lstrip_length
                  (Normalizer.collapse_whitespace false (Text.chars text))).
    pose proof (collapse_length false (Text.chars text)). lia.
  - unfold Normalizer.normalize_text at 1.
    destruct (String.eqb_spec result "") as [E|_]; [now rewrite E|].
    unfold Normalizer.strip.
    rewrite (single_spaced_fixed false) by now apply single_spaced_weaken.
    rewrite (lstrip_fixed _ Hs), Hr. apply string_of_chars.
Qed.

Lemma X20_normalize_text_normal_form_witness :
  let text := "  you're   crazy   "%string in
  Text.ascii_only (Text.chars text) = true
  /\ Normalizer.normalize_text (Normalizer.normalize_text text)
     = Normalizer.normalize_text text.
Proof.
  intros text.
  assert (A : Text.ascii_only (Text.chars text) = true) by reflexivity.
  split; [exact A|].
  exact (proj2 (proj2 (proj2 (proj2
           (X20_normalize_text_normal_form text A))))).
Defined.

Lemma lstrip_nil_iff (l : list ascii) :
  Normalizer.lstrip l = [] <-> List.forallb Normalizer.is_space l = true.
Proof.
  induction l as [|c l IH]; simpl; [tauto|].
  destruct (Normalizer.is_space c); simpl; [exact IH|].
  split; discriminate.
Qed.

Lemma rstrip_nil_iff (l : list ascii) :
  Normalizer.rstrip l = [] <-> List.forallb Normalizer.is_space l = true.
Proof.
  induction l as [|c l IH]; [simpl; tauto|].
  cbn [Normalizer.rstrip List.forallb].
  destruct (Normalizer.rstrip l) as [|d kept].
  - destruct (Normalizer.is_space c); simpl.
    + split; [intros _; now apply IH|reflexivity].
    + split; discriminate.
  - split; [discriminate|]. rewrite andb_true_iff. intros [_ H].
    apply IH in H. discriminate H.
Qed.

Lemma strip_nil_iff (l : list ascii) :
  Normalizer.strip l = [] <-> List.forallb Normalizer.is_space l = true.
Proof.
  unfold Normalizer.strip. rewrite rstrip_nil_iff. split.
  - intros H. induction l as [|c l IH]; [reflexivity|]. simpl in *.
    destruct (Normalizer.is_space c) eqn:E; simpl; [now apply IH|].
    simpl in H. now rewrite E in H.
  - intros H. apply lstrip_nil_iff in H. now rewrite H.
Qed.

Lemma strip_idempotent (l : list ascii) :
  Normalizer.strip (Normalizer.strip l) = Normalizer.strip l.
Proof.
  unfold Normalizer.strip.
  assert (H : forall s, Normalizer.lstrip (Normalizer.lstrip s)
                        = Normalizer.lstrip s).
  { induction s as [|c s IH]; simpl; [reflexivity|].
    destruct (Normalizer.is_space c) eqn:E; [exact IH|].
    simpl. now rewrite E. }
  assert (Hl : forall s, Normalizer.lstrip s = s ->
                         Normalizer.lstrip (Normalizer.rstrip s)
                         = Normalizer.rstrip s).
  { intros [|c s]; [reflexivity|]. cbn [Normalizer.rstrip Normalizer.lstrip].
    destruct (Normalizer.is_space c) eqn:E.
    - intros Hs. exfalso.
      pose proof (lstrip_length s) as Hlen. rewrite Hs in Hlen.
      simpl in Hlen. lia.
    - intros _. destruct (Normalizer.rstrip s); simpl; now rewrite E. }
  rewrite (Hl _ (H l)). apply rstrip_idempotent.
Qed.

(** X21.  On a sender of code points below 128,
    [normalize_sender] returns ['Unknown'] only for the empty
    sender: a sender made of whitespace alone becomes the empty string, and
    only a second pass would turn it into ['Unknown'].  On every other
    sender the result is stripped and a second pass changes nothing.  So
    after [normalize_message] every message has a sender, and the default
    of [msg.get('sender', 'Unknown')] is never used. *)
Theorem X21_normalize_sender_edge :
  forall sender : string,
    Text.ascii_only (Text.chars sender) = true ->
    let result := Normalizer.normalize_sender sender in
    (result = ""%string
     <-> sender <> ""%string
         /\ List.forallb Normalizer.is_space (Text.chars sender) = true)
    /\ Normalizer.normalize_sender result
       = (if String.eqb result "" then "Unknown"%string else result)
    /\ (forall m : Message,
           sender_or_unknown (Normalizer.normalize_message m)
           = Normalizer.normalize_sender
               (match msg_sender m with
                | Some s => s
                | None => ""%string
                end)).
Proof.
  intros sender _. cbv zeta.
  assert (Hchars : forall l, string_of_list_ascii l = ""%string <-> l = []).
  { intros [|c l]; simpl; split; try reflexivity; discriminate. }
  split; [|split].
  - unfold Normalizer.normalize_sender.
    destruct (String.eqb_spec sender "") as [E|Hne].
    + split; [discriminate|]. intros [H _]. congruence.
    + rewrite Hchars, strip_nil_iff. tauto.
  - unfold Normalizer.normalize_sender at 1.
    destruct (String.eqb_spec (Normalizer.normalize_sender sender) "")
      as [E|Hne]; [reflexivity|].
    unfold Normalizer.normalize_sender in *.
    destruct (String.eqb_spec sender "") as [E|Hs]; [reflexivity|].
    unfold Text.chars at 1. rewrite list_ascii_of_string_of_list_ascii.
    now rewrite strip_idempotent.
  - intros m. reflexivity.
Qed.

Lemma X21_normalize_sender_edge_witness :
  let sender := "   "%string in
  Text.ascii_only (Text.chars sender) = true
  /\ Normalizer.normalize_sender (Normalizer.normalize_sender sender)
     = "Unknown"%string.
Proof.
  intros sender.
  assert (A : Text.ascii_only (Text.chars sender) = true) by reflexivity.
  split; [exact A|].
  exact (proj1 (proj2 (X21_normalize_sender_edge sender A))).
Defined.

(* ================================================================== *)
(** * Further properties: [ConversationAnalyzer] *)
(* ================================================================== *)

Lemma normalize_keeps_timestamp (m : Message) :
  msg_timestamp (Normalizer.normalize_message m) = msg_timestamp m.
Proof. simpl. destruct (msg_timestamp m); reflexivity. Qed.

Lemma init_sorted_keys (messages : list Message) :
  StronglySorted Z.le
    (List.map ConversationAnalyzer.sort_key
              (ConversationAnalyzer.init messages)).
Proof.
  induction messages as [|m ms IH]; simpl; [constructor|].
  now apply insert_message_sorted.
Qed.

(** X22.  [ConversationAnalyzer] sorts messages without a timestamp to the
    front (their sort key is [datetime.min]), and
    [analyze_escalation_patterns] gives up when the first stored message
    has no timestamp.  So as soon as one message of the input lacks a
    timestamp, and no other is dated [datetime.min] itself, the method
    reports no escalation, whatever the other messages hold. *)
Theorem X22_one_undated_message_disables_escalation :
  forall raw : list Message,
    (exists m, List.In m raw /\ msg_timestamp m = None) ->
    (forall m t, List.In m raw -> msg_timestamp m = Some t -> (0 < t)%Z) ->
    ConversationAnalyzer.analyze_escalation_patterns
      (ConversationAnalyzer_new raw)
    = no_escalation.
Proof.
  intros raw (m0 & Hm0 & Hnone) Hpos. unfold ConversationAnalyzer_new.
  set (norm := Normalizer.normalize_messages raw).
  pose proof (init_perm norm) as Hperm.
  pose proof (init_sorted_keys norm) as Hsorted.
  assert (Hin0 : List.In (Normalizer.normalize_message m0)
                         (ConversationAnalyzer.init norm)).
  { eapply Permutation_in; [apply Permutation_sym; exact Hperm|].
    unfold norm, Normalizer.normalize_messages. now apply List.in_map. }
  destruct (ConversationAnalyzer.init norm) as [|h tl] eqn:E;
    [destruct Hin0|].
  unfold ConversationAnalyzer.analyze_escalation_patterns.
  destruct (msg_timestamp h) as [t|] eqn:Ht; [exfalso|reflexivity].
  assert (Hh : List.In h norm).
  { eapply Permutation_in; [exact Hperm|now left]. }
  unfold norm, Normalizer.normalize_messages in Hh.
  apply List.in_map_iff in Hh as (h0 & <- & Hh0).
  rewrite normalize_keeps_timestamp in Ht.
  pose proof (Hpos h0 t Hh0 Ht) as Hlt.
  destruct Hin0 as [Heq|Hin0].
  - apply (f_equal msg_timestamp) in Heq.
    rewrite !normalize_keeps_timestamp in Heq. congruence.
  - simpl in Hsorted. apply StronglySorted_inv in Hsorted as [_ Hall].
    rewrite List.Forall_forall in Hall.
    specialize (Hall _ (List.in_map ConversationAnalyzer.sort_key _ _ Hin0)).
    unfold ConversationAnalyzer.sort_key in Hall.
    rewrite !normalize_keeps_timestamp, Ht, Hnone in Hall. lia.
Qed.

Lemma X22_one_undated_message_disables_escalation_witness :
  ConversationAnalyzer.analyze_escalation_patterns
    (ConversationAnalyzer_new dated_and_undated) = no_escalation
  /\ ConversationAnalyzer.escalation_detected
       (ConversationAnalyzer.analyze_escalation_patterns
          (ConversationAnalyzer_new dated_threats)) = true.
Proof.
  split; [|vm_compute; reflexivity].
  apply X22_one_undated_message_disables_escalation.
  - exists (undated_message "no date here"). split; [|reflexivity].
    unfold dated_and_undated. apply List.in_or_app. right. now left.
  - intros m t [<-|[<-|[<-|[]]]] [= <-]; vm_compute; reflexivity.
Defined.

Lemma move_window_stay (start ts : datetime) :
  (ts <= start + ConversationAnalyzer.window_size)%Z ->
  ConversationAnalyzer.move_window start ts = start.
Proof.
  intros H. destruct (move_window_spec start ts) as (k & E & _ & Hk).
  rewrite window_size_value in *.
  destruct Hk as [->|Hk]; [rewrite E; lia|].
  destruct k as [|k]; [rewrite E; lia|]. lia.
Qed.

Lemma bump_count_single (t0 : datetime) (category : string)
      (wc : list (datetime * Dict nat)) :
  List.length wc <= 1 ->
  List.Forall (fun kv => fst kv = t0) wc ->
  List.length (ConversationAnalyzer.bump_count t0 category wc) <= 1
  /\ List.Forall (fun kv => fst kv = t0)
                 (ConversationAnalyzer.bump_count t0 category wc).
Proof.
  destruct wc as [|[w counts] [|kv wc]]; simpl; intros Hlen Hall;
    try lia.
  - split; [lia|]. repeat constructor.
  - apply List.Forall_inv in Hall. simpl in Hall. subst w.
    rewrite Z.eqb_refl. simpl. split; [lia|]. repeat constructor.
Qed.

Lemma count_indicators_single (text : string) (t0 : datetime)
      (wc : list (datetime * Dict nat)) :
  List.length wc <= 1 ->
  List.Forall (fun kv => fst kv = t0) wc ->
  List.length (ConversationAnalyzer.count_indicators text t0 wc) <= 1
  /\ List.Forall (fun kv => fst kv = t0)
                 (ConversationAnalyzer.count_indicators text t0 wc).
Proof.
  unfold ConversationAnalyzer.count_indicators.
  generalize escalation_categories. intros cats. revert wc.
  induction cats as [|c cats IH]; intros wc Hlen Hall; simpl; [auto|].
  apply IH; unfold ConversationAnalyzer.count_category;
    generalize (match dict_get ABUSE_INDICATORS c with
                | Some keywords => keywords
                | None => []
                end); intros kws; revert wc Hlen Hall;
    (induction kws as [|kw kws IHk]; intros wc Hlen Hall; simpl;
     [assumption|]);
    apply IHk; unfold ConversationAnalyzer.count_keyword;
    destruct (ConversationAnalyzer.keyword_hit_ignorecase kw text);
    try assumption; apply bump_count_single; assumption.
Qed.

Lemma escalation_loop_single (t0 : datetime) (messages : list Message) :
  (forall m t, List.In m messages -> msg_timestamp m = Some t ->
               (t <= t0 + ConversationAnalyzer.window_size)%Z) ->
  forall st,
    ConversationAnalyzer.current_window_start st = t0 ->
    List.length (ConversationAnalyzer.window_counts st) <= 1 ->
    List.Forall (fun kv => fst kv = t0)
                (ConversationAnalyzer.window_counts st) ->
    List.length
      (ConversationAnalyzer.window_counts
         (List.fold_left ConversationAnalyzer.escalation_message
                         messages st)) <= 1.
Proof.
  induction messages as [|m ms IH]; intros Hall st Hst Hlen Hkeys; simpl;
    [assumption|].
  assert (Hrest : forall m' t, List.In m' ms -> msg_timestamp m' = Some t ->
                               (t <= t0 + ConversationAnalyzer.window_size)%Z)
    by (intros m' t Hin; apply Hall; now right).
  unfold ConversationAnalyzer.escalation_message at 2.
  destruct (msg_timestamp m) as [ts|] eqn:Hts; [|now apply IH].
  rewrite Hst, (move_window_stay t0 ts) by (apply (Hall m); auto; now left).
  destruct (count_indicators_single (msg_text m) t0
              (ConversationAnalyzer.window_counts st) Hlen Hkeys)
    as [H1 H2].
  apply IH; auto.
Qed.

(** X23.  When the first stored message is dated at least seven days before
    [datetime.max] and no timestamp lies more than seven days after it,
    every message is counted in the one window anchored there, and
    [analyze_escalation_patterns] reports no escalation however many
    indicators the messages hold. *)
Theorem X23_one_window_never_escalates :
  forall (first : Message) (rest : list Message) (t0 : datetime),
    msg_timestamp first = Some t0 ->
    window_in_range t0 ->
    (forall m t, List.In m rest -> msg_timestamp m = Some t ->
                 (t <= t0 + ConversationAnalyzer.window_size)%Z) ->
    ConversationAnalyzer.analyze_escalation_patterns (first :: rest)
    = no_escalation.
Proof.
  intros first rest t0 Ht0 _ Hall.
  unfold ConversationAnalyzer.analyze_escalation_patterns. rewrite Ht0.
  set (st := List.fold_left ConversationAnalyzer.escalation_message
               (first :: rest) _).
  assert (Hlen : List.length (ConversationAnalyzer.window_counts st) <= 1).
  { apply (escalation_loop_single t0).
    - intros m t [<-|Hin] Hm; [|eauto].
      rewrite window_size_value. rewrite Ht0 in Hm. injection Hm as <-. lia.
    - reflexivity.
    - simpl. lia.
    - constructor. }
  assert (Hnone : forall c,
             ConversationAnalyzer.detail_of
               (ConversationAnalyzer.window_counts st) c = []).
  { intros c. unfold ConversationAnalyzer.detail_of.
    rewrite List.length_map, (Permutation_length (sorted_keys_perm _)),
      List.length_map.
    destruct (Nat.leb_spec 2
                (List.length (ConversationAnalyzer.window_counts st)));
      [lia|reflexivity]. }
  unfold escalation_categories. cbn [List.flat_map].
  rewrite !Hnone. reflexivity.
Qed.

Lemma X23_one_window_never_escalates_witness :
  ConversationAnalyzer.analyze_escalation_patterns
    [ timed_message "calm words" (Datetime.make 2024 1 1 10 0);
      timed_message "I will destroy you" (Datetime.make 2024 1 8 10 0) ]
  = no_escalation.
Proof.
  apply (X23_one_window_never_escalates _ _ (Datetime.make 2024 1 1 10 0)).
  - reflexivity.
  - vm_compute. split; discriminate.
  - intros m t [<-|[]] [= <-]. vm_compute. discriminate.
Defined.

Lemma detail_of_sound (wc : list (datetime * Dict nat)) (c : string) :
  List.In c escalation_categories ->
  List.length (ConversationAnalyzer.detail_of wc c) <= 1
  /\ List.Forall
       (fun d => detail_sound d
                 /\ ConversationAnalyzer.category d = c)
       (ConversationAnalyzer.detail_of wc c).
Proof.
  intros Hc. unfold ConversationAnalyzer.detail_of.
  set (counts := List.map (ConversationAnalyzer.count_in wc c)
                          (sorted_keys (List.map fst wc))).
  assert (Hlen : List.length counts = List.length wc).
  { unfold counts.
    now rewrite List.length_map, (Permutation_length (sorted_keys_perm _)),
      List.length_map. }
  destruct (Nat.leb_spec 2 (List.length counts)) as [H2|H2]; simpl;
    [|split; [lia|constructor]].
  destruct (Nat.ltb_spec (List.hd 0 counts) (List.last counts 0)) as [Hlt|Hge];
    simpl; [|split; [lia|constructor]].
  split; [lia|]. constructor; [|constructor].
  unfold detail_sound. simpl. auto.
Qed.

(** X24.  What [analyze_escalation_patterns] can return:
    [escalation_detected] is true exactly when [details] is not empty;
    there is at most one detail per category, in the order threats,
    emotional abuse; and every detail names one of the two categories, has
    trend "increasing", spans at least two windows, and has a final count
    above its initial count. *)
Theorem X24_escalation_result_invariants :
  forall messages : list Message,
    let r := ConversationAnalyzer.analyze_escalation_patterns messages in
    (ConversationAnalyzer.escalation_detected r = true
     <-> ConversationAnalyzer.details r <> [])
    /\ List.length (ConversationAnalyzer.details r) <= 2
    /\ List.Forall detail_sound (ConversationAnalyzer.details r)
    /\ List.NoDup
         (List.map ConversationAnalyzer.category
                   (ConversationAnalyzer.details r)).
Proof.
  intros messages r. unfold r.
  unfold ConversationAnalyzer.analyze_escalation_patterns.
  assert (Htriv : (false = true <-> @nil ConversationAnalyzer.Detail <> [])
                  /\ 0 <= 2
                  /\ List.Forall detail_sound []
                  /\ List.NoDup
                       (List.map ConversationAnalyzer.category [])).
  { split; [split; [discriminate|congruence]|].
    split; [lia|]. split; constructor. }
  destruct messages as [|first rest]; [exact Htriv|].
  destruct (msg_timestamp first) as [t0|]; [|exact Htriv].
  set (wc := ConversationAnalyzer.window_counts _).
  cbn [ConversationAnalyzer.escalation_detected ConversationAnalyzer.details].
  unfold escalation_categories. cbn [List.flat_map].
  rewrite List.app_nil_r.
  destruct (detail_of_sound wc "Threats / Intimidation") as [L1 F1];
    [now left|].
  destruct (detail_of_sound wc "Emotional Abuse / Degradation") as [L2 F2];
    [right; now left|].
  destruct (ConversationAnalyzer.detail_of wc "Threats / Intimidation")
    as [|d1 [|? ?]]; simpl in L1; try lia;
    destruct (ConversationAnalyzer.detail_of wc
                "Emotional Abuse / Degradation")
      as [|d2 [|? ?]]; simpl in L2; try lia; simpl.
  - split; [split; [discriminate|congruence]|].
    split; [lia|]. split; constructor.
  - apply List.Forall_inv in F2 as [F2 _].
    split; [split; [discriminate|reflexivity]|].
    split; [lia|]. split; [repeat (constructor; [assumption|]); constructor|].
    repeat constructor; simpl; tauto.
  - apply List.Forall_inv in F1 as [F1 _].
    split; [split; [discriminate|reflexivity]|].
    split; [lia|]. split; [repeat (constructor; [assumption|]); constructor|].
    repeat constructor; simpl; tauto.
  - apply List.Forall_inv in F1 as [F1 C1].
    apply List.Forall_inv in F2 as [F2 C2].
    split; [split; [discriminate|reflexivity]|].
    split; [lia|]. split; [repeat (constructor; [assumption|]); constructor|].
    rewrite C1, C2. repeat constructor; simpl; [|tauto].
    intros [H|[]]. discriminate H.
Qed.

Lemma first_isolation_keyword_spec (text : string) (keywords : list string) :
  match first_isolation_keyword text keywords with
  | Some keyword =>
      List.In keyword keywords
      /\ ConversationAnalyzer.keyword_hit_ignorecase keyword text = true
  | None =>
      List.existsb
        (fun keyword =>
           ConversationAnalyzer.keyword_hit_ignorecase keyword text)
        keywords = false
  end.
Proof.
  induction keywords as [|kw kws IH]; simpl; [reflexivity|].
  destruct (ConversationAnalyzer.keyword_hit_ignorecase kw text) eqn:E.
  - split; [now left|exact E].
  - destruct (first_isolation_keyword text kws).
    + destruct IH. split; [now right|assumption].
    + exact IH.
Qed.

Lemma isolation_loop_spec (messages : list Message) :
  forall (n : nat) (acc : list IsolationSample),
    exists samples,
      List.fold_left isolation_message messages (n, acc)
      = (n + List.length samples, acc ++ samples)
      /\ List.Forall2 sample_of (List.filter isolation_hit messages) samples.
Proof.
  induction messages as [|m ms IH]; intros n acc; simpl.
  - exists []. rewrite List.app_nil_r, Nat.add_0_r. split; [reflexivity|].
    constructor.
  - unfold isolation_message at 2. unfold isolation_hit at 1.
    pose proof (first_isolation_keyword_spec (msg_text m)
                                             ISOLATION_INDICATORS) as Hk.
    destruct (first_isolation_keyword (msg_text m) ISOLATION_INDICATORS)
      as [kw|].
    + destruct Hk as [Hin Hhit].
      assert (E : List.existsb
                    (fun keyword =>
                       ConversationAnalyzer.keyword_hit_ignorecase
                         keyword (msg_text m)) ISOLATION_INDICATORS = true).
      { apply List.existsb_exists. exists kw. auto. }
      rewrite E. cbn [fst snd].
      destruct (IH (S n)
                   (acc ++ [ {| sample_timestamp := msg_timestamp m;
                                sample_sender := msg_sender m;
                                sample_keyword := kw;
                                sample_excerpt :=
                                  Text.take_str 100 (msg_text m) |} ]))
        as (samples & -> & Hall).
      eexists (_ :: samples). split.
      * rewrite <- List.app_assoc. simpl. f_equal. lia.
      * constructor; [|exact Hall]. unfold sample_of. simpl. auto.
    + rewrite Hk. apply IH.
Qed.

(** X25.  [analyze_isolation_tactics] counts messages, not keywords:
    [isolation_indicators_found] is the number of messages that match at
    least one isolation keyword, so it never exceeds the number of
    messages and does not depend on their order.  The samples describe the
    first five matching messages in order, and the severity is low up to 5,
    medium from 6 to 10 and high above. *)
Theorem X25_isolation_counts_messages :
  forall messages : list Message,
    let r := analyze_isolation_tactics messages in
    let hits := List.filter isolation_hit messages in
    isolation_indicators_found r = List.length hits
    /\ isolation_indicators_found r <= List.length messages
    /\ isolation_severity r = isolation_level (List.length hits)
    /\ List.Forall2 sample_of (List.firstn 5 hits) (sample_messages r)
    /\ (forall messages' : list Message,
           Permutation messages messages' ->
           isolation_indicators_found (analyze_isolation_tactics messages')
           = isolation_indicators_found r
           /\ isolation_severity (analyze_isolation_tactics messages')
              = isolation_severity r).
Proof.
  assert (Hmain : forall messages : list Message,
             let r := analyze_isolation_tactics messages in
             let hits := List.filter isolation_hit messages in
             isolation_indicators_found r = List.length hits
             /\ isolation_severity r = isolation_level (List.length hits)
             /\ List.Forall2 sample_of (List.firstn 5 hits)
                             (sample_messages r)).
  { intros messages. unfold analyze_isolation_tactics.
    destruct (isolation_loop_spec messages 0 []) as (samples & -> & Hall).
    simpl. pose proof (List.Forall2_length Hall) as Hlen.
    split; [lia|]. split.
    - rewrite Hlen. unfold isolation_level.
      destruct (Nat.ltb_spec 10 (List.length samples));
        destruct (Nat.ltb_spec 5 (List.length samples));
        destruct (Nat.leb_spec (List.length samples) 5);
        destruct (Nat.leb_spec (List.length samples) 10);
        try lia; reflexivity.
    - clear Hlen. generalize 5. intros k. revert k.
      induction Hall as [|m s ms ss Hms Hall IH]; intros k.
      + rewrite !List.firstn_nil. constructor.
      + destruct k; simpl; constructor; auto. }
  intros messages r hits.
  destruct (Hmain messages) as (H1 & H2 & H3).
  split; [exact H1|]. split.
  { unfold r. rewrite H1. apply List.filter_length_le. }
  split; [exact H2|]. split; [exact H3|].
  intros messages' Hp. destruct (Hmain messages') as (H1' & H2' & _).
  unfold r. rewrite H1, H2, H1', H2'.
  rewrite (filter_length_perm isolation_hit _ _ Hp). auto.
Qed.

Lemma X25_isolation_counts_messages_witness :
  let messages :=
    [ text_message "don't talk to them, you can't see your family";
      text_message "see you at eight" ] in
  isolation_indicators_found
    (analyze_isolation_tactics (List.rev messages))
  = isolation_indicators_found (analyze_isolation_tactics messages).
Proof.
  intros messages.
  refine (proj1 (proj2 (proj2 (proj2 (proj2
            (X25_isolation_counts_messages messages)))) _ _)).
  apply perm_swap.
Defined.

Lemma fold_min_spec (ts : list Z) (t : Z) :
  let m := List.fold_left Z.min ts t in
  List.In m (t :: ts) /\ List.Forall (fun x => (m <= x)%Z) (t :: ts).
Proof.
  revert t. induction ts as [|a ts IH]; intros t; simpl.
  - split; [now left|]. repeat constructor. lia.
  - destruct (IH (Z.min t a)) as [Hin Hall]. simpl in Hin.
    apply List.Forall_cons_iff in Hall as [H1 H2].
    split.
    + destruct Hin as [E|Hin]; [|auto].
      destruct (Z.min_spec t a) as [[_ E']|[_ E']];
        [left|right; left]; congruence.
    + repeat constructor; try lia. exact H2.
Qed.

Lemma fold_max_spec (ts : list Z) (t : Z) :
  let m := List.fold_left Z.max ts t in
  List.In m (t :: ts) /\ List.Forall (fun x => (x <= m)%Z) (t :: ts).
Proof.
  revert t. induction ts as [|a ts IH]; intros t; simpl.
  - split; [now left|]. repeat constructor. lia.
  - destruct (IH (Z.max t a)) as [Hin Hall]. simpl in Hin.
    apply List.Forall_cons_iff in Hall as [H1 H2].
    split.
    + destruct Hin as [E|Hin]; [|auto].
      destruct (Z.max_spec t a) as [[_ E']|[_ E']];
        [right; left|left]; congruence.
    + repeat constructor; try lia. exact H2.
Qed.

(** X26.  [_calculate_time_span] returns the empty dictionary exactly when
    no message has a timestamp.  Otherwise [start] and [end] are timestamps
    of the conversation, every timestamp lies between them, and
    [duration_days] is the number of whole days from [start] to [end]: never
    negative, and 0 when the conversation spans less than 24 hours. *)
Theorem X26_time_span_bounds :
  forall messages : list Message,
    match _calculate_time_span messages with
    | None => List.existsb has_timestamp messages = false
    | Some span =>
        List.existsb has_timestamp messages = true
        /\ List.In (span_start span) (timestamps_of messages)
        /\ List.In (span_end span) (timestamps_of messages)
        /\ List.Forall (fun t => (span_start span <= t <= span_end span)%Z)
                       (timestamps_of messages)
        /\ (0 <= duration_days span)%Z
        /\ (duration_days span * Datetime.usec_per_day
            <= span_end span - span_start span
            < (duration_days span + 1) * Datetime.usec_per_day)%Z
    end.
Proof.
  intros messages. unfold _calculate_time_span.
  assert (Hex : List.existsb has_timestamp messages
                = negb (Nat.eqb (List.length (timestamps_of messages)) 0)).
  { unfold timestamps_of, has_timestamp.
    induction messages as [|m ms IH]; simpl; [reflexivity|].
    destruct (msg_timestamp m); simpl; [reflexivity|exact IH]. }
  rewrite Hex.
  destruct (timestamps_of messages) as [|t ts]; [reflexivity|].
  destruct (fold_min_spec ts t) as [Hmin_in Hmin].
  destruct (fold_max_spec ts t) as [Hmax_in Hmax].
  cbn [span_start span_end duration_days].
  set (lo := List.fold_left Z.min ts t) in *.
  set (hi := List.fold_left Z.max ts t) in *.
  assert (Hle : (lo <= hi)%Z).
  { apply List.Forall_inv in Hmin. apply List.Forall_inv in Hmax. lia. }
  split; [reflexivity|]. split; [exact Hmin_in|]. split; [exact Hmax_in|].
  split.
  { rewrite List.Forall_forall in *. intros x Hx.
    specialize (Hmin x Hx). specialize (Hmax x Hx). lia. }
  assert (Hday : Datetime.usec_per_day = 86400000000%Z) by reflexivity.
  rewrite Hday.
  pose proof (Z.div_mod (hi - lo) 86400000000 ltac:(lia)).
  pose proof (Z.mod_pos_bound (hi - lo) 86400000000 ltac:(lia)).
  pose proof (Z.div_pos (hi - lo) 86400000000 ltac:(lia) ltac:(lia)).
  split; lia.
Qed.

(* ================================================================== *)
(** * Further properties: document mode *)
(* ================================================================== *)

(** X27.  What document mode can never report.  The text is analysed as one
    message, so no compound pattern is found (every window needs at least
    two messages), the timeline has at most one week and no escalation, and
    one message is counted as analysed.  The clock is read twice: first for
    the document's timestamp, then for the analysis date. *)
Theorem X27_document_mode_limits :
  forall (clk : nat -> datetime) (no_list : bool) (text : string),
    text <> ""%string ->
    let self :=
      DARVOAnalyzer_init (if no_list then None else Some []) (Some text) in
    let r := Clock.run (analyze_darvo_patterns self) clk in
    compound_patterns r = []
    /\ escalation_flag (timeline_analysis r) = Some false
    /\ List.length (timeline_windows (timeline_analysis r)) <= 1
    /\ total_messages_analyzed (forensic_summary r) = 1
    /\ analysis_date (forensic_summary r) = clk 1.
Proof.
  intros clk no_list text Htext self r.
  assert (Hr : r = fst (_analyze_conversation
                          {| self_messages :=
                               [document_message text (clk 0)];
                             self_text := text |} clk 1)).
  { unfold r, self, Clock.run, analyze_darvo_patterns, DARVOAnalyzer_init.
    destruct no_list; simpl;
      destruct (String.eqb_spec text "") as [E|_]; try congruence;
      reflexivity. }
  set (doc := document_message text (clk 0)) in *.
  pose proof (single_week_timeline [doc] (week_key (clk 0))) as Hweek.
  destruct Hweek as [Hlen Hesc].
  { intros m ts [<-|[]] [= <-]. reflexivity. }
  rewrite Hr. unfold _analyze_conversation, Clock.bind, Clock.ret.
  cbn [fst compound_patterns timeline_analysis forensic_summary self_messages].
  split; [reflexivity|]. split.
  { destruct (_analyze_timeline [doc]) as [|tw esc n] eqn:E.
    - unfold _analyze_timeline in E. simpl in E. discriminate E.
    - simpl in *. destruct esc; [congruence|reflexivity]. }
  split; [exact Hlen|].
  split; reflexivity.
Qed.

Lemma X27_document_mode_limits_witness :
  compound_patterns
    (Clock.run
       (analyze_darvo_patterns
          (DARVOAnalyzer_init None
             (Some "I never said that. You're crazy. I'm the real victim here.")))
       clock_a) = [].
Proof.
  refine (proj1 (X27_document_mode_limits clock_a true _ _)).
  discriminate.
Defined.

(* ================================================================== *)
(** * Further properties: the fuzzy scan of [analyze_text] *)
(* ================================================================== *)

Lemma ratio_gt_total (a b : list ascii) :
  Difflib.ratio_gt_085 a b = Some (ratio_above a b).
Proof.
  unfold ratio_above, Difflib.ratio_gt_085.
  destruct (matches_bound a b) as (m & -> & _). reflexivity.
Qed.

Lemma sliding_windows_spec (keyword : list ascii) (n : nat)
      (offsets : list nat) (lower_text : list ascii) :
  sliding_windows_hit keyword n offsets lower_text
  = Some (List.existsb
            (fun i => ratio_above (slice lower_text i n) keyword) offsets).
Proof.
  induction offsets as [|i rest IH]; simpl; [reflexivity|].
  rewrite ratio_gt_total.
  destruct (ratio_above (slice lower_text i n) keyword); [reflexivity|].
  exact IH.
Qed.

(** X28.  The fuzzy scan of [analyze_text] always finishes, and reports a
    finding exactly when some window of the keyword's length, at an offset
    from 0 to [len(text) - len(keyword)], has a ratio above 0.85 with the
    lower-cased keyword.  A text shorter than the keyword has no such
    window, so it never gives a fuzzy finding. *)
Theorem X28_analyze_text_fuzzy_scan :
  forall text keyword : string,
    let lowered := Text.lower (Text.chars text) in
    let n := List.length (Text.chars keyword) in
    analyze_text_fuzzy text keyword
    = Some (List.existsb
              (fun i => ratio_above (slice lowered i n)
                                    (Text.lower (Text.chars keyword)))
              (List.seq 0 (List.length lowered + 1 - n)))
    /\ (List.length (Text.chars text) < List.length (Text.chars keyword) ->
        analyze_text_fuzzy text keyword = Some false).
Proof.
  intros text keyword lowered n.
  assert (H : analyze_text_fuzzy text keyword
              = Some (List.existsb
                        (fun i => ratio_above
                                    (slice lowered i n)
                                    (Text.lower (Text.chars keyword)))
                        (List.seq 0 (List.length lowered + 1 - n))))
    by apply sliding_windows_spec.
  split; [exact H|].
  intros Hshort. rewrite H. unfold lowered, n, Text.lower.
  rewrite List.length_map.
  replace (List.length (Text.chars text) + 1
           - List.length (Text.chars keyword)) with 0 by lia.
  reflexivity.
Qed.

Lemma X28_analyze_text_fuzzy_scan_witness :
  analyze_text_fuzzy "worthles" "worthless" = Some false.
Proof.
  apply (proj2 (X28_analyze_text_fuzzy_scan "worthles" "worthless")).
  simpl. lia.
Defined.

